(** * TradePy backtesting core: ledger, strategy sizing, price adjustment
      and the day-by-day trading loop, embedded from the Python sources.

    Conventions of the embedding.
    - Python [float] values (prices, cash, percentages) are idealised as
      exact rationals [Q]; equalities between amounts are stated with [==].
      IEEE special values (inf, NaN) are outside the model, so Q's
      convention [x / 0 == 0] only matters at a zero divisor.
    - Python [int] values are [Z]; [str] values are [string], compared
      lexicographically as Python compares them.
    - Exceptions are values of [exn]; fallible code lives in [result].
    - Mutable objects are threaded explicitly.  A [Position] held by
      [Holdings] and appended to a sell list is one Python object, so every
      mutation is applied in the holdings store and the sell list records
      the mutated value. *)

From Stdlib Require Import ZArith QArith Qround Qabs List String Ascii Bool.
From Stdlib Require Import Lia Lqa Sorting.Sorted Permutation Setoid Morphisms.
Import ListNotations.

Local Open Scope Q_scope.

(* ------------------------------------------------------------------ *)
(** ** Exceptions and the error monad *)

Inductive exn : Type :=
| KeyError | IndexError | AttributeError | AssertionError
| ZeroDivisionError | ValueError | TypeError.

Inductive result (A : Type) : Type :=
| Ok (a : A)
| Raise (e : exn).
Arguments Ok {A} a.
Arguments Raise {A} e.

Definition bind {A B} (m : result A) (k : A -> result B) : result B :=
  match m with
  | Ok a => k a
  | Raise e => Raise e
  end.

Notation "x <- m ;; k" := (bind m (fun x => k))
  (at level 61, m at next level, right associativity).
Notation "' pat <- m ;; k" := (bind m (fun x => match x with pat => k end))
  (at level 61, pat pattern, m at next level, right associativity).

(** The comprehension [[x for x in xs if p(x)]] where [p] may raise. *)
Fixpoint filterM {A} (p : A -> result bool) (xs : list A) : result (list A) :=
  match xs with
  | [] => Ok []
  | x :: xs' =>
      b <- p x ;;
      rest <- filterM p xs' ;;
      Ok (if b then x :: rest else rest)
  end.

Fixpoint mapM {A B} (f : A -> result B) (xs : list A) : result (list B) :=
  match xs with
  | [] => Ok []
  | x :: xs' =>
      y <- f x ;;
      ys <- mapM f xs' ;;
      Ok (y :: ys)
  end.

(* ------------------------------------------------------------------ *)
(** ** tradepy.utils *)

Module Utils.

(** Python truthiness of a number: zero is false. *)
Definition truthy (x : Q) : bool := negb (Qeq_bool x 0).

(** Nearest integer, ties to the even neighbour, as Python's [round]. *)
Definition round_half_even (x : Q) : Z :=
  let f := Qfloor x in
  match Qcompare (x - inject_Z f) (1 # 2) with
  | Lt => f
  | Gt => (f + 1)%Z
  | Eq => if Z.even f then f else (f + 1)%Z
  end.

(** Modelled from the spec: [tradepy.utils.round_val] is not among the
    sources; the spec says every decorated computation is "rounded to 2
    decimals at the point of calculation", i.e. [round(value, 2)]. *)
Definition round_val (x : Q) : Q :=
  inject_Z (round_half_even (x * 100)) / 100.

(** Modelled from the spec: [tradepy.utils.calc_pct_chg] is not among the
    sources; the spec speaks of the "percentage change of [then_price]
    vs. [base_price]". *)
Definition calc_pct_chg (base_price then_price : Q) : Q :=
  100 * (then_price - base_price) / base_price.

(** Python's [a // b] on floats. *)
Definition floordiv (a b : Q) : Z := Qfloor (a / b).

End Utils.
Import Utils.

(* ------------------------------------------------------------------ *)
(** ** tradepy.core.position *)

Record Position : Type := mkPosition {
  pos_timestamp : string;
  pos_code : string;
  pos_company : string;
  pos_price : Q;
  pos_shares : Z;
  pos_latest_price : Q;
  pos_id : string
}.

(** [Position.__post_init__]: an unset (falsy) latest price defaults to the
    entry price; an unset id is generated from the company name and a piece
    of a fresh uuid4, supplied here by the caller as [uuid_piece]. *)
Definition new_position (uuid_piece : string)
    (timestamp code company : string) (price : Q) (shares : Z)
    (latest_price : Q) (id : string) : Position :=
  mkPosition timestamp code company price shares
    (if truthy latest_price then latest_price else price)
    (if String.eqb id EmptyString then company ++ "-" ++ uuid_piece else id)%string.

Definition total_value_at (p : Position) (price : Q) : Q :=
  round_val (price * inject_Z (pos_shares p)).

Definition cost (p : Position) : Q :=
  round_val (total_value_at p (pos_price p)).

Definition profit_or_loss_at (p : Position) (price : Q) : Q :=
  round_val (total_value_at p price - cost p).

Definition chg_at (p : Position) (price : Q) : Q :=
  round_val (price - pos_price p).

Definition pct_chg_at (p : Position) (price : Q) : Q :=
  round_val (calc_pct_chg (pos_price p) price).

Definition price_at_pct_change (p : Position) (pct : Q) : Q :=
  round_val (pos_price p * (1 + pct * (1 # 100))).

Definition update_price (p : Position) (price : Q) : Position :=
  mkPosition (pos_timestamp p) (pos_code p) (pos_company p) (pos_price p)
    (pos_shares p) price (pos_id p).

(** [Position.close] sets the realized exit price as latest price. *)
Definition close (p : Position) (price : Q) : Position :=
  update_price p price.

(* ------------------------------------------------------------------ *)
(** ** tradepy.backtesting.holdings *)

(** Modelled from the spec: [tradepy/backtesting/holdings.py] is not among
    the sources.  The spec describes Holdings as "a collection of open
    Positions indexed by symbol, supporting lookup of 'is this symbol
    currently held', iteration over all held positions, and aggregate
    valuation (sum of mark value)"; buying "sum[s] raw cost (price x shares)
    across positions" and "insert[s] positions into Holdings"; selling
    "sum[s] raw proceeds (latest price x shares)" and "remove[s] positions
    from Holdings"; mark-to-market "update[s] every held position's latest
    price from that day's close-price lookup".  A Python dict keeps
    insertion order, so the store is an association list keyed by code. *)
Module Holdings.

(** Modelled from the spec: "a collection of open Positions indexed by
    symbol". *)
Definition t : Type := list (string * Position).

Definition PriceLookupFun : Type := string -> result Q.

Definition empty : t := [].

Fixpoint lookup (code : string) (h : t) : option Position :=
  match h with
  | [] => None
  | (c, p) :: h' => if String.eqb c code then Some p else lookup code h'
  end.

(** Modelled from the spec: the symbols "currently held". *)
Definition position_codes (h : t) : list string := map fst h.

Definition held (code : string) (h : t) : bool :=
  existsb (String.eqb code) (position_codes h).

(** Modelled from the spec: "insert positions into Holdings", as the dict
    assignment [positions[code] = pos]: overwrite in place, or append. *)
Fixpoint insert (code : string) (pos : Position) (h : t) : t :=
  match h with
  | [] => [(code, pos)]
  | (c, p) :: h' =>
      if String.eqb c code then (c, pos) :: h'
      else (c, p) :: insert code pos h'
  end.

(** Modelled from the spec: "remove positions from Holdings". *)
Definition remove (code : string) (h : t) : t :=
  filter (fun cp => negb (String.eqb (fst cp) code)) h.

Definition mark_value (p : Position) : Q :=
  pos_latest_price p * inject_Z (pos_shares p).

Definition raw_cost (p : Position) : Q :=
  pos_price p * inject_Z (pos_shares p).

Definition sumQ (xs : list Q) : Q := fold_right Qplus 0 xs.

(** Modelled from the spec: "aggregate valuation (sum of mark value)",
    the mark value being latest price x shares. *)
Definition get_total_worth (h : t) : Q :=
  sumQ (map (fun cp => mark_value (snd cp)) h).

(** Modelled from the spec: "update every held position's latest price
    from that day's close-price lookup"; a failing lookup propagates. *)
Fixpoint tick (price_lookup : PriceLookupFun) (h : t) : result t :=
  match h with
  | [] => Ok []
  | (c, p) :: h' =>
      price <- price_lookup (pos_code p) ;;
      rest <- tick price_lookup h' ;;
      Ok ((c, update_price p price) :: rest)
  end.

(** Modelled from the spec: "sum raw cost (price x shares) across
    positions ... insert positions into Holdings"; returns the sum. *)
Definition buy (positions : list Position) (h : t) : Q * t :=
  (sumQ (map raw_cost positions),
   fold_left (fun acc p => insert (pos_code p) p acc) positions h).

(** Modelled from the spec: "sum raw proceeds (latest price x shares) ...
    remove positions from Holdings"; returns the sum. *)
Definition sell (positions : list Position) (h : t) : Q * t :=
  (sumQ (map mark_value positions),
   fold_left (fun acc p => remove (pos_code p) acc) positions h).

End Holdings.

(* ------------------------------------------------------------------ *)
(** ** tradepy.backtesting.account *)

(** Modelled from the spec: [tradepy.types.TradeActions] is not among the
    sources; the spec lists the tags open, close, stop-loss, take-profit. *)
Inductive TradeActionType : Type := OPEN | CLOSE | STOP_LOSS | TAKE_PROFIT.

Record TradeLog : Type := mkTradeLog {
  tl_timestamp : string;
  tl_tag : TradeActionType;
  tl_pos_id : string;
  tl_code : string;
  tl_shares : Z;
  tl_price : Q;
  tl_total_value : Q;
  tl_chg : option Q;
  tl_pct_chg : option Q;
  tl_total_return : option Q
}.

Record CapitalsLog : Type := mkCapitalsLog {
  cl_timestamp : string;
  cl_positions_value : Q;
  cl_free_cash_amount : Q
}.

Module TradeBook.

Record t : Type := mk {
  trade_logs : list TradeLog;
  capital_logs : list CapitalsLog
}.

Definition init : t := mk [] [].

Definition sell_ (b : t) (timestamp : string) (pos : Position)
    (action : TradeActionType) : result t :=
  let chg := chg_at pos (pos_latest_price pos) in
  let pct_chg := pct_chg_at pos (pos_latest_price pos) in
  if truthy (pos_latest_price pos) then
    Ok (mk (trade_logs b ++
             [mkTradeLog timestamp action (pos_id pos) (pos_code pos)
                (pos_shares pos) (pos_latest_price pos)
                (pos_latest_price pos * inject_Z (pos_shares pos))
                (Some chg) (Some pct_chg)
                (Some ((pos_price pos * pct_chg * (1 # 100))
                       * inject_Z (pos_shares pos)))])
           (capital_logs b))
  else Raise AssertionError.

Definition buy (b : t) (timestamp : string) (pos : Position) : t :=
  mk (trade_logs b ++
        [mkTradeLog timestamp OPEN (pos_id pos) (pos_code pos)
           (pos_shares pos) (pos_price pos)
           (pos_price pos * inject_Z (pos_shares pos)) None None None])
     (capital_logs b).

Definition exit b timestamp pos := sell_ b timestamp pos CLOSE.
Definition stop_loss b timestamp pos := sell_ b timestamp pos STOP_LOSS.
Definition take_profit b timestamp pos := sell_ b timestamp pos TAKE_PROFIT.
Definition close_position b timestamp pos := sell_ b timestamp pos CLOSE.

Definition log_capitals (b : t) (timestamp : string)
    (cash_amount positions_value : Q) : t :=
  mk (trade_logs b)
     (capital_logs b ++ [mkCapitalsLog timestamp positions_value cash_amount]).

End TradeBook.

Module Account.

Record t : Type := mk {
  buy_commission_rate : Q;
  sell_commission_rate : Q;
  cash_amount : Q;
  holdings : Holdings.t
}.

Definition with_cash (a : t) (cash : Q) : t :=
  mk (buy_commission_rate a) (sell_commission_rate a) cash (holdings a).

Definition with_holdings (a : t) (h : Holdings.t) : t :=
  mk (buy_commission_rate a) (sell_commission_rate a) (cash_amount a) h.

Definition add_buy_commissions (a : t) (amount : Q) : Q :=
  round_val (amount * (1 + buy_commission_rate a * (1 # 100))).

Definition take_sell_commissions (a : t) (amount : Q) : Q :=
  round_val (amount * (1 - sell_commission_rate a * (1 # 100))).

(** [any(self.holdings)]: iteration yields (code, position) pairs, which
    are truthy, so the test is non-emptiness. *)
Definition tick (a : t) (price_lookup : Holdings.PriceLookupFun) : result t :=
  match holdings a with
  | [] => Ok a
  | _ :: _ =>
      h <- Holdings.tick price_lookup (holdings a) ;;
      Ok (with_holdings a h)
  end.

Definition buy (a : t) (positions : list Position) : t :=
  let '(cost_total, h) := Holdings.buy positions (holdings a) in
  let a' := with_holdings a h in
  if truthy cost_total
  then with_cash a' (cash_amount a' - add_buy_commissions a' cost_total)
  else a'.

Definition sell (a : t) (positions : list Position) : t :=
  let '(close_total, h) := Holdings.sell positions (holdings a) in
  let a' := with_holdings a h in
  if truthy close_total
  then with_cash a' (cash_amount a' + take_sell_commissions a' close_total)
  else a'.

Definition clear (a : t) : t :=
  sell a (map snd (holdings a)).

Definition get_total_asset_value (a : t) : Q :=
  Holdings.get_total_worth (holdings a) + cash_amount a.

Definition get_positions_value (a : t) : Q :=
  Holdings.get_total_worth (holdings a).

End Account.

(* ------------------------------------------------------------------ *)
(** ** Day bars and data frames *)

(** A cell of a frame: a finite number, a string, or the infinity that
    pandas yields for a non-zero number divided by zero ([positive] is its
    sign). *)
Inductive value : Type :=
| VNum (q : Q)
| VStr (s : string)
| VInf (positive : bool).

(** One row of the bar dataset.  The key (timestamp, code) and the base
    columns are record fields; derived columns (chg, pct_chg, indicators)
    live in [bar_extra]. *)
Record Bar : Type := mkBar {
  bar_timestamp : string;
  bar_code : string;
  bar_company : string;
  bar_open : Q;
  bar_close : Q;
  bar_high : Q;
  bar_low : Q;
  bar_vol : Z;
  bar_extra : list (string * value)
}.

(** A pandas DataFrame: the names of its index levels, the names of its
    derived columns, and its rows in order. *)
Record Frame : Type := mkFrame {
  df_index : list string;
  df_columns : list string;
  df_rows : list Bar
}.

Module DataFrame.

(** [pd.DataFrame()] *)
Definition empty_frame : Frame := mkFrame [] [] [].

Definition is_empty (df : Frame) : bool :=
  match df_rows df with [] => true | _ => false end.

Definition mem (s : string) (l : list string) : bool :=
  existsb (String.eqb s) l.

Definition base_columns : list string :=
  ["timestamp"; "code"; "company"; "open"; "close"; "high"; "low"; "vol"]%string.

(** [name in df]: membership among the columns; index levels are not
    columns. *)
Definition has_column (df : Frame) (name : string) : bool :=
  (mem name base_columns && negb (mem name (df_index df)))
  || mem name (df_columns df).

Fixpoint assoc (name : string) (l : list (string * value)) : option value :=
  match l with
  | [] => None
  | (k, v) :: l' => if String.eqb k name then Some v else assoc name l'
  end.

Fixpoint set_assoc (name : string) (v : value) (l : list (string * value))
  : list (string * value) :=
  match l with
  | [] => [(name, v)]
  | (k, w) :: l' =>
      if String.eqb k name then (k, v) :: l' else (k, w) :: set_assoc name v l'
  end.

(** The value of a named column in a row. *)
Definition cell (index : list string) (row : Bar) (name : string)
  : option value :=
  if mem name index then None
  else if String.eqb name "timestamp" then Some (VStr (bar_timestamp row))
  else if String.eqb name "code" then Some (VStr (bar_code row))
  else if String.eqb name "company" then Some (VStr (bar_company row))
  else if String.eqb name "open" then Some (VNum (bar_open row))
  else if String.eqb name "close" then Some (VNum (bar_close row))
  else if String.eqb name "high" then Some (VNum (bar_high row))
  else if String.eqb name "low" then Some (VNum (bar_low row))
  else if String.eqb name "vol" then Some (VNum (inject_Z (bar_vol row)))
  else assoc name (bar_extra row).

(** [getattr(row, name)] on a row produced by [itertuples]. *)
Definition getattr (index : list string) (row : Bar) (name : string)
  : result value :=
  match cell index row name with
  | Some v => Ok v
  | None => Raise AttributeError
  end.

(** [df[name]] as the list of the column's values. *)
Definition column (df : Frame) (name : string) : result (list value) :=
  if has_column df name then
    mapM (fun r => match cell (df_index df) r name with
                   | Some v => Ok v
                   | None => Raise KeyError
                   end) (df_rows df)
  else Raise KeyError.

Definition set_extra (row : Bar) (name : string) (v : value) : Bar :=
  mkBar (bar_timestamp row) (bar_code row) (bar_company row)
    (bar_open row) (bar_close row) (bar_high row) (bar_low row)
    (bar_vol row) (set_assoc name v (bar_extra row)).

Fixpoint zip_set (name : string) (rows : list Bar) (vals : list value)
  : result (list Bar) :=
  match rows, vals with
  | [], [] => Ok []
  | r :: rows', v :: vals' =>
      rest <- zip_set name rows' vals' ;;
      Ok (set_extra r name v :: rest)
  | _, _ => Raise ValueError
  end.

(** [df[name] = series] for a derived column. *)
Definition set_column (df : Frame) (name : string) (vals : list value)
  : result Frame :=
  rows <- zip_set name (df_rows df) vals ;;
  Ok (mkFrame (df_index df)
        (if mem name (df_columns df) then df_columns df
         else df_columns df ++ [name])
        rows).

Definition with_rows (df : Frame) (rows : list Bar) : Frame :=
  mkFrame (df_index df) (df_columns df) rows.

(** [reset_index] followed by [set_index(names)]. *)
Definition reindex (df : Frame) (names : list string) : Frame :=
  mkFrame names (df_columns df) (df_rows df).

Fixpoint union (l1 l2 : list string) : list string :=
  match l2 with
  | [] => l1
  | x :: l2' => if mem x l1 then union l1 l2' else union (l1 ++ [x]) l2'
  end.

(** [pd.concat] of frames, rows in order; no input at all is an error. *)
Definition concat (dfs : list Frame) : result Frame :=
  match dfs with
  | [] => Raise ValueError
  | d :: _ =>
      Ok (mkFrame
            (match filter (fun d => negb (is_empty d)) dfs with
             | d' :: _ => df_index d'
             | [] => df_index d
             end)
            (fold_left (fun acc d => union acc (df_columns d)) dfs [])
            (flat_map df_rows dfs))
  end.

(** Stable insertion sort by a "less or equal" test. *)
Section Sort.
Context {A : Type} (le : A -> A -> bool).

Fixpoint insert_sorted (x : A) (l : list A) : list A :=
  match l with
  | [] => [x]
  | y :: l' => if le x y then x :: l else y :: insert_sorted x l'
  end.

Definition sort (l : list A) : list A :=
  fold_right insert_sorted [] l.
End Sort.

Fixpoint dedup (l : list string) : list string :=
  match l with
  | [] => []
  | x :: l' => if mem x l' then dedup l' else x :: dedup l'
  end.

(** [df.groupby(level=key)]: group keys ascending, rows of a group in
    frame order. *)
Definition groupby (key : Bar -> string) (df : Frame)
  : list (string * Frame) :=
  map (fun k =>
         (k, with_rows df
               (filter (fun r => String.eqb (key r) k) (df_rows df))))
      (sort String.leb (dedup (map key (df_rows df)))).

Definition row_le (r1 r2 : Bar) : bool :=
  match String.compare (bar_timestamp r1) (bar_timestamp r2) with
  | Lt => true
  | Gt => false
  | Eq => String.leb (bar_code r1) (bar_code r2)
  end.

(** [sort_index] on the (timestamp, code) index. *)
Definition sort_index (df : Frame) : Frame :=
  with_rows df (sort row_le (df_rows df)).

(** [sort_values("timestamp")] *)
Definition sort_by_timestamp (rows : list Bar) : list Bar :=
  sort (fun r1 r2 => String.leb (bar_timestamp r1) (bar_timestamp r2)) rows.

(** [sub_df.loc[(timestamp, code)]] on a (timestamp, code)-indexed
    frame. *)
Definition loc (df : Frame) (timestamp code : string) : option Bar :=
  find (fun r => String.eqb (bar_timestamp r) timestamp
                 && String.eqb (bar_code r) code) (df_rows df).

End DataFrame.

(* ------------------------------------------------------------------ *)
(** ** Configuration, randomness and the strategy interface *)

Record FactorRow : Type := mkFactorRow {
  fac_code : string;
  fac_timestamp : string;
  hfq_factor : Q
}.

(** Modelled from the spec: [tradepy/backtesting/context.py] is not among
    the sources; the spec lists the read-only parameters "stop-loss %,
    take-profit %, max new opens per day, max position size as a fraction
    of total assets, trading lot size" and the optional factor table.  The
    account, which the context shares with the backtester, is threaded
    separately. *)
Record Context : Type := mkContext {
  stop_loss : Q;
  take_profit : Q;
  max_position_opens : Z;
  max_position_size : Q;
  trading_unit : Z;
  hfq_adjust_factors : option (list FactorRow)
}.

(** The process's source of randomness ([uuid.uuid4], [DataFrame.sample]):
    the k-th draw is [rng k]; code that draws returns the advanced
    counter. *)
Definition Entropy : Type := nat -> nat.

Module Random.

Definition hex_digit (n : nat) : ascii :=
  nth (n mod 16)
    ["0"; "1"; "2"; "3"; "4"; "5"; "6"; "7";
     "8"; "9"; "a"; "b"; "c"; "d"; "e"; "f"]%char "0"%char.

(** [str(uuid.uuid4()).split('-')[1]]: four hexadecimal digits. *)
Definition uuid_piece (n : nat) : string :=
  String (hex_digit (n / 4096))
    (String (hex_digit (n / 256))
       (String (hex_digit (n / 16)) (String (hex_digit n) EmptyString))).

Fixpoint remove_nth {A} (i : nat) (l : list A) : list A :=
  match l, i with
  | [], _ => []
  | _ :: l', O => l'
  | x :: l', S i' => x :: remove_nth i' l'
  end.

(** [n] rows drawn without replacement. *)
Fixpoint draw (rng : Entropy) (k : nat) (rows : list Bar) (n : nat)
  : list Bar :=
  match n with
  | O => []
  | S n' =>
      let i := (rng k mod List.length rows)%nat in
      match nth_error rows i with
      | None => []
      | Some r => r :: draw rng (S k) (remove_nth i rows) n'
      end
  end.

(** [df.sample(n)] *)
Definition sample (rng : Entropy) (k : nat) (df : Frame) (n : Z)
  : result (Frame * nat) :=
  if (n <? 0)%Z then Raise ValueError
  else if (Z.of_nat (List.length (df_rows df)) <? n)%Z then Raise ValueError
  else Ok (DataFrame.with_rows df (draw rng k (df_rows df) (Z.to_nat n)),
           (k + Z.to_nat n)%nat).

End Random.

(** The strategy-defined parts of [StrategyBase]: the indicator names read
    by [should_buy] and [should_close] (their argument names), the two
    predicates, the pre- and post-processing hooks, the indicator methods
    looked up by name, and the compute order handed out by the indicator
    resolver ([tradepy/backtesting/dag.py], not among the sources: its
    result is taken as given). *)
Record Strategy : Type := mkStrategy {
  buy_indicators : list string;
  close_indicators : list string;
  should_buy : list value -> bool;
  should_close : list value -> bool;
  pre_process : Frame -> Frame;
  post_process : Frame -> Frame;
  indicator_method : string -> option (list (list value) -> list value);
  compute_order : list (string * list string)
}.

(* ------------------------------------------------------------------ *)
(** ** tradepy.backtesting.strategy *)

Module StrategyBase.

Definition should_stop_loss (ctx : Context) (tick : Bar) (position : Position)
  : option Q :=
  let open_pct_chg := calc_pct_chg (pos_price position) (bar_open tick) in
  if Qle_bool open_pct_chg (- stop_loss ctx) then Some (bar_open tick)
  else
    let low_pct_chg := calc_pct_chg (pos_price position) (bar_low tick) in
    if Qle_bool low_pct_chg (- stop_loss ctx)
    then Some (price_at_pct_change position (- stop_loss ctx))
    else None.

Definition should_take_profit (ctx : Context) (tick : Bar) (position : Position)
  : option Q :=
  let open_pct_chg := calc_pct_chg (pos_price position) (bar_open tick) in
  if Qle_bool (take_profit ctx) open_pct_chg then Some (bar_open tick)
  else
    let high_pct_chg := calc_pct_chg (pos_price position) (bar_high tick) in
    if Qle_bool (take_profit ctx) high_pct_chg
    then Some (price_at_pct_change position (take_profit ctx))
    else None.

(** [bars_df.loc[buy_indices]] *)
Definition loc_all (bars_df : Frame) (indices : list (string * string))
  : result (list Bar) :=
  mapM (fun idx => match DataFrame.loc bars_df (fst idx) (snd idx) with
                   | Some r => Ok r
                   | None => Raise KeyError
                   end) indices.

Definition get_pool_and_budget (ctx : Context) (account : Account.t)
    (rng : Entropy) (k : nat)
    (bars_df : Frame) (buy_indices : list (string * string)) (budget : Q)
  : result (Frame * Q * nat) :=
  rows <- loc_all bars_df buy_indices ;;
  let pool_df := DataFrame.with_rows bars_df rows in
  '(pool_df, k) <-
    (if (max_position_opens ctx <? Z.of_nat (List.length (df_rows pool_df)))%Z
     then Random.sample rng k bars_df (max_position_opens ctx)
     else Ok (pool_df, k)) ;;
  match df_rows pool_df with
  | [] => Raise ZeroDivisionError
  | _ :: _ =>
      let n := inject_Z (Z.of_nat (List.length (df_rows pool_df))) in
      let min_position_allocation := inject_Z (floordiv budget n) in
      let max_position_value :=
        max_position_size ctx * Account.get_total_asset_value account in
      let budget :=
        if Qle_bool min_position_allocation max_position_value
        then budget else n * max_position_value in
      Ok (pool_df, budget, k)
  end.

(** A pool row with its [trade_price] and [trade_shares] columns. *)
Record Sized : Type := mkSized {
  sz_row : Bar;
  trade_price : Q;
  trade_shares : Z
}.

(** [trade_price = close * trading_unit] and
    [trade_shares = budget / num_stocks // trade_price].  The share counts
    are whole numbers, as they are in pandas for a non-zero per-lot price;
    for a zero one pandas yields an infinity, which [trade_shares] does
    not hold, so the statements on the sizing that depend on the share
    counts assume positive close prices and a positive lot size. *)
Definition size_rows (ctx : Context) (rows : list Bar) (budget : Q)
  : list Sized :=
  let num_stocks := inject_Z (Z.of_nat (List.length rows)) in
  map (fun r =>
         let tp := bar_close r * inject_Z (trading_unit ctx) in
         mkSized r tp (floordiv (budget / num_stocks) tp))
      rows.

Definition allocated (pool : list Sized) : Q :=
  Holdings.sumQ
    (map (fun s => trade_price s * inject_Z (trade_shares s)) pool).

(** [sort_values("trade_price", ascending=False)] *)
Definition sort_desc (pool : list Sized) : list Sized :=
  DataFrame.sort (fun a b => Qle_bool (trade_price b) (trade_price a)) pool.

(** The redistribution loop over the sorted pool. *)
Fixpoint redistribute (pool : list Sized) (remaining_budget : Q)
  : list Sized * Q :=
  match pool with
  | [] => ([], remaining_budget)
  | row :: pool' =>
      let residual_shares := floordiv remaining_budget (trade_price row) in
      if (residual_shares =? 0)%Z then
        let '(rest, rem) := redistribute pool' remaining_budget in
        (row :: rest, rem)
      else
        let '(rest, rem) :=
          redistribute pool'
            (remaining_budget
             - inject_Z residual_shares * trade_price row) in
        (mkSized (sz_row row) (trade_price row)
           (trade_shares row + residual_shares) :: rest, rem)
  end.

(** The final comprehension; every created position draws one uuid. *)
Fixpoint make_positions (ctx : Context) (rng : Entropy) (k : nat)
    (pool : list Sized) : list Position * nat :=
  match pool with
  | [] => ([], k)
  | row :: pool' =>
      if (0 <? trade_shares row)%Z then
        let p := new_position (Random.uuid_piece (rng k))
                   (bar_timestamp (sz_row row)) (bar_code (sz_row row))
                   (bar_company (sz_row row)) (bar_close (sz_row row))
                   (trade_shares row * trading_unit ctx) 0 EmptyString in
        let '(ps, k') := make_positions ctx rng (S k) pool' in
        (p :: ps, k')
      else make_positions ctx rng k pool'
  end.

(** The sized pool after redistribution, with the leftover budget. *)
Definition allocate (ctx : Context) (rows : list Bar) (budget : Q)
  : list Sized * Q :=
  let pool := size_rows ctx rows budget in
  let remaining_budget := budget - allocated pool in
  redistribute (sort_desc pool) remaining_budget.

Definition generate_positions (ctx : Context) (rng : Entropy) (k : nat)
    (pool_df : Frame) (budget : Q) : list Position * nat :=
  if DataFrame.is_empty pool_df || Qle_bool budget 0 then ([], k)
  else make_positions ctx rng k (fst (allocate ctx (df_rows pool_df) budget)).

End StrategyBase.

(* ------------------------------------------------------------------ *)
(** ** tradepy.backtesting.backtester *)

Module Backtester.

(** The inner [while True] loop: advance [i] while the next factor's date
    is not after [ts].  Every iteration either leaves the loop, raises, or
    increments [i] below the length of [fac_ts], so [fuel] above that
    length is never exhausted (lemma [advance_fuel] below). *)
Fixpoint advance (fuel : nat) (fac_ts : list string) (i : nat) (ts : string)
  : result nat :=
  match fuel with
  | O => Raise IndexError
  | S fuel' =>
      match nth_error fac_ts (i + 1) with
      | None => Raise IndexError
      | Some t =>
          if String.ltb ts t then Ok i
          else advance fuel' fac_ts (i + 1) ts
      end
  end.

Fixpoint assign_loop (fac_ts : list string) (fac_vals : list Q)
    (i : nat) (timestamps : list string) : result (list Q) :=
  match timestamps with
  | [] => Ok []
  | ts :: timestamps' =>
      i' <- advance (S (List.length fac_ts)) fac_ts i ts ;;
      match nth_error fac_vals i' with
      | None => Raise IndexError
      | Some v =>
          factors <- assign_loop fac_ts fac_vals i' timestamps' ;;
          Ok (v :: factors)
      end
  end.

Definition assign_factor_value_to_day (fac_ts : list string)
    (fac_vals : list Q) (timestamps : list string) : result (list Q) :=
  assign_loop fac_ts fac_vals 0 timestamps.

Definition scale (row : Bar) (factor : Q) : Bar :=
  mkBar (bar_timestamp row) (bar_code row) (bar_company row)
    (bar_open row * factor) (bar_close row * factor)
    (bar_high row * factor) (bar_low row * factor)
    (bar_vol row) (bar_extra row).

(** [(100 * (chg / close.shift(1))).fillna(0)] on one row: the first row
    and a zero change over a zero close are NaN, filled with 0; a non-zero
    change over a zero close is an infinity, which [fillna] leaves. *)
Definition pct_change (prev_close : option Q) (chg : Q) : value :=
  match prev_close with
  | None => VNum 0
  | Some pc =>
      if Qeq_bool pc 0
      then if Qeq_bool chg 0 then VNum 0 else VInf (Qle_bool 0 chg)
      else VNum (100 * (chg / pc))
  end.

(** [chg] and [pct_chg] against the previous row's close ([shift(1)]),
    with [fillna(0)] for the first row. *)
Fixpoint with_changes (prev_close : option Q) (rows : list Bar) : list Bar :=
  match rows with
  | [] => []
  | r :: rows' =>
      let chg := match prev_close with
                 | None => 0
                 | Some pc => bar_close r - pc
                 end in
      DataFrame.set_extra (DataFrame.set_extra r "chg" (VNum chg))
        "pct_chg" (pct_change prev_close chg)
      :: with_changes (Some (bar_close r)) rows'
  end.

Definition round_value (v : value) : value :=
  match v with
  | VNum q => VNum (round_val q)
  | VStr s => VStr s
  | VInf positive => VInf positive
  end.

(** [DataFrame.round(2)] on one row. *)
Definition round_row (r : Bar) : Bar :=
  mkBar (bar_timestamp r) (bar_code r) (bar_company r)
    (round_val (bar_open r)) (round_val (bar_close r))
    (round_val (bar_high r)) (round_val (bar_low r))
    (bar_vol r)
    (map (fun kv => (fst kv, round_value (snd kv))) (bar_extra r)).

Definition add_column (cols : list string) (name : string) : list string :=
  if DataFrame.mem name cols then cols else cols ++ [name].

Definition _adjust_prices (bars_df : Frame) (adj_df : list FactorRow)
  : result Frame :=
  factor_vals <-
    assign_factor_value_to_day
      (map fac_timestamp adj_df) (map hfq_factor adj_df)
      (map bar_timestamp (df_rows bars_df)) ;;
  let scaled := map (fun rf => scale (fst rf) (snd rf))
                  (combine (df_rows bars_df) factor_vals) in
  Ok (mkFrame (df_index bars_df)
        (add_column (add_column (df_columns bars_df) "chg") "pct_chg")
        (map round_row (with_changes None scaled))).

Definition pct_chg_of (r : Bar) : value :=
  match DataFrame.assoc "pct_chg" (bar_extra r) with
  | Some v => v
  | None => VNum 0
  end.

(** [abs(v) > 21] for a cell of the pct_chg column. *)
Definition exceeds_21 (v : value) : bool :=
  match v with
  | VNum q => negb (Qle_bool (Qabs q) 21)
  | VInf _ => true
  | VStr _ => false
  end.

(** [bars_df["pct_chg"].abs().max() > 21] *)
Definition implausible (df : Frame) : bool :=
  existsb (fun r => exceeds_21 (pct_chg_of r)) (df_rows df).

(** [self.adjust_factors_df.loc[code].sort_values("timestamp")]: a code
    absent from the table is a KeyError; for a code with a single row
    [.loc] yields that row as a Series, whose [sort_values] does not take
    a column name and raises TypeError. *)
Definition factors_of (table : list FactorRow) (code : string)
  : result (list FactorRow) :=
  match filter (fun f => String.eqb (fac_code f) code) table with
  | [] => Raise KeyError
  | [_] => Raise TypeError
  | rows =>
      Ok (DataFrame.sort
            (fun a b => String.leb (fac_timestamp a) (fac_timestamp b)) rows)
  end.

Fixpoint compute_indicators (strategy : Strategy)
    (indicators : list (string * list string)) (bars_df : Frame)
  : result Frame :=
  match indicators with
  | [] => Ok bars_df
  | (ind, predecessors) :: rest =>
      if DataFrame.has_column bars_df ind
      then compute_indicators strategy rest bars_df
      else
        match indicator_method strategy ind with
        | None => Raise AttributeError
        | Some method =>
            cols <- mapM (DataFrame.column bars_df) predecessors ;;
            bars_df <- DataFrame.set_column bars_df ind (method cols) ;;
            compute_indicators strategy rest bars_df
        end
  end.

(** The [try ... except KeyError] block: [None] stands for the early
    [return pd.DataFrame()]. *)
Definition adjust_guarded (table : list FactorRow) (code : string)
    (bars_df : Frame) : result (option Frame) :=
  match (adjust_factors_df <- factors_of table code ;;
         _adjust_prices bars_df adjust_factors_df) with
  | Ok adjusted =>
      if implausible adjusted then Ok None else Ok (Some adjusted)
  | Raise KeyError => Ok None
  | Raise e => Raise e
  end.

Definition _adjust_then_compute (ctx : Context) (bars_df : Frame)
    (indicators : list (string * list string)) (strategy : Strategy)
  : result Frame :=
  match df_rows bars_df with
  | [] => Raise IndexError
  | first :: _ =>
      let code := bar_code first in
      let bars_df :=
        DataFrame.with_rows bars_df
          (DataFrame.sort_by_timestamp (df_rows bars_df)) in
      let bars_df := pre_process strategy bars_df in
      if DataFrame.is_empty bars_df then Ok bars_df
      else
        adjusted <-
          match hfq_adjust_factors ctx with
          | Some table => adjust_guarded table code bars_df
          | None => Ok (Some bars_df)
          end ;;
        match adjusted with
        | None => Ok DataFrame.empty_frame
        | Some bars_df =>
            bars_df <- compute_indicators strategy indicators bars_df ;;
            Ok (post_process strategy bars_df)
        end
  end.

Definition get_indicators_df (ctx : Context) (df : Frame) (strategy : Strategy)
  : result Frame :=
  let ind_resolv :=
    filter (fun ip => negb (DataFrame.has_column df (fst ip)))
      (compute_order strategy) in
  match ind_resolv with
  | [] => Ok df
  | _ :: _ =>
      let df :=
        match df_index df with
        | ["code"%string] => df
        | _ => DataFrame.reindex df ["code"%string]
        end in
      frames <-
        mapM (fun g => _adjust_then_compute ctx (snd g) ind_resolv strategy)
          (DataFrame.groupby bar_code df) ;;
      DataFrame.concat frames
  end.

(** The simulator's mutable state: the account, the trade book and the
    number of random draws consumed so far. *)
Record Sim : Type := mkSim {
  sim_account : Account.t;
  sim_book : TradeBook.t;
  sim_draws : nat
}.

Definition row_index (row : Bar) : string * string :=
  (bar_timestamp row, bar_code row).

Definition index_eqb (a b : string * string) : bool :=
  String.eqb (fst a) (fst b) && String.eqb (snd a) (snd b).

Definition index_in (idx : string * string) (l : list (string * string))
  : bool :=
  existsb (index_eqb idx) l.

Definition trade_index : list string := ["timestamp"; "code"]%string.

(** The predicate applied to the row's values of the named indicators,
    each read with [getattr(row, ind)]. *)
Definition apply_predicate (df : Frame) (pred : list value -> bool)
    (indicators : list string) (row : Bar) : result bool :=
  args <- mapM (DataFrame.getattr (df_index df) row) indicators ;;
  Ok (pred args).

Definition get_buy_signals (account : Account.t) (df : Frame)
    (strategy : Strategy) : result (list (string * string)) :=
  let curr_positions := Holdings.position_codes (Account.holdings account) in
  rows <-
    filterM (fun row =>
               if DataFrame.mem (bar_code row) curr_positions then Ok false
               else apply_predicate df (should_buy strategy)
                      (buy_indicators strategy) row)
      (df_rows df) ;;
  Ok (map row_index rows).

Definition get_close_signals (account : Account.t) (df : Frame)
    (strategy : Strategy) : result (list (string * string)) :=
  match close_indicators strategy with
  | [] => Ok []
  | _ :: _ =>
      let curr_positions :=
        Holdings.position_codes (Account.holdings account) in
      match curr_positions with
      | [] => Ok []
      | _ :: _ =>
          rows <-
            filterM (fun row =>
                       if DataFrame.mem (bar_code row) curr_positions
                       then apply_predicate df (should_close strategy)
                              (close_indicators strategy) row
                       else Ok false)
              (df_rows df) ;;
          Ok (map row_index rows)
      end
  end.

(** The value bound by [if price := f(...)]: present and non-zero. *)
Definition walrus (o : option Q) : option Q :=
  match o with
  | Some q => if truthy q then Some q else None
  | None => None
  end.

(** State of the exit loop: the holdings store, the trade book and the
    positions selected for selling. *)
Definition ExitAcc : Type := (Holdings.t * TradeBook.t * list Position)%type.

(** One iteration of [for code, pos in self.account.holdings]. *)
Definition exit_step (ctx : Context) (timestamp : string) (sub_df : Frame)
    (close_indices : list (string * string)) (acc : ExitAcc)
    (entry : string * Position) : result ExitAcc :=
  let '(h, book, sell_positions) := acc in
  let '(code, pos) := entry in
  match DataFrame.loc sub_df timestamp code with
  | None => Ok acc
  | Some bar =>
      match walrus (StrategyBase.should_take_profit ctx bar pos) with
      | Some take_profit_price =>
          let pos := close pos take_profit_price in
          book <- TradeBook.take_profit book timestamp pos ;;
          Ok (Holdings.insert code pos h, book, sell_positions ++ [pos])
      | None =>
          match walrus (StrategyBase.should_stop_loss ctx bar pos) with
          | Some stop_loss_price =>
              let pos := close pos stop_loss_price in
              book <- TradeBook.stop_loss book timestamp pos ;;
              Ok (Holdings.insert code pos h, book, sell_positions ++ [pos])
          | None =>
              if index_in (timestamp, code) close_indices then
                let pos := close pos (bar_close bar) in
                book <- TradeBook.close_position book timestamp pos ;;
                Ok (Holdings.insert code pos h, book, sell_positions ++ [pos])
              else Ok acc
          end
      end
  end.

Fixpoint exit_loop (ctx : Context) (timestamp : string) (sub_df : Frame)
    (close_indices : list (string * string)) (acc : ExitAcc)
    (entries : list (string * Position)) : result ExitAcc :=
  match entries with
  | [] => Ok acc
  | entry :: entries' =>
      acc <- exit_step ctx timestamp sub_df close_indices acc entry ;;
      exit_loop ctx timestamp sub_df close_indices acc entries'
  end.

(** [lambda code: sub_df.loc[(timestamp, code), "close"]] *)
Definition price_lookup (timestamp : string) (sub_df : Frame)
  : Holdings.PriceLookupFun :=
  fun code =>
    match DataFrame.loc sub_df timestamp code with
    | Some bar => Ok (bar_close bar)
    | None => Raise KeyError
    end.

(** The body of the per-day loop of [trade]. *)
Definition trade_day (ctx : Context) (strategy : Strategy) (rng : Entropy)
    (st : Sim) (timestamp : string) (sub_df : Frame) : result Sim :=
  let book := sim_book st in
  (* Opening *)
  account <- Account.tick (sim_account st) (price_lookup timestamp sub_df) ;;
  (* Sell *)
  close_indices <- get_close_signals account sub_df strategy ;;
  '(h, book, sell_positions) <-
    exit_loop ctx timestamp sub_df close_indices
      (Account.holdings account, book, []) (Account.holdings account) ;;
  let account := Account.with_holdings account h in
  let account :=
    match sell_positions with
    | [] => account
    | _ :: _ => Account.sell account sell_positions
    end in
  (* Buy *)
  buy_indices <- get_buy_signals account sub_df strategy ;;
  '(account, book, k) <-
    match buy_indices with
    | [] => Ok (account, book, sim_draws st)
    | _ :: _ =>
        '(pool_df, budget, k) <-
          StrategyBase.get_pool_and_budget ctx account rng (sim_draws st)
            sub_df buy_indices (Account.cash_amount account) ;;
        let '(buy_positions, k) :=
          StrategyBase.generate_positions ctx rng k pool_df budget in
        let account := Account.buy account buy_positions in
        Ok (account,
            fold_left (fun b pos => TradeBook.buy b timestamp pos)
              buy_positions book,
            k)
    end ;;
  (* Log this action day *)
  let book :=
    match buy_indices, close_indices with
    | [], [] => book
    | _, _ =>
        TradeBook.log_capitals book timestamp (Account.cash_amount account)
          (Holdings.get_total_worth (Account.holdings account))
    end in
  Ok (mkSim account book k).

Fixpoint trade_days (ctx : Context) (strategy : Strategy) (rng : Entropy)
    (st : Sim) (days : list (string * Frame)) : result Sim :=
  match days with
  | [] => Ok st
  | (timestamp, sub_df) :: days' =>
      st <- trade_day ctx strategy rng st timestamp sub_df ;;
      trade_days ctx strategy rng st days'
  end.

Definition index_names_eqb (l1 l2 : list string) : bool :=
  if list_eq_dec string_dec l1 l2 then true else false.

(** The frame as [trade] iterates it. *)
Definition trade_frame (df : Frame) : Frame :=
  if index_names_eqb (df_index df) trade_index then df
  else DataFrame.sort_index (DataFrame.reindex df trade_index).

(** [Backtester.trade]: starts from the backtester's account and a fresh
    trade book; returns the final state, whose [sim_book] is the returned
    trade book. *)
Definition trade (ctx : Context) (account : Account.t) (rng : Entropy)
    (k : nat) (df : Frame) (strategy : Strategy) : result Sim :=
  trade_days ctx strategy rng (mkSim account TradeBook.init k)
    (DataFrame.groupby bar_timestamp (trade_frame df)).

Definition run (ctx : Context) (account : Account.t) (rng : Entropy)
    (k : nat) (bars_df : Frame) (strategy : Strategy)
  : result (Frame * Sim) :=
  ind_df <- get_indicators_df ctx bars_df strategy ;;
  st <- trade ctx account rng k ind_df strategy ;;
  Ok (ind_df, st).

End Backtester.

(* ------------------------------------------------------------------ *)
(** ** Vocabulary of the ledger statements *)

Module Ledger.

(** A dict has no repeated key. *)
Definition dict_like (h : Holdings.t) : Prop :=
  NoDup (Holdings.position_codes h).

(** A batch as [generate_positions] creates it: latest price defaulted
    to the entry price, pairwise distinct symbols, none of them held. *)
Definition fresh_batch (h : Holdings.t) (ps : list Position) : Prop :=
  NoDup (map pos_code ps)
  /\ Forall (fun p => ~ In (pos_code p) (Holdings.position_codes h)) ps
  /\ Forall (fun p => pos_latest_price p == pos_price p) ps.

(** A batch of distinct positions, each the one held under its code. *)
Definition held_batch (h : Holdings.t) (ps : list Position) : Prop :=
  NoDup (map pos_code ps)
  /\ Forall (fun p => Holdings.lookup (pos_code p) h = Some p) ps.

Definition insert_all (ps : list Position) (h : Holdings.t) : Holdings.t :=
  fold_left (fun acc p => Holdings.insert (pos_code p) p acc) ps h.

Definition remove_all (ps : list Position) (h : Holdings.t) : Holdings.t :=
  fold_left (fun acc p => Holdings.remove (pos_code p) acc) ps h.

Definition cost_total (ps : list Position) : Q :=
  Holdings.sumQ (map Holdings.raw_cost ps).

Definition proceeds_total (ps : list Position) : Q :=
  Holdings.sumQ (map Holdings.mark_value ps).

Definition whole_cents (x : Q) : Prop :=
  exists z : Z, x == inject_Z z / 100.

Inductive Op : Type :=
| OpBuy (positions : list Position)
| OpSell (positions : list Position).

Definition apply_op (a : Account.t) (op : Op) : Account.t :=
  match op with
  | OpBuy ps => Account.buy a ps
  | OpSell ps => Account.sell a ps
  end.

Definition run_ops (a : Account.t) (ops : list Op) : Account.t :=
  fold_left apply_op ops a.

Definition op_ok (a : Account.t) (op : Op) : Prop :=
  match op with
  | OpBuy ps =>
      fresh_batch (Account.holdings a) ps /\ whole_cents (cost_total ps)
  | OpSell ps =>
      held_batch (Account.holdings a) ps /\ whole_cents (proceeds_total ps)
  end.

(** Every operation of the sequence is applicable in the state it meets
    and moves a whole number of cents. *)
Fixpoint ops_ok (a : Account.t) (ops : list Op) : Prop :=
  match ops with
  | [] => True
  | op :: ops' => op_ok a op /\ ops_ok (apply_op a op) ops'
  end.

(** Price 0.125, one share, into an account of 100 in cash with zero
    commission rates. *)
Definition eighth : Position :=
  mkPosition "2023-01-02" "510050" "ETF" (1 # 8) 1 (1 # 8) "ETF-0000".

Definition plain_account : Account.t := Account.mk 0 0 100 [].

(** 100 shares at 10.00, and an account of 100 in cash charging 0.1%
    on buys. *)
Definition round_lot : Position :=
  mkPosition "2023-01-02" "000001" "PAB" 10 100 10 "PAB-0000".

Definition small_account : Account.t := Account.mk (1 # 10) (1 # 10) 100 [].

End Ledger.

Module Sizing.

(** What the sizing columns of a pool row satisfy at every stage of
    [generate_positions] when prices and the lot size are positive. *)
Definition sized_ok (ctx : Context) (s : StrategyBase.Sized) : Prop :=
  StrategyBase.trade_price s
  = bar_close (StrategyBase.sz_row s) * inject_Z (trading_unit ctx)
  /\ 0 < StrategyBase.trade_price s
  /\ (0 <= StrategyBase.trade_shares s)%Z.

(** Codes of the pool rows that end with a positive number of lots. *)
Definition funded_codes (pool : list StrategyBase.Sized) : list string :=
  map (fun s => bar_code (StrategyBase.sz_row s))
    (filter (fun s => (0 <? StrategyBase.trade_shares s)%Z) pool).

(** Two candidates closing at 10.00 and 3.00, lots of 100 shares. *)
Definition two_candidates : Frame :=
  mkFrame ["timestamp"; "code"]%string []
    [mkBar "2023-01-03" "000001" "PAB" 10 10 10 10 1000 [];
     mkBar "2023-01-03" "000002" "VKA" 3 3 3 3 1000 []].

Definition lots_of_100 : Context := mkContext 10 10 5 1 100 None.

End Sizing.

(* ------------------------------------------------------------------ *)
(** ** Vocabulary of the price-adjustment statements *)

Module StepFunction.

Definition ascending (l : list string) : Prop :=
  Sorted (fun a b => String.leb a b = true) l.

(** Every factor after index [j] takes effect after [ts]. *)
Definition later_after (adj : list FactorRow) (ts : string) (j : nat) : Prop :=
  forall m f, (j < m)%nat -> nth_error adj m = Some f ->
              String.ltb ts (fac_timestamp f) = true.

(** Index [j] holds the most recent factor whose effective date is not
    after [ts]. *)
Definition most_recent (adj : list FactorRow) (ts : string) (j : nat) : Prop :=
  (exists f, nth_error adj j = Some f
             /\ String.leb (fac_timestamp f) ts = true)
  /\ later_after adj ts j.

(** The factor in force on [ts]: the most recent one, or the first factor
    while [ts] predates the whole series. *)
Definition in_force (adj : list FactorRow) (ts : string) (j : nat) : Prop :=
  most_recent adj ts j \/ (j = O /\ later_after adj ts 0).

Definition assigned (adj : list FactorRow) (ts : string) (v : Q) : Prop :=
  exists j f, nth_error adj j = Some f /\ v = hfq_factor f
              /\ in_force adj ts j.

(** Factors taking effect on 2020-01-01 and on 2021-01-01. *)
Definition two_factors : list FactorRow :=
  [mkFactorRow "000001" "2020-01-01" 1;
   mkFactorRow "000001" "2021-01-01" 2].

(** The four prices of a bar, and their adjusted, rounded values. *)
Definition prices (r : Bar) : Q * Q * Q * Q :=
  (bar_open r, bar_close r, bar_high r, bar_low r).

Definition adjusted_prices (r : Bar) (factor : Q) : Q * Q * Q * Q :=
  (round_val (bar_open r * factor), round_val (bar_close r * factor),
   round_val (bar_high r * factor), round_val (bar_low r * factor)).

(** As above with a closing factor taking effect on 2022-01-01. *)
Definition three_factors : list FactorRow :=
  two_factors ++ [mkFactorRow "000001" "2022-01-01" 4].

Definition bar_on (timestamp : string) : Bar :=
  mkBar timestamp "000001" "PAB" 10 10 10 10 1000 [].

Definition bars_on (timestamps : list string) : Frame :=
  mkFrame ["code"%string] [] (map bar_on timestamps).

End StepFunction.

(* ------------------------------------------------------------------ *)
(** ** Vocabulary of the indicator-pipeline statements *)

Module Pipeline.

(** The symbol's frame as it reaches the adjustment stage: sorted by
    timestamp and pre-processed. *)
Definition prepared (strategy : Strategy) (bars_df : Frame) : Frame :=
pre_process strategy
  (DataFrame.with_rows bars_df
     (DataFrame.sort_by_timestamp (df_rows bars_df))).

(** The symbol of a group is the code of its first row. *)
Definition symbol (bars_df : Frame) (code : string) : Prop :=
exists first rest, df_rows bars_df = first :: rest /\ bar_code first = code.

(** The factor table has no entry for the symbol. *)
Definition missing_factor (table : list FactorRow) (bars_df : Frame) : Prop :=
exists code,
  symbol bars_df code /\ Forall (fun f => fac_code f <> code) table.

(** The magnitude of a pct_chg cell is above 21; an infinity is. *)
Definition above_21 (v : value) : Prop :=
match v with
| VNum q => 21 < Qabs q
| VInf _ => True
| VStr _ => False
end.

(** Adjustment succeeds and leaves some bar with |pct_chg| above 21. *)
Definition implausible_change (table : list FactorRow) (strategy : Strategy)
  (bars_df : Frame) : Prop :=
exists code factors adjusted r,
  symbol bars_df code
  /\ Backtester.factors_of table code = Ok factors
  /\ Backtester._adjust_prices (prepared strategy bars_df) factors = Ok adjusted
  /\ In r (df_rows adjusted)
  /\ above_21 (Backtester.pct_chg_of r).

Definition faulty (table : list FactorRow) (strategy : Strategy)
  (bars_df : Frame) : Prop :=
missing_factor table bars_df \/ implausible_change table strategy bars_df.

(** The indicators still to compute for a dataset. *)
Definition pending (df : Frame) (strategy : Strategy)
  : list (string * list string) :=
filter (fun ip => negb (DataFrame.has_column df (fst ip)))
  (compute_order strategy).

(** The dataset indexed by code, as the pipeline groups it. *)
Definition by_code (df : Frame) : Frame :=
match df_index df with
| ["code"%string] => df
| _ => DataFrame.reindex df ["code"%string]
end.

(** The rows the per-symbol frames contribute, or the exception that
    aborts the pipeline. *)
Definition rows (ctx : Context) (strategy : Strategy)
  (indicators : list (string * list string)) (groups : list Frame)
  : result (list Bar) :=
frames <-
  mapM (fun g => Backtester._adjust_then_compute ctx g indicators strategy)
    groups ;;
Ok (flat_map df_rows frames).

(** A strategy that needs one indicator, computed as a copy of close. *)
Definition copies_close : Strategy :=
mkStrategy ["ind"%string] [] (fun _ => false) (fun _ => false)
  (fun df => df) (fun df => df)
  (fun name => if String.eqb name "ind" then Some (fun cols => hd [] cols)
               else None)
  [("ind"%string, ["close"%string])].

(** Factors for 000001 only. *)
Definition factors_for_000001 : list FactorRow :=
[mkFactorRow "000001" "2020-01-01" 1;
 mkFactorRow "000001" "2030-01-01" 1].

Definition adjusting : Context :=
mkContext 10 10 5 1 100 (Some factors_for_000001).

Definition one_bar (code : string) : Frame :=
mkFrame ["code"%string] []
  [mkBar "2023-01-03" code "ANY" 10 10 10 10 1000 []].

(** Two bars of a symbol, the first closing at zero. *)
Definition after_zero_close (code : string) : Frame :=
mkFrame ["code"%string] []
  [mkBar "2023-01-03" code "ANY" 10 0 10 10 1000 [];
   mkBar "2023-01-04" code "ANY" 10 10 10 10 1000 []].

(** One day on which 000001, which has factors, and 000002, which has
    none, both close above 20. *)
Definition both_above_20 : Frame :=
mkFrame ["timestamp"; "code"]%string []
  [mkBar "2023-01-03" "000001" "PAB" 30 30 30 30 1000 [];
   mkBar "2023-01-03" "000002" "VKA" 25 25 25 25 1000 []].

(** A dataset with one bar of 000002, which has no factor, and one bar of
    000001, which has. *)
Definition two_symbols : Frame :=
mkFrame ["code"%string] []
  [mkBar "2023-01-03" "000002" "VKA" 10 10 10 10 1000 [];
   mkBar "2023-01-03" "000001" "PAB" 10 10 10 10 1000 []].

End Pipeline.

(* ------------------------------------------------------------------ *)
(** ** Vocabulary of the trading-loop statements *)

Module Symbols.

(** Every held position, logged trade or frame row carries a symbol
    satisfying [P]. *)
Definition holdings_in (P : string -> Prop) (h : Holdings.t) : Prop :=
Forall (fun cp => P (pos_code (snd cp))) h.

Definition logs_in (P : string -> Prop) (b : TradeBook.t) : Prop :=
Forall (fun l => P (tl_code l)) (TradeBook.trade_logs b).

Definition frame_in (P : string -> Prop) (df : Frame) : Prop :=
Forall (fun r => P (bar_code r)) (df_rows df).

Definition exit_acc_in (P : string -> Prop) (acc : Backtester.ExitAcc) : Prop :=
holdings_in P (fst (fst acc)) /\ logs_in P (snd (fst acc)).

Definition sim_in (P : string -> Prop) (st : Backtester.Sim) : Prop :=
holdings_in P (Account.holdings (Backtester.sim_account st))
/\ logs_in P (Backtester.sim_book st).

(** The symbols a run can trade: those with a row in the dataset and
    those of the positions held at the start. *)
Definition tradable (df : Frame) (account : Account.t) (code : string) : Prop :=
In code (map bar_code (df_rows df))
\/ In code (map (fun cp => pos_code (snd cp)) (Account.holdings account)).

End Symbols.

(* ------------------------------------------------------------------ *)
(** ** Vocabulary of the determinism statements *)

Definition result_map {A B} (f : A -> B) (m : result A) : result B :=
match m with
| Ok a => Ok (f a)
| Raise e => Raise e
end.

Module Anonymous.

(** A position, a trade-log entry, the ledger and the trade book with the
    randomly generated position ids blanked. *)
Definition position (p : Position) : Position :=
mkPosition (pos_timestamp p) (pos_code p) (pos_company p) (pos_price p)
  (pos_shares p) (pos_latest_price p) EmptyString.

Definition holdings (h : Holdings.t) : Holdings.t :=
map (fun cp => (fst cp, position (snd cp))) h.

Definition account (a : Account.t) : Account.t :=
Account.with_holdings a (holdings (Account.holdings a)).

Definition log (l : TradeLog) : TradeLog :=
mkTradeLog (tl_timestamp l) (tl_tag l) EmptyString (tl_code l) (tl_shares l)
  (tl_price l) (tl_total_value l) (tl_chg l) (tl_pct_chg l)
  (tl_total_return l).

Definition book (b : TradeBook.t) : TradeBook.t :=
TradeBook.mk (map log (TradeBook.trade_logs b)) (TradeBook.capital_logs b).

Definition exit_acc (acc : Backtester.ExitAcc) : Backtester.ExitAcc :=
(holdings (fst (fst acc)), book (snd (fst acc)), map position (snd acc)).

(** What two runs are compared on: the ledger and the trade book. *)
Definition sim (st : Backtester.Sim) : Account.t * TradeBook.t :=
(account (Backtester.sim_account st), book (Backtester.sim_book st)).

(** The buy candidates of a day: the signals [trade] reads at its buy
    step, once the day's opening and exits are done. *)
Definition candidates (ctx : Context) (strategy : Strategy)
  (st : Backtester.Sim) (timestamp : string) (sub_df : Frame)
  : result (list (string * string)) :=
acc <- Account.tick (Backtester.sim_account st)
         (Backtester.price_lookup timestamp sub_df) ;;
close_indices <- Backtester.get_close_signals acc sub_df strategy ;;
'(h, _, sell_positions) <-
  Backtester.exit_loop ctx timestamp sub_df close_indices
    (Account.holdings acc, Backtester.sim_book st, [])
    (Account.holdings acc) ;;
Backtester.get_buy_signals
  (match sell_positions with
   | [] => Account.with_holdings acc h
   | _ :: _ => Account.sell (Account.with_holdings acc h) sell_positions
   end) sub_df strategy.

(** The day's buy candidates are no more than the max-opens limit, so the
    pool is not downsampled. *)
Definition day_within_limit (ctx : Context) (strategy : Strategy)
  (st : Backtester.Sim) (timestamp : string) (sub_df : Frame) : Prop :=
forall buy_indices,
  candidates ctx strategy st timestamp sub_df = Ok buy_indices ->
  (Z.of_nat (List.length buy_indices) <= max_position_opens ctx)%Z.

(** On no day of the run do the buy candidates outnumber the limit. *)
Fixpoint never_downsamples (ctx : Context) (strategy : Strategy)
  (rng : Entropy) (st : Backtester.Sim) (days : list (string * Frame))
  : Prop :=
match days with
| [] => True
| (timestamp, sub_df) :: days' =>
    day_within_limit ctx strategy st timestamp sub_df
    /\ forall st',
         Backtester.trade_day ctx strategy rng st timestamp sub_df = Ok st' ->
         never_downsamples ctx strategy rng st' days'
end.

End Anonymous.

(* ------------------------------------------------------------------ *)
(** ** Concrete trading days *)

Module Scenarios.

Definition day : string := "2023-01-03".

Definition bar (code company : string) (open close high low : Q) : Bar :=
mkBar day code company open close high low 1000 [].

(** A strategy that never signals, with no close indicators declared. *)
Definition never_signals : Strategy :=
mkStrategy [] [] (fun _ => false) (fun _ => false)
  (fun df => df) (fun df => df) (fun _ => None) [].

(** A strategy whose [should_buy(close)] holds from a close of 20 up. *)
Definition buys_from_20 : Strategy :=
mkStrategy ["close"%string] []
  (fun args => match args with
               | [VNum c] => Qle_bool 20 c
               | _ => false
               end)
  (fun _ => false)
  (fun df => df) (fun df => df) (fun _ => None) [].

(** A strategy whose [should_buy(close)] holds from a close of 30 up. *)
Definition buys_from_30 : Strategy :=
mkStrategy ["close"%string] []
  (fun args => match args with
               | [VNum c] => Qle_bool 30 c
               | _ => false
               end)
  (fun _ => false)
  (fun df => df) (fun df => df) (fun _ => None) [].

(** stop-loss 10%, take-profit 10%, at most 5 opens a day, lots of 100. *)
Definition ctx : Context := mkContext 10 10 5 1 100 None.

(** As [ctx] with a single open allowed per day. *)
Definition ctx_one_open : Context := mkContext 10 10 1 1 100 None.

(** 100 shares of 000001 entered at 10.00. *)
Definition held : Position :=
mkPosition "2023-01-02" "000001" "PAB" 10 100 10 "PAB-0000".

Definition holding_account (cash : Q) : Account.t :=
Account.mk 0 0 cash [("000001"%string, held)].

Definition cash_account (cash : Q) : Account.t := Account.mk 0 0 cash [].

Definition frame (rows : list Bar) : Frame :=
mkFrame ["timestamp"; "code"]%string [] rows.

(** 000001 opens at 10.0, reaches 11.5 and closes at 10.5. *)
Definition rally : Frame :=
frame [bar "000001" "PAB" 10 (21 # 2) (23 # 2) (98 # 10)].

(** Only 000002 trades: 000001 is suspended that day. *)
Definition suspended : Frame :=
frame [bar "000002" "VKA" 20 20 20 20].

(** Two candidates closing at 30 and 25, and 000003 closing at 5. *)
Definition three_symbols : Frame :=
frame [bar "000001" "PAB" 30 30 30 30;
       bar "000002" "VKA" 25 25 25 25;
       bar "000003" "GAD" 5 5 5 5].

Definition start (account : Account.t) : Backtester.Sim :=
Backtester.mkSim account TradeBook.init 0.

(** Random sources drawing a constant. *)
Definition always (n : nat) : Entropy := fun _ => n.

End Scenarios.

(* ------------------------------------------------------------------ *)
(** ** Concrete data used by the examples *)

Module Examples.


(** Entry price 10.00, 100 shares. *)
Definition pos10 : Position :=
  mkPosition "2023-01-02" "000001" "PAB" 10 100 10 "PAB-0000".



End Examples.

(* ------------------------------------------------------------------ *)
(** ** Vocabulary of the further properties *)

Module Exits.

(** A trade-log entry records the sale of a position: same id, symbol and
    share count, at the position's (non-zero) latest price, under an exit
    tag and the day's timestamp. *)
Definition logged_sale (timestamp : string) (l : TradeLog) (p : Position)
  : Prop :=
tl_timestamp l = timestamp
/\ tl_tag l <> OPEN
/\ tl_pos_id l = pos_id p
/\ tl_code l = pos_code p
/\ tl_shares l = pos_shares p
/\ tl_price l = pos_latest_price p
/\ tl_total_value l = pos_latest_price p * inject_Z (pos_shares p)
/\ truthy (pos_latest_price p) = true.

(** The sold position is a held entry of a symbol present in the day's
    frame, closed at some price. *)
Definition sold_from (timestamp : string) (sub_df : Frame)
  (entries : list (string * Position)) (p : Position) : Prop :=
exists code pos price,
  In (code, pos) entries
  /\ DataFrame.loc sub_df timestamp code <> None
  /\ p = close pos price.

(** 000001 held at 10.00 and 000002 held at 20.00. *)
Definition two_held : Holdings.t :=
[("000001"%string,
  mkPosition "2023-01-02" "000001" "PAB" 10 100 10 "PAB-0000");
 ("000002"%string,
  mkPosition "2023-01-02" "000002" "VKA" 20 100 20 "VKA-0000")].

(** 000001 rallies through its take-profit threshold; 000002 does not
    trade. *)
Definition one_trades : Frame :=
mkFrame ["timestamp"; "code"]%string []
  [mkBar "2023-01-03" "000001" "PAB" 10 (21 # 2) (23 # 2) (98 # 10) 1000 []].

(** 000001 closes at zero under a close signal. *)
Definition zero_close : Frame :=
mkFrame ["timestamp"; "code"]%string []
  [mkBar "2023-01-03" "000001" "PAB" 10 0 10 10 1000 []].

Definition thresholds : Context := mkContext 10 10 5 1 100 None.

End Exits.

Module Adjust.

(** What price adjustment must not touch in a bar. *)
Definition identity (r : Bar) : string * string * string * Z :=
(bar_timestamp r, bar_code r, bar_company r, bar_vol r).

(** The adjusted bar carries the original prices rounded to 2 decimals. *)
Definition rounded_copy (r r' : Bar) : Prop :=
bar_open r' == round_val (bar_open r)
/\ bar_close r' == round_val (bar_close r)
/\ bar_high r' == round_val (bar_high r)
/\ bar_low r' == round_val (bar_low r).

(** The derived column holds a number equal to zero. *)
Definition zero_column (name : string) (r : Bar) : Prop :=
exists q, DataFrame.assoc name (bar_extra r) = Some (VNum q) /\ q == 0.

(** Every factor dated after the first is dated on or before [ts]. *)
Definition past_every_later_factor (fac_ts : list string) (ts : string)
  : Prop :=
forall m t, (1 <= m)%nat -> nth_error fac_ts m = Some t ->
            String.leb t ts = true.

(** Factors of 1 taking effect on 2020-01-01 and on 2030-01-01. *)
Definition unit_factors : list FactorRow :=
[mkFactorRow "000001" "2020-01-01" 1;
 mkFactorRow "000001" "2030-01-01" 1].

(** Two bars of 000001 priced in whole cents. *)
Definition cent_bars : Frame :=
mkFrame ["code"%string] []
  [mkBar "2023-01-03" "000001" "PAB" (1012 # 100) (1025 # 100) (1030 # 100)
     (1001 # 100) 1000 [];
   mkBar "2023-01-04" "000001" "PAB" (1025 # 100) (1040 # 100) (1044 # 100)
     (1020 # 100) 1200 []].

End Adjust.

Module AdjustCents.

(** The bar's four prices are whole numbers of cents. *)
Definition cent_priced (r : Bar) : Prop :=
Ledger.whole_cents (bar_open r) /\ Ledger.whole_cents (bar_close r)
/\ Ledger.whole_cents (bar_high r) /\ Ledger.whole_cents (bar_low r).

Definition same_prices (r r' : Bar) : Prop :=
bar_open r' == bar_open r /\ bar_close r' == bar_close r
/\ bar_high r' == bar_high r /\ bar_low r' == bar_low r.

End AdjustCents.

Module Indicators.

(** The key, company, volume and prices of a bar: everything but its
    derived columns. *)
Definition base_fields (r : Bar)
  : (string * string * string * Z) * (Q * Q * Q * Q) :=
(Adjust.identity r, StepFunction.prices r).

End Indicators.

Module Lots.

(** The position opens the pool row's symbol at its close price, in a
    positive whole number of lots, with the latest price defaulted to the
    entry price and an id made of the company name and a uuid piece. *)
Definition opens_row (ctx : Context) (rows : list Bar) (p : Position) : Prop :=
(exists row,
    In row rows
    /\ pos_timestamp p = bar_timestamp row
    /\ pos_code p = bar_code row
    /\ pos_company p = bar_company row
    /\ pos_price p = bar_close row)
/\ pos_latest_price p = pos_price p
/\ (exists lots, (0 < lots)%Z /\ pos_shares p = (lots * trading_unit ctx)%Z)
/\ (exists n, pos_id p
              = (pos_company p ++ "-" ++ Random.uuid_piece n)%string).

(** Per-lot price order between two bars and between two positions. *)
Definition row_not_cheaper (ctx : Context) (r1 r2 : Bar) : Prop :=
bar_close r2 * inject_Z (trading_unit ctx)
<= bar_close r1 * inject_Z (trading_unit ctx).

Definition not_cheaper (ctx : Context) (p1 p2 : Position) : Prop :=
pos_price p2 * inject_Z (trading_unit ctx)
<= pos_price p1 * inject_Z (trading_unit ctx).

End Lots.

(* ------------------------------------------------------------------ *)
(** ** Vocabulary of the statements on a trading day *)

Module DayBook.

(** A trade-log entry of an exit made on the day. *)
Definition exit_log (timestamp : string) (l : TradeLog) : Prop :=
tl_timestamp l = timestamp /\ tl_tag l <> OPEN.

(** A trade-log entry records the opening of a position: the position's
    id, symbol, share count and entry price under the opening tag and the
    day's timestamp, with no change or return recorded. *)
Definition opening_log (timestamp : string) (l : TradeLog) (p : Position)
  : Prop :=
tl_timestamp l = timestamp
/\ tl_tag l = OPEN
/\ tl_pos_id l = pos_id p
/\ tl_code l = pos_code p
/\ tl_shares l = pos_shares p
/\ tl_price l = pos_price p
/\ tl_total_value l = pos_price p * inject_Z (pos_shares p)
/\ tl_chg l = None /\ tl_pct_chg l = None /\ tl_total_return l = None.

(** The capital snapshot of an account under a timestamp. *)
Definition snapshot (timestamp : string) (a : Account.t) : CapitalsLog :=
mkCapitalsLog timestamp (Account.get_positions_value a)
  (Account.cash_amount a).

End DayBook.

(* ------------------------------------------------------------------ *)
(** ** Vocabulary of the statements on the order of the trade book *)

Module Chronology.

Definition before (a b : string) : Prop := String.ltb a b = true.

Definition not_after (a b : string) : Prop := String.leb a b = true.

Definition capital_stamps (b : TradeBook.t) : list string :=
map cl_timestamp (TradeBook.capital_logs b).

Definition trade_stamps (b : TradeBook.t) : list string :=
map tl_timestamp (TradeBook.trade_logs b).

(** Two days of 000002, indexed by code, the later day first: a close of
    25 on the 3rd, and a rally to 30 on the 4th. *)
Definition two_days : Frame :=
mkFrame ["code"]%string []
  [mkBar "2023-01-04" "000002" "VKA" 26 29 30 26 1000 [];
   mkBar "2023-01-03" "000002" "VKA" 25 25 25 25 1000 []].

End Chronology.

(* ------------------------------------------------------------------ *)
(** ** Vocabulary of the statement on clearing an account *)

Module Clearing.

(** Every position is stored under its own symbol, as [trade] stores
    them. *)
Definition keyed (h : Holdings.t) : Prop :=
Forall (fun cp => fst cp = pos_code (snd cp)) h.

(** The store as a Python dict of positions by symbol: each position
    under its own symbol, no symbol twice. *)
Definition well_formed (h : Holdings.t) : Prop :=
keyed h /\ Ledger.dict_like h.

(** 100 shares of 000001 marked at 10.125, in an account charging 0.1%
    on sells. *)
Definition marked_account : Account.t :=
Account.mk 0 (1 # 10) 50
  [("000001"%string,
    mkPosition "2023-01-02" "000001" "PAB" 10 100 (81 # 8) "PAB-0000")].

End Clearing.

(* ------------------------------------------------------------------ *)
(** ** Vocabulary of the statement on the indicator pipeline's bars *)

Module Hooks.

(** The hooks as [StrategyBase] defines them: both return the frame they
    are given. *)
Definition default (strategy : Strategy) : Prop :=
(forall df, pre_process strategy df = df)
/\ (forall df, post_process strategy df = df).

(** No bar at all, indexed by code. *)
Definition no_bars : Frame := mkFrame ["code"%string] [] [].

End Hooks.

(* ------------------------------------------------------------------ *)
(** ** Vocabulary of the statement on what stops a trading day *)

Module Failures.

(** A held symbol has no bar on the day. *)
Definition absent_holding (timestamp : string) (sub_df : Frame)
  (h : Holdings.t) : Prop :=
exists code pos,
  In (code, pos) h /\ DataFrame.loc sub_df timestamp (pos_code pos) = None.

(** A buy or close indicator of the strategy is not a column of some row
    of the day. *)
Definition missing_indicator (sub_df : Frame) (strategy : Strategy) : Prop :=
exists row ind,
  In row (df_rows sub_df)
  /\ In ind (buy_indicators strategy ++ close_indicators strategy)
  /\ DataFrame.cell (df_index sub_df) row ind = None.

(** Some bar of the day closes at zero. *)
Definition zero_close_bar (sub_df : Frame) : Prop :=
exists bar, In bar (df_rows sub_df) /\ bar_close bar == 0.

End Failures.

(* ------------------------------------------------------------------ *)
(** * Properties *)

(** ** Rounding *)

Section Rounding.

Lemma round_half_even_comp (x y : Q) :
  x == y -> round_half_even x = round_half_even y.
Proof.
  intros E. unfold round_half_even.
  rewrite (Qfloor_comp _ _ E).
  assert (C : Qcompare (x - inject_Z (Qfloor y)) (1 # 2)
              = Qcompare (y - inject_Z (Qfloor y)) (1 # 2)).
  { apply Qcompare_comp; [rewrite E; reflexivity | reflexivity]. }
  rewrite C. reflexivity.
Qed.

Global Instance round_val_Proper : Proper (Qeq ==> Qeq) round_val.
Proof.
  intros x y E. unfold round_val.
  rewrite (round_half_even_comp (x * 100) (y * 100)); [reflexivity |].
  rewrite E. reflexivity.
Qed.

Lemma round_half_even_Z (z : Z) : round_half_even (inject_Z z) = z.
Proof.
  unfold round_half_even. rewrite Qfloor_Z.
  assert (C : Qcompare (inject_Z z - inject_Z z) (1 # 2) = Lt).
  { rewrite <- Qlt_alt. lra. }
  rewrite C. reflexivity.
Qed.

(** An amount in whole cents is its own rounding. *)
Lemma round_val_cents (z : Z) :
  round_val (inject_Z z / 100) == inject_Z z / 100.
Proof.
  unfold round_val.
  rewrite (round_half_even_comp (inject_Z z / 100 * 100) (inject_Z z)).
  - rewrite round_half_even_Z. reflexivity.
  - field.
Qed.

Lemma round_val_0 : round_val 0 == 0.
Proof. reflexivity. Qed.

Lemma round_half_even_bound (x : Q) :
  x - (1 # 2) <= inject_Z (round_half_even x) <= x + (1 # 2).
Proof.
  unfold round_half_even.
  pose proof (Qfloor_le x) as Hlo.
  pose proof (Qlt_floor x) as Hhi.
  rewrite inject_Z_plus in Hhi. change (inject_Z 1) with 1 in Hhi.
  destruct (Qcompare (x - inject_Z (Qfloor x)) (1 # 2)) eqn:C.
  - apply Qeq_alt in C.
    destruct (Z.even (Qfloor x));
      [| rewrite inject_Z_plus; change (inject_Z 1) with 1]; lra.
  - apply Qlt_alt in C. lra.
  - apply Qgt_alt in C. rewrite inject_Z_plus.
    change (inject_Z 1) with 1. lra.
Qed.

(** Rounding to 2 decimals moves an amount by at most half a cent. *)
Lemma round_val_bound (x : Q) :
  x - (1 # 200) <= round_val x <= x + (1 # 200).
Proof.
  unfold round_val.
  pose proof (round_half_even_bound (x * 100)) as [Hlo Hhi].
  set (r := inject_Z (round_half_even (x * 100))) in *.
  split.
  - apply Qle_shift_div_l; lra.
  - apply Qle_shift_div_r; lra.
Qed.

Lemma truthy_false (x : Q) : truthy x = false -> x == 0.
Proof.
  unfold truthy. intros H. apply negb_false_iff in H.
  now apply Qeq_bool_iff.
Qed.

Lemma truthy_true (x : Q) : truthy x = true -> ~ x == 0.
Proof.
  unfold truthy. intros H E. apply Qeq_bool_iff in E.
  rewrite E in H. discriminate.
Qed.

End Rounding.

(** ** Take-profit exit price *)

Import StrategyBase.



(** ** Ledger: holdings valuation under insertion and removal *)

Section HoldingsFacts.

Import Ledger.

Lemma sumQ_app (xs ys : list Q) :
  Holdings.sumQ (xs ++ ys) == Holdings.sumQ xs + Holdings.sumQ ys.
Proof.
  induction xs as [| x xs IH]; simpl.
  - lra.
  - unfold Holdings.sumQ in *. simpl. rewrite IH. lra.
Qed.

Lemma worth_cons (c : string) (p : Position) (h : Holdings.t) :
  Holdings.get_total_worth ((c, p) :: h)
  == Holdings.mark_value p + Holdings.get_total_worth h.
Proof. reflexivity. Qed.

Lemma codes_insert_fresh (c : string) (p : Position) (h : Holdings.t) :
  ~ In c (Holdings.position_codes h) ->
  Holdings.position_codes (Holdings.insert c p h)
  = Holdings.position_codes h ++ [c].
Proof.
  induction h as [| [k q] h IH]; simpl; intros Hn.
  - reflexivity.
  - destruct (String.eqb k c) eqn:E.
    + apply String.eqb_eq in E. subst. exfalso. apply Hn. now left.
    + simpl. f_equal. apply IH. intros Hin. apply Hn. now right.
Qed.

Lemma worth_insert_fresh (c : string) (p : Position) (h : Holdings.t) :
  ~ In c (Holdings.position_codes h) ->
  Holdings.get_total_worth (Holdings.insert c p h)
  == Holdings.get_total_worth h + Holdings.mark_value p.
Proof.
  induction h as [| [k q] h IH]; simpl; intros Hn.
  - rewrite worth_cons. unfold Holdings.get_total_worth. simpl. lra.
  - destruct (String.eqb k c) eqn:E.
    + apply String.eqb_eq in E. subst. exfalso. apply Hn. now left.
    + rewrite !worth_cons, IH; [lra |].
      intros Hin. apply Hn. now right.
Qed.

Lemma insert_all_fresh (ps : list Position) :
  forall h,
    dict_like h ->
    NoDup (map pos_code ps) ->
    Forall (fun p => ~ In (pos_code p) (Holdings.position_codes h)) ps ->
    dict_like (insert_all ps h)
    /\ Holdings.position_codes (insert_all ps h)
       = Holdings.position_codes h ++ map pos_code ps
    /\ Holdings.get_total_worth (insert_all ps h)
       == Holdings.get_total_worth h + proceeds_total ps.
Proof.
  unfold insert_all.
  induction ps as [| p ps IH]; intros h Hd Hnd Hfresh; simpl.
  - rewrite app_nil_r. repeat split; [assumption |].
    unfold proceeds_total, Holdings.sumQ. simpl. lra.
  - inversion Hnd as [| ? ? Hp Hnd']; subst.
    inversion Hfresh as [| ? ? Hfp Hfresh']; subst.
    assert (Hcodes := codes_insert_fresh (pos_code p) p h Hfp).
    destruct (IH (Holdings.insert (pos_code p) p h)) as (D & C & W).
    + unfold dict_like. rewrite Hcodes.
      apply NoDup_app; [assumption | repeat constructor; intros [] |].
      intros x Hx [Hx' | []]. subst. contradiction.
    + assumption.
    + rewrite Hcodes. apply Forall_forall. intros q Hq Hin.
      apply in_app_or in Hin. destruct Hin as [Hin | [Heq | []]].
      * rewrite Forall_forall in Hfresh'. now apply (Hfresh' q).
      * apply Hp. rewrite Heq. now apply in_map.
    + split; [assumption |]. split.
      * rewrite C, Hcodes, <- app_assoc. reflexivity.
      * rewrite W.
        rewrite (worth_insert_fresh _ _ _ Hfp).
        unfold proceeds_total, Holdings.sumQ. simpl. lra.
Qed.

Lemma lookup_in_codes (c : string) (h : Holdings.t) (p : Position) :
  Holdings.lookup c h = Some p -> In c (Holdings.position_codes h).
Proof.
  induction h as [| [k q] h IH]; simpl; [discriminate |].
  destruct (String.eqb k c) eqn:E.
  - apply String.eqb_eq in E. intros _. now left.
  - intros H. right. now apply IH.
Qed.

Lemma remove_absent (c : string) (h : Holdings.t) :
  ~ In c (Holdings.position_codes h) -> Holdings.remove c h = h.
Proof.
  induction h as [| [k q] h IH]; simpl; intros Hn; [reflexivity |].
  destruct (String.eqb k c) eqn:E.
  - apply String.eqb_eq in E. subst. exfalso. apply Hn. now left.
  - simpl. f_equal. apply IH. intros Hin. apply Hn. now right.
Qed.

Lemma codes_remove_incl (c : string) (h : Holdings.t) :
  forall x, In x (Holdings.position_codes (Holdings.remove c h)) ->
            In x (Holdings.position_codes h) /\ x <> c.
Proof.
  unfold Holdings.position_codes, Holdings.remove. intros x Hx.
  apply in_map_iff in Hx. destruct Hx as ([k q] & Hk & Hin).
  apply filter_In in Hin. destruct Hin as [Hin Hneq]. simpl in *. subst.
  split.
  - apply in_map_iff. now exists (x, q).
  - apply negb_true_iff in Hneq. now apply String.eqb_neq in Hneq.
Qed.

Lemma dict_like_remove (c : string) (h : Holdings.t) :
  dict_like h -> dict_like (Holdings.remove c h).
Proof.
  unfold dict_like. induction h as [| [k q] h IH]; simpl; intros Hd.
  - constructor.
  - inversion Hd as [| ? ? Hk Hd']; subst.
    destruct (String.eqb k c); simpl.
    + now apply IH.
    + constructor.
      * intros Hin. apply (codes_remove_incl c h) in Hin. tauto.
      * now apply IH.
Qed.

Lemma worth_remove (c : string) (p : Position) (h : Holdings.t) :
  dict_like h ->
  Holdings.lookup c h = Some p ->
  Holdings.get_total_worth (Holdings.remove c h)
  == Holdings.get_total_worth h - Holdings.mark_value p.
Proof.
  unfold dict_like. induction h as [| [k q] h IH]; simpl; intros Hd Hl.
  - discriminate.
  - inversion Hd as [| ? ? Hk Hd']; subst.
    destruct (String.eqb k c) eqn:E; simpl.
    + apply String.eqb_eq in E. subst. inversion Hl; subst.
      fold (Holdings.remove c h). rewrite (remove_absent c h Hk).
      rewrite worth_cons. lra.
    + fold (Holdings.remove c h). rewrite !worth_cons, (IH Hd' Hl). lra.
Qed.

Lemma lookup_remove_other (c c' : string) (h : Holdings.t) :
  c' <> c ->
  Holdings.lookup c' (Holdings.remove c h) = Holdings.lookup c' h.
Proof.
  intros Hneq. induction h as [| [k q] h IH]; simpl; [reflexivity |].
  destruct (String.eqb k c) eqn:E; simpl.
  - apply String.eqb_eq in E. subst.
    destruct (String.eqb c c') eqn:E'.
    + apply String.eqb_eq in E'. congruence.
    + apply IH.
  - destruct (String.eqb k c'); [reflexivity | apply IH].
Qed.

Lemma remove_all_held (ps : list Position) :
  forall h,
    dict_like h ->
    held_batch h ps ->
    dict_like (remove_all ps h)
    /\ Holdings.get_total_worth (remove_all ps h)
       == Holdings.get_total_worth h - proceeds_total ps.
Proof.
  unfold remove_all.
  induction ps as [| p ps IH]; intros h Hd [Hnd Hheld]; simpl.
  - split; [assumption |].
    unfold proceeds_total, Holdings.sumQ. simpl. lra.
  - inversion Hnd as [| ? ? Hp Hnd']; subst.
    inversion Hheld as [| ? ? Hlp Hheld']; subst.
    destruct (IH (Holdings.remove (pos_code p) h)) as (D & W).
    + now apply dict_like_remove.
    + split; [assumption |].
      apply Forall_forall. intros q Hq.
      rewrite Forall_forall in Hheld'.
      rewrite lookup_remove_other; [now apply Hheld' |].
      intros Heq. apply Hp. rewrite <- Heq. now apply in_map.
    + split; [assumption |].
      rewrite W.
      rewrite (worth_remove _ _ _ Hd Hlp).
      unfold proceeds_total, Holdings.sumQ. simpl. lra.
Qed.

Lemma cost_of_fresh (ps : list Position) :
  Forall (fun p => pos_latest_price p == pos_price p) ps ->
  proceeds_total ps == cost_total ps.
Proof.
  induction 1 as [| p ps Hp _ IH].
  - reflexivity.
  - unfold proceeds_total, cost_total, Holdings.sumQ in *. simpl.
    rewrite IH. unfold Holdings.mark_value, Holdings.raw_cost.
    rewrite Hp. reflexivity.
Qed.

End HoldingsFacts.

(** ** Ledger: cash and total asset value under buy and sell *)

Section AccountFacts.

Import Ledger.

Lemma buy_holdings (a : Account.t) (ps : list Position) :
  Account.holdings (Account.buy a ps) = insert_all ps (Account.holdings a).
Proof.
  unfold Account.buy, Holdings.buy, Account.with_cash, Account.with_holdings.
  destruct (truthy _); reflexivity.
Qed.

Lemma sell_holdings (a : Account.t) (ps : list Position) :
  Account.holdings (Account.sell a ps) = remove_all ps (Account.holdings a).
Proof.
  unfold Account.sell, Holdings.sell, Account.with_cash, Account.with_holdings.
  destruct (truthy _); reflexivity.
Qed.

Lemma buy_rates (a : Account.t) (ps : list Position) :
  Account.buy_commission_rate (Account.buy a ps) = Account.buy_commission_rate a
  /\ Account.sell_commission_rate (Account.buy a ps)
     = Account.sell_commission_rate a.
Proof.
  unfold Account.buy, Holdings.buy, Account.with_cash, Account.with_holdings.
  destruct (truthy _); split; reflexivity.
Qed.

Lemma sell_rates (a : Account.t) (ps : list Position) :
  Account.buy_commission_rate (Account.sell a ps) = Account.buy_commission_rate a
  /\ Account.sell_commission_rate (Account.sell a ps)
     = Account.sell_commission_rate a.
Proof.
  unfold Account.sell, Holdings.sell, Account.with_cash, Account.with_holdings.
  destruct (truthy _); split; reflexivity.
Qed.

(** The debit is unconditional: a zero cost is debited as zero. *)
Lemma buy_cash (a : Account.t) (ps : list Position) :
  Account.cash_amount (Account.buy a ps)
  == Account.cash_amount a - Account.add_buy_commissions a (cost_total ps).
Proof.
  unfold Account.buy, Holdings.buy. fold (cost_total ps).
  destruct (truthy (cost_total ps)) eqn:T; simpl.
  - unfold Account.add_buy_commissions. simpl. reflexivity.
  - apply truthy_false in T. unfold Account.add_buy_commissions.
    rewrite T. rewrite Qmult_0_l, round_val_0. lra.
Qed.

Lemma sell_cash (a : Account.t) (ps : list Position) :
  Account.cash_amount (Account.sell a ps)
  == Account.cash_amount a
     + Account.take_sell_commissions a (proceeds_total ps).
Proof.
  unfold Account.sell, Holdings.sell. fold (proceeds_total ps).
  destruct (truthy (proceeds_total ps)) eqn:T; simpl.
  - unfold Account.take_sell_commissions. simpl. reflexivity.
  - apply truthy_false in T. unfold Account.take_sell_commissions.
    rewrite T. rewrite Qmult_0_l, round_val_0. lra.
Qed.

Lemma buy_total (a : Account.t) (ps : list Position) :
  dict_like (Account.holdings a) ->
  fresh_batch (Account.holdings a) ps ->
  Account.get_total_asset_value (Account.buy a ps)
  == Account.get_total_asset_value a
     - (Account.add_buy_commissions a (cost_total ps) - cost_total ps).
Proof.
  intros Hd (Hnd & Hfresh & Hnew).
  unfold Account.get_total_asset_value.
  rewrite buy_cash, buy_holdings.
  destruct (insert_all_fresh ps _ Hd Hnd Hfresh) as (_ & _ & W).
  rewrite W, (cost_of_fresh ps Hnew). lra.
Qed.

Lemma sell_total (a : Account.t) (ps : list Position) :
  dict_like (Account.holdings a) ->
  held_batch (Account.holdings a) ps ->
  Account.get_total_asset_value (Account.sell a ps)
  == Account.get_total_asset_value a
     - (proceeds_total ps
        - Account.take_sell_commissions a (proceeds_total ps)).
Proof.
  intros Hd Hheld.
  unfold Account.get_total_asset_value.
  rewrite sell_cash, sell_holdings.
  destruct (remove_all_held ps _ Hd Hheld) as (_ & W).
  rewrite W. lra.
Qed.

Lemma commission_free_buy (a : Account.t) (c : Q) :
  Account.buy_commission_rate a == 0 -> whole_cents c ->
  Account.add_buy_commissions a c == c.
Proof.
  intros R [z Hz]. unfold Account.add_buy_commissions.
  rewrite R, Hz.
  assert (E : inject_Z z / 100 * (1 + 0 * (1 # 100)) == inject_Z z / 100)
    by field.
  rewrite E. apply round_val_cents.
Qed.

Lemma commission_free_sell (a : Account.t) (c : Q) :
  Account.sell_commission_rate a == 0 -> whole_cents c ->
  Account.take_sell_commissions a c == c.
Proof.
  intros R [z Hz]. unfold Account.take_sell_commissions.
  rewrite R, Hz.
  assert (E : inject_Z z / 100 * (1 - 0 * (1 # 100)) == inject_Z z / 100)
    by field.
  rewrite E. apply round_val_cents.
Qed.

Lemma apply_op_dict_like (a : Account.t) (op : Op) :
  dict_like (Account.holdings a) -> op_ok a op ->
  dict_like (Account.holdings (apply_op a op)).
Proof.
  intros Hd Hok. destruct op as [ps | ps]; simpl in *.
  - destruct Hok as [(Hnd & Hfresh & _) _]. rewrite buy_holdings.
    now destruct (insert_all_fresh ps _ Hd Hnd Hfresh).
  - destruct Hok as [Hheld _]. rewrite sell_holdings.
    now destruct (remove_all_held ps _ Hd Hheld).
Qed.

Lemma commission_free_ops (ops : list Op) :
  forall a,
    Account.buy_commission_rate a == 0 ->
    Account.sell_commission_rate a == 0 ->
    dict_like (Account.holdings a) ->
    ops_ok a ops ->
    Account.get_total_asset_value (run_ops a ops)
    == Account.get_total_asset_value a.
Proof.
  unfold run_ops.
  induction ops as [| op ops IH]; intros a Rb Rs Hd Hok; simpl.
  - reflexivity.
  - destruct Hok as [Hop Hrest].
    assert (Hd' := apply_op_dict_like a op Hd Hop).
    rewrite IH; try assumption.
    + destruct op as [ps | ps]; simpl in *.
      * destruct Hop as [Hfresh Hc].
        rewrite (buy_total a ps Hd Hfresh).
        rewrite (commission_free_buy a _ Rb Hc). lra.
      * destruct Hop as [Hheld Hc].
        rewrite (sell_total a ps Hd Hheld).
        rewrite (commission_free_sell a _ Rs Hc). lra.
    + destruct op as [ps | ps]; simpl.
      * now rewrite (proj1 (buy_rates a ps)).
      * now rewrite (proj1 (sell_rates a ps)).
    + destruct op as [ps | ps]; simpl.
      * now rewrite (proj2 (buy_rates a ps)).
      * now rewrite (proj2 (sell_rates a ps)).
Qed.

End AccountFacts.

(** C1 (amended).  For an account whose holdings form a dict: a buy of
    newly created positions (latest price equal to entry price, symbols
    pairwise distinct and not held) lowers the total asset value by exactly
    round2(cost_total * (1 + buy_rate/100)) - cost_total, and a sell of held
    positions lowers it by exactly
    proceeds_total - round2(proceeds_total * (1 - sell_rate/100)); either
    amount is within half a cent of cost_total * buy_rate/100, respectively
    proceeds_total * sell_rate/100; with zero commission rates the total
    asset value is unchanged by any sequence of such buys and sells that
    each move a whole number of cents. *)
Theorem asset_value_changes_by_rounded_commission
    (a : Account.t) (ps : list Position) (ops : list Ledger.Op) :
  Ledger.dict_like (Account.holdings a) ->
  (Ledger.fresh_batch (Account.holdings a) ps ->
   Account.get_total_asset_value (Account.buy a ps)
   == Account.get_total_asset_value a
      - (Account.add_buy_commissions a (Ledger.cost_total ps)
         - Ledger.cost_total ps))
  /\ (Ledger.held_batch (Account.holdings a) ps ->
      Account.get_total_asset_value (Account.sell a ps)
      == Account.get_total_asset_value a
         - (Ledger.proceeds_total ps
            - Account.take_sell_commissions a (Ledger.proceeds_total ps)))
  /\ (Ledger.cost_total ps * Account.buy_commission_rate a * (1 # 100)
        - (1 # 200)
      <= Account.add_buy_commissions a (Ledger.cost_total ps)
         - Ledger.cost_total ps
      <= Ledger.cost_total ps * Account.buy_commission_rate a * (1 # 100)
         + (1 # 200))
  /\ (Ledger.proceeds_total ps * Account.sell_commission_rate a * (1 # 100)
        - (1 # 200)
      <= Ledger.proceeds_total ps
         - Account.take_sell_commissions a (Ledger.proceeds_total ps)
      <= Ledger.proceeds_total ps * Account.sell_commission_rate a * (1 # 100)
         + (1 # 200))
  /\ (Account.buy_commission_rate a == 0 ->
      Account.sell_commission_rate a == 0 ->
      Ledger.ops_ok a ops ->
      Account.get_total_asset_value (Ledger.run_ops a ops)
      == Account.get_total_asset_value a).
Proof.
  intros Hd. split; [| split; [| split; [| split]]].
  - now apply buy_total.
  - now apply sell_total.
  - unfold Account.add_buy_commissions.
    pose proof (round_val_bound
                  (Ledger.cost_total ps
                   * (1 + Account.buy_commission_rate a * (1 # 100)))).
    lra.
  - unfold Account.take_sell_commissions.
    pose proof (round_val_bound
                  (Ledger.proceeds_total ps
                   * (1 - Account.sell_commission_rate a * (1 # 100)))).
    lra.
  - intros Rb Rs Hok. now apply commission_free_ops.
Qed.

Lemma asset_value_changes_by_rounded_commission_witness :
  Account.get_total_asset_value
    (Account.buy Ledger.small_account [Ledger.round_lot])
  == Account.get_total_asset_value Ledger.small_account
     - (Account.add_buy_commissions Ledger.small_account
          (Ledger.cost_total [Ledger.round_lot])
        - Ledger.cost_total [Ledger.round_lot])
  /\ Account.get_total_asset_value
       (Ledger.run_ops Ledger.plain_account
          [Ledger.OpBuy [Ledger.round_lot]; Ledger.OpSell [Ledger.round_lot]])
     == Account.get_total_asset_value Ledger.plain_account.
Proof.
  split.
  - apply (proj1 (asset_value_changes_by_rounded_commission
                    Ledger.small_account [Ledger.round_lot] []
                    (NoDup_nil _))).
    repeat split; repeat constructor; simpl; tauto.
  - apply (proj2 (proj2 (proj2 (proj2
             (asset_value_changes_by_rounded_commission
                Ledger.plain_account [] 
                [Ledger.OpBuy [Ledger.round_lot];
                 Ledger.OpSell [Ledger.round_lot]]
                (NoDup_nil _)))))).
    + reflexivity.
    + reflexivity.
    + simpl. repeat split; repeat constructor; simpl; try tauto.
      * exists 100000%Z. reflexivity.
      * exists 100000%Z. reflexivity.
Defined.

(** C1 as stated fails.  Buying one share at 0.125 with zero commission
    rates debits round2(0.125) = 0.12 while the holdings gain 0.125: the
    total asset value moves by half a cent although the commission
    cost_total * buy_rate/100, rounded, is zero. *)
Lemma asset_value_moves_without_commission :
  Ledger.dict_like (Account.holdings Ledger.plain_account)
  /\ Ledger.fresh_batch (Account.holdings Ledger.plain_account) [Ledger.eighth]
  /\ round_val (Ledger.cost_total [Ledger.eighth]
               * Account.buy_commission_rate Ledger.plain_account * (1 # 100))
     == 0
  /\ Account.get_total_asset_value Ledger.plain_account == 100
  /\ Account.get_total_asset_value
       (Account.buy Ledger.plain_account [Ledger.eighth]) == 100 + (1 # 200)
  /\ ~ (Account.get_total_asset_value Ledger.plain_account
        - Account.get_total_asset_value
            (Account.buy Ledger.plain_account [Ledger.eighth])
        == round_val (Ledger.cost_total [Ledger.eighth]
                      * Account.buy_commission_rate Ledger.plain_account
                      * (1 # 100)))
  /\ ~ (Account.get_total_asset_value
          (Ledger.run_ops Ledger.plain_account [Ledger.OpBuy [Ledger.eighth]])
        == Account.get_total_asset_value Ledger.plain_account).
Proof.
  repeat split; try (repeat constructor; simpl; tauto);
    try (vm_compute; reflexivity); vm_compute; discriminate.
Qed.

(** ** Buying without a cash check *)

Lemma codes_insert (c : string) (p : Position) (h : Holdings.t) (x : string) :
  In x (Holdings.position_codes (Holdings.insert c p h))
  <-> In x (Holdings.position_codes h) \/ x = c.
Proof.
  induction h as [| [k q] h IH]; simpl.
  - intuition.
  - destruct (String.eqb k c) eqn:E; simpl.
    + apply String.eqb_eq in E. subst. intuition.
    + rewrite IH. intuition.
Qed.

Lemma codes_insert_all (ps : list Position) :
  forall h x,
    In x (Holdings.position_codes (Ledger.insert_all ps h))
    <-> In x (Holdings.position_codes h) \/ In x (map pos_code ps).
Proof.
  unfold Ledger.insert_all.
  induction ps as [| p ps IH]; intros h x; simpl.
  - intuition.
  - rewrite IH, codes_insert. intuition.
Qed.

Lemma held_iff (c : string) (h : Holdings.t) :
  Holdings.held c h = true <-> In c (Holdings.position_codes h).
Proof.
  unfold Holdings.held. rewrite existsb_exists. split.
  - intros (x & Hx & E). apply String.eqb_eq in E. now subst.
  - intros H. exists c. split; [assumption | apply String.eqb_refl].
Qed.

(** C10.  [Account.buy] checks nothing: whatever the batch, the cash
    balance is debited by the commission-inclusive total cost and every
    position of the batch is held afterwards; an account with 100 in cash
    buying 100 shares at 10.00 under a 0.1% commission ends with a balance
    of -901.00, no error being possible (the operation is total). *)
Theorem buy_debits_without_cash_check :
  (forall (a : Account.t) (ps : list Position),
      Account.cash_amount (Account.buy a ps)
      == Account.cash_amount a
         - round_val (Ledger.cost_total ps
                      * (1 + Account.buy_commission_rate a * (1 # 100)))
      /\ Forall (fun p =>
                   Holdings.held (pos_code p)
                     (Account.holdings (Account.buy a ps)) = true) ps)
  /\ (let a := Ledger.small_account in
      let ps := [Ledger.round_lot] in
      0 <= Account.cash_amount a
      /\ Account.cash_amount a
         < round_val (Ledger.cost_total ps
                      * (1 + Account.buy_commission_rate a * (1 # 100)))
      /\ Account.cash_amount (Account.buy a ps) == - 901
      /\ Account.cash_amount (Account.buy a ps) < 0
      /\ Holdings.lookup "000001" (Account.holdings (Account.buy a ps))
         = Some Ledger.round_lot).
Proof.
  split.
  - intros a ps. split.
    + apply buy_cash.
    + apply Forall_forall. intros p Hp.
      rewrite held_iff, buy_holdings, codes_insert_all.
      right. now apply in_map.
  - repeat split; vm_compute; try reflexivity; discriminate.
Qed.

(** ** Sizing: floor division and the redistribution loop *)

Section FloorDiv.

Variables (x d : Q).
Hypothesis d_pos : 0 < d.

Lemma floordiv_mul_le : inject_Z (floordiv x d) * d <= x.
Proof.
  unfold floordiv.
  assert (E : x == x / d * d) by (field; lra).
  rewrite E at 2.
  apply Qmult_le_compat_r; [apply Qfloor_le | lra].
Qed.

Lemma floordiv_rem_lt : x - inject_Z (floordiv x d) * d < d.
Proof.
  unfold floordiv.
  pose proof (Qlt_floor (x / d)) as H.
  rewrite inject_Z_plus in H. change (inject_Z 1) with 1 in H.
  assert (H' : x / d * d < (inject_Z (Qfloor (x / d)) + 1) * d)
    by (apply Qmult_lt_compat_r; assumption).
  assert (E : x / d * d == x) by (field; lra).
  rewrite E in H'. lra.
Qed.

Lemma floordiv_nonneg : 0 <= x -> (0 <= floordiv x d)%Z.
Proof.
  intros Hx. unfold floordiv.
  change 0%Z with (Qfloor 0). apply Qfloor_resp_le.
  apply Qle_shift_div_l; [assumption | lra].
Qed.

End FloorDiv.

Section Sorting.

Context {A : Type} (le : A -> A -> bool).

Lemma insert_sorted_perm (x : A) (l : list A) :
  Permutation (DataFrame.insert_sorted le x l) (x :: l).
Proof.
  induction l as [| y l IH]; simpl.
  - reflexivity.
  - destruct (le x y).
    + reflexivity.
    + rewrite IH. apply perm_swap.
Qed.

Lemma sort_perm (l : list A) : Permutation (DataFrame.sort le l) l.
Proof.
  induction l as [| x l IH]; simpl.
  - reflexivity.
  - unfold DataFrame.sort in *. simpl.
    rewrite insert_sorted_perm. now constructor.
Qed.

End Sorting.

Lemma sumQ_perm (xs ys : list Q) :
  Permutation xs ys -> Holdings.sumQ xs == Holdings.sumQ ys.
Proof.
  unfold Holdings.sumQ.
  induction 1; simpl; lra.
Qed.

Lemma sumQ_le_bound (c : Q) (xs : list Q) :
  Forall (fun x => x <= c) xs ->
  Holdings.sumQ xs <= inject_Z (Z.of_nat (List.length xs)) * c.
Proof.
  unfold Holdings.sumQ.
  induction 1 as [| x xs Hx _ IH]; simpl List.length; simpl fold_right.
  - change (inject_Z (Z.of_nat 0)) with 0. lra.
  - rewrite Nat2Z.inj_succ, <- Z.add_1_r, inject_Z_plus.
    change (inject_Z 1) with 1. rewrite Qmult_plus_distr_l. lra.
Qed.

Section SizingFacts.

Import Sizing.

Variable ctx : Context.
Hypothesis unit_pos : (0 < trading_unit ctx)%Z.


Lemma unit_pos_Q : 0 < inject_Z (trading_unit ctx).
Proof. change 0 with (inject_Z 0). now rewrite <- Zlt_Qlt. Qed.

Lemma size_rows_ok (rows : list Bar) (budget : Q) :
  0 < budget ->
  Forall (fun r => 0 < bar_close r) rows ->
  Forall (sized_ok ctx) (size_rows ctx rows budget)
  /\ map sz_row (size_rows ctx rows budget) = rows
  /\ allocated (size_rows ctx rows budget) <= budget.
Proof.
  intros Hb Hrows. unfold size_rows.
  set (n := inject_Z (Z.of_nat (List.length rows))).
  assert (Hlen : rows = [] \/ (0 < List.length rows)%nat)
    by (destruct rows; simpl; [now left | right; lia]).
  destruct Hlen as [-> | Hlen].
  { simpl. repeat split; [constructor | unfold allocated, Holdings.sumQ; simpl; lra]. }
  assert (Hn : 0 < n).
  { unfold n. change 0 with (inject_Z 0). rewrite <- Zlt_Qlt. lia. }
  assert (Hshare : 0 < budget / n) by (apply Qlt_shift_div_l; lra).
  assert (Hprice : forall r, In r rows ->
              0 < bar_close r * inject_Z (trading_unit ctx)).
  { intros r Hr. rewrite Forall_forall in Hrows.
    apply Qmult_lt_0_compat; [now apply Hrows | apply unit_pos_Q]. }
  split; [| split].
  - apply Forall_forall. intros s Hs. apply in_map_iff in Hs.
    destruct Hs as (r & <- & Hr). unfold sized_ok. simpl.
    split; [reflexivity |]. split; [now apply Hprice |].
    apply floordiv_nonneg; [now apply Hprice | lra].
  - rewrite map_map. simpl. apply map_id.
  - unfold allocated. rewrite map_map. simpl.
    eapply Qle_trans.
    + apply (sumQ_le_bound (budget / n)).
      apply Forall_forall. intros x Hx. apply in_map_iff in Hx.
      destruct Hx as (r & <- & Hr).
      rewrite Qmult_comm. apply floordiv_mul_le. now apply Hprice.
    + rewrite length_map. fold n.
      assert (E : n * (budget / n) == budget) by (field; lra).
      rewrite E. lra.
Qed.

Lemma allocated_cons (s : Sized) (pool : list Sized) :
  allocated (s :: pool)
  == trade_price s * inject_Z (trade_shares s) + allocated pool.
Proof. reflexivity. Qed.

(** The loop hands out lots without overdrawing, keeps rows and prices,
    and leaves less than any row's lot price. *)
Lemma redistribute_spec (pool : list Sized) :
  forall remaining,
    Forall (sized_ok ctx) pool ->
    0 <= remaining ->
    let '(pool', remaining') := redistribute pool remaining in
    Forall (sized_ok ctx) pool'
    /\ map sz_row pool' = map sz_row pool
    /\ 0 <= remaining' <= remaining
    /\ allocated pool' + remaining' == allocated pool + remaining
    /\ Forall (fun s => remaining' < trade_price s) pool.
Proof.
  induction pool as [| row pool IH]; intros remaining Hok Hrem.
  - simpl. repeat split; try constructor; lra.
  - inversion Hok as [| ? ? Hrow Hpool]; subst.
    destruct Hrow as (Hprice & Hpos & Hshares).
    pose proof (floordiv_mul_le remaining (trade_price row) Hpos) as Hle.
    pose proof (floordiv_rem_lt remaining (trade_price row) Hpos) as Hlt.
    pose proof (floordiv_nonneg remaining (trade_price row) Hpos Hrem) as Hnn.
    simpl.
    destruct (floordiv remaining (trade_price row) =? 0)%Z eqn:E.
    + apply Z.eqb_eq in E. rewrite E in Hlt.
      specialize (IH remaining Hpool Hrem).
      destruct (redistribute pool remaining) as [rest rem].
      destruct IH as (Hok' & Hrows & Hbounds & Hsum & Hless).
      split; [constructor; [unfold sized_ok; tauto | assumption] |].
      split; [simpl; now f_equal |].
      split; [assumption |].
      split; [rewrite !allocated_cons; lra |].
      constructor; [| assumption].
      change (inject_Z 0) with 0 in Hlt. lra.
    + set (residual := floordiv remaining (trade_price row)) in *.
      assert (Hrem' : 0 <= remaining - inject_Z residual * trade_price row)
        by lra.
      specialize (IH _ Hpool Hrem').
      destruct (redistribute pool
                  (remaining - inject_Z residual * trade_price row))
        as [rest rem].
      destruct IH as (Hok' & Hrows & Hbounds & Hsum & Hless).
      assert (Hres : 0 <= inject_Z residual * trade_price row).
      { apply Qmult_le_0_compat; [| lra].
        change 0 with (inject_Z 0). now rewrite <- Zle_Qle. }
      split.
      { constructor; [| assumption]. unfold sized_ok. simpl.
        repeat split; try assumption. lia. }
      split; [simpl; now f_equal |].
      split; [lra |].
      split.
      { rewrite !allocated_cons. simpl. rewrite inject_Z_plus.
        rewrite Qmult_plus_distr_r. lra. }
      constructor; [lra | assumption].
Qed.

Lemma make_positions_spec (rng : Entropy) (pool : list Sized) :
  forall k,
    Forall (sized_ok ctx) pool ->
    Ledger.cost_total (fst (make_positions ctx rng k pool))
    == allocated pool
    /\ map pos_code (fst (make_positions ctx rng k pool))
       = funded_codes pool
    /\ Forall (fun p => (0 < pos_shares p)%Z)
         (fst (make_positions ctx rng k pool)).
Proof.
  unfold funded_codes.
  induction pool as [| row pool IH]; intros k Hok.
  - simpl. split; [reflexivity | split; [reflexivity | constructor]].
  - inversion Hok as [| ? ? Hrow Hpool]; subst.
    destruct Hrow as (Hprice & Hpos & Hshares).
    simpl. destruct (0 <? trade_shares row)%Z eqn:E.
    + specialize (IH (S k) Hpool).
      destruct (make_positions ctx rng (S k) pool) as [ps k'].
      simpl in *. destruct IH as (Hcost & Hcodes & Hall).
      split; [| split].
      * unfold Ledger.cost_total in *. simpl.
        rewrite allocated_cons. unfold Holdings.sumQ in *. simpl.
        rewrite Hcost. unfold Holdings.raw_cost. simpl.
        rewrite Hprice, inject_Z_mult. ring.
      * now f_equal.
      * constructor; [| assumption]. simpl.
        apply Z.ltb_lt in E. now apply Z.mul_pos_pos.
    + specialize (IH k Hpool).
      destruct IH as (Hcost & Hcodes & Hall).
      split; [| split]; try assumption.
      rewrite allocated_cons, Hcost.
      apply Z.ltb_ge in E.
      assert (Hz : trade_shares row = 0%Z) by lia.
      rewrite Hz. change (inject_Z 0) with 0. lra.
Qed.

Lemma allocate_spec (rows : list Bar) (budget : Q) :
  0 < budget ->
  Forall (fun r => 0 < bar_close r) rows ->
  Forall (sized_ok ctx) (fst (allocate ctx rows budget))
  /\ Permutation (map sz_row (fst (allocate ctx rows budget))) rows
  /\ 0 <= snd (allocate ctx rows budget)
  /\ allocated (fst (allocate ctx rows budget))
     + snd (allocate ctx rows budget) == budget
  /\ Forall (fun r => snd (allocate ctx rows budget)
                      < bar_close r * inject_Z (trading_unit ctx)) rows.
Proof.
  intros Hb Hrows. unfold allocate.
  destruct (size_rows_ok rows budget Hb Hrows) as (Hok & Hmap & Hle).
  set (pool := size_rows ctx rows budget) in *.
  assert (Hperm : Permutation (sort_desc pool) pool) by apply sort_perm.
  assert (Hok' : Forall (sized_ok ctx) (sort_desc pool)).
  { apply Forall_forall. intros s Hs. rewrite Forall_forall in Hok.
    apply Hok. now apply (Permutation_in _ Hperm). }
  assert (Halloc : allocated (sort_desc pool) == allocated pool).
  { unfold allocated. apply sumQ_perm. now apply Permutation_map. }
  assert (Hrem : 0 <= budget - allocated pool) by lra.
  pose proof (redistribute_spec (sort_desc pool) _ Hok' Hrem) as H.
  destruct (redistribute (sort_desc pool) (budget - allocated pool))
    as [final rem].
  destruct H as (Hfinal & Hrows' & Hbounds & Hsum & Hless). simpl.
  split; [assumption |].
  split; [rewrite Hrows', <- Hmap; now apply Permutation_map |].
  split; [tauto |].
  split; [lra |].
  apply Forall_forall. intros r Hr.
  rewrite <- Hmap in Hr. apply in_map_iff in Hr.
  destruct Hr as (s & <- & Hs).
  apply (Permutation_in _ (Permutation_sym Hperm)) in Hs.
  rewrite Forall_forall in Hless, Hok'.
  destruct (Hok' s Hs) as (Hprice & _). rewrite <- Hprice.
  now apply Hless.
Qed.

End SizingFacts.

(** C8.  For every candidate pool with positive close prices, a positive
    lot size and a positive budget, the positions produced by
    [generate_positions] cost in total (sum of close price * shares) no more
    than the budget; the cash left after the redistribution loop is the
    budget minus that total, is not negative and is less than the per-lot
    price of every candidate of the pool, the cheapest included; and
    exactly the candidates that end with a positive number of lots yield a
    position, each with a positive share count. *)
Theorem sizing_stays_within_budget
    (ctx : Context) (rng : Entropy) (k : nat) (pool_df : Frame) (budget : Q) :
  0 < budget ->
  (0 < trading_unit ctx)%Z ->
  Forall (fun r => 0 < bar_close r) (df_rows pool_df) ->
  let positions := fst (generate_positions ctx rng k pool_df budget) in
  let sized := fst (allocate ctx (df_rows pool_df) budget) in
  let remaining := snd (allocate ctx (df_rows pool_df) budget) in
  Ledger.cost_total positions <= budget
  /\ remaining == budget - Ledger.cost_total positions
  /\ 0 <= remaining
  /\ Forall (fun r => remaining < bar_close r * inject_Z (trading_unit ctx))
       (df_rows pool_df)
  /\ map pos_code positions = Sizing.funded_codes sized
  /\ Forall (fun p => (0 < pos_shares p)%Z) positions.
Proof.
  intros Hb Hunit Hrows positions sized remaining.
  assert (Hgen : positions = fst (make_positions ctx rng k sized)).
  { unfold positions, generate_positions, sized.
    assert (Hnb : Qle_bool budget 0 = false).
    { destruct (Qle_bool budget 0) eqn:E; [| reflexivity].
      apply Qle_bool_iff in E. lra. }
    rewrite Hnb, orb_false_r. unfold DataFrame.is_empty.
    destruct (df_rows pool_df); reflexivity. }
  destruct (allocate_spec ctx Hunit (df_rows pool_df) budget Hb Hrows)
    as (Hok & _ & Hnn & Hsum & Hless).
  destruct (make_positions_spec ctx Hunit rng sized k Hok)
    as (Hcost & Hcodes & Hshares).
  fold sized remaining in Hsum, Hnn, Hless.
  rewrite Hgen.
  repeat split; try assumption; try lra.
Qed.

Lemma sizing_stays_within_budget_witness :
  let positions :=
    fst (generate_positions Sizing.lots_of_100 (fun _ => O) 0
           Sizing.two_candidates 5000) in
  Ledger.cost_total positions <= 5000
  /\ map pos_shares positions = [200%Z; 1000%Z].
Proof.
  split.
  - apply (sizing_stays_within_budget Sizing.lots_of_100 (fun _ => O) 0
             Sizing.two_candidates 5000).
    + reflexivity.
    + reflexivity.
    + repeat constructor.
  - reflexivity.
Defined.

(** ** Timestamps: the lexicographic order on strings *)

Module StringOrder.

Lemma ascii_compare_refl (a : ascii) : Ascii.compare a a = Eq.
Proof. unfold Ascii.compare. apply N.compare_refl. Qed.

Lemma ascii_compare_lt_trans (a b c : ascii) :
  Ascii.compare a b = Lt -> Ascii.compare b c = Lt -> Ascii.compare a c = Lt.
Proof.
  unfold Ascii.compare. rewrite !N.compare_lt_iff. apply N.lt_trans.
Qed.

Lemma compare_refl (s : string) : String.compare s s = Eq.
Proof.
  induction s as [| a s IH]; simpl; [reflexivity |].
  now rewrite ascii_compare_refl.
Qed.

Lemma compare_lt_trans (s1 : string) :
  forall s2 s3,
    String.compare s1 s2 = Lt -> String.compare s2 s3 = Lt ->
    String.compare s1 s3 = Lt.
Proof.
  induction s1 as [| a s1 IH]; intros [| b s2] [| c s3]; simpl;
    try discriminate; try reflexivity.
  destruct (Ascii.compare a b) eqn:Eab; try discriminate;
    destruct (Ascii.compare b c) eqn:Ebc; try discriminate; intros H1 H2.
  - apply Ascii.compare_eq_iff in Eab, Ebc. subst.
    rewrite ascii_compare_refl. now apply (IH s2).
  - apply Ascii.compare_eq_iff in Eab. subst. now rewrite Ebc.
  - apply Ascii.compare_eq_iff in Ebc. subst. now rewrite Eab.
  - now rewrite (ascii_compare_lt_trans a b c).
Qed.

Lemma leb_iff (a b : string) :
  String.leb a b = true <-> String.compare a b = Lt \/ a = b.
Proof.
  unfold String.leb. destruct (String.compare a b) eqn:E.
  - apply String.compare_eq_iff in E. intuition.
  - intuition.
  - split; [discriminate |]. intros [H | ->]; [discriminate |].
    rewrite compare_refl in E. discriminate.
Qed.

Lemma ltb_iff (a b : string) :
  String.ltb a b = true <-> String.compare a b = Lt.
Proof.
  unfold String.ltb. destruct (String.compare a b); intuition discriminate.
Qed.

Lemma leb_refl (a : string) : String.leb a a = true.
Proof. apply leb_iff. now right. Qed.

Lemma leb_trans (a b c : string) :
  String.leb a b = true -> String.leb b c = true -> String.leb a c = true.
Proof.
  rewrite !leb_iff. intros [H1 | ->] [H2 | ->]; auto.
  left. now apply (compare_lt_trans a b c).
Qed.

Lemma ltb_leb_trans (a b c : string) :
  String.ltb a b = true -> String.leb b c = true -> String.ltb a c = true.
Proof.
  rewrite !ltb_iff, leb_iff. intros H1 [H2 | ->]; auto.
  now apply (compare_lt_trans a b c).
Qed.

(** [not (b > a)] is [b <= a]. *)
Lemma ltb_false_iff (a b : string) :
  String.ltb a b = false <-> String.leb b a = true.
Proof.
  unfold String.ltb, String.leb. rewrite (String.compare_antisym b a).
  destruct (String.compare a b); simpl; intuition discriminate.
Qed.

Lemma ltb_not_leb (a b : string) :
  String.ltb a b = true -> String.leb b a = true -> False.
Proof.
  intros H1 H2. apply ltb_false_iff in H2. congruence.
Qed.

Global Instance leb_Transitive :
  Transitive (fun a b => String.leb a b = true).
Proof. intros a b c. apply leb_trans. Qed.

End StringOrder.

(** ** Price adjustment: the forward scan over the factor series *)

Section FactorScan.

Import StepFunction StringOrder.

Lemma sorted_nth {A} (R : A -> A -> Prop) (l : list A) :
  StronglySorted R l ->
  forall a b x y,
    (a < b)%nat -> nth_error l a = Some x -> nth_error l b = Some y -> R x y.
Proof.
  induction 1 as [| h l Hs IH Hh]; intros a b x y Hab Ha Hb.
  - destruct a; discriminate.
  - destruct b as [| b]; [lia |]. simpl in Hb.
    destruct a as [| a]; simpl in Ha.
    + inversion Ha; subst. rewrite Forall_forall in Hh.
      apply Hh. now apply nth_error_In with b.
    + apply (IH a b); [lia | assumption | assumption].
Qed.

Lemma nth_error_last {A} (l : list A) (d : A) :
  l <> [] -> nth_error l (List.length l - 1) = Some (last l d).
Proof.
  induction l as [| x l IH]; intros Hne; [congruence |].
  destruct l as [| y l]; [reflexivity |].
  specialize (IH ltac:(discriminate)).
  simpl List.length in *.
  replace (S (S (List.length l)) - 1)%nat with (S (List.length l)) by lia.
  replace (S (List.length l) - 1)%nat with (List.length l) in IH by lia.
  exact IH.
Qed.

Variable fac_ts : list string.

(** With some later factor dated after [ts], the loop stops below it,
    having skipped only factors dated on or before [ts]. *)
Lemma advance_ok (ts : string) (fuel : nat) :
  forall i,
    (exists m t, (i < m)%nat /\ nth_error fac_ts m = Some t
                 /\ String.ltb ts t = true) ->
    (List.length fac_ts <= fuel + i)%nat ->
    exists j,
      Backtester.advance fuel fac_ts i ts = Ok j
      /\ (i <= j)%nat
      /\ (exists t, nth_error fac_ts (j + 1) = Some t
                    /\ String.ltb ts t = true)
      /\ (forall m t, (i < m <= j)%nat -> nth_error fac_ts m = Some t ->
                      String.leb t ts = true).
Proof.
  induction fuel as [| fuel IH]; intros i (m & t & Him & Hm & Hlt) Hfuel.
  - assert (m < List.length fac_ts)%nat
      by (apply nth_error_Some; congruence).
    lia.
  - simpl.
    destruct (nth_error fac_ts (i + 1)) as [t0 |] eqn:E.
    + destruct (String.ltb ts t0) eqn:L.
      * exists i. repeat split; [lia | now exists t0 | intros; lia].
      * assert (Hm' : (i + 1 < m)%nat).
        { destruct (Nat.eq_dec m (i + 1)) as [-> | Hne]; [| lia].
          congruence. }
        destruct (IH (i + 1)%nat) as (j & Hj & Hij & Hnext & Hskip).
        { exists m, t. repeat split; assumption. }
        { lia. }
        exists j. repeat split; [assumption | lia | assumption |].
        intros m' t' Hm'' Hnth.
        destruct (Nat.eq_dec m' (i + 1)) as [-> | Hne].
        -- rewrite E in Hnth. inversion Hnth; subst.
           now apply ltb_false_iff.
        -- apply (Hskip m' t'); [lia | assumption].
    + apply nth_error_None in E.
      assert (m < List.length fac_ts)%nat
        by (apply nth_error_Some; congruence).
      lia.
Qed.

Variable adj : list FactorRow.
Hypothesis fac_ts_def : fac_ts = map fac_timestamp adj.
Hypothesis fac_sorted :
  StronglySorted (fun a b => String.leb a b = true) fac_ts.

Lemma fac_ts_nth (m : nat) (f : FactorRow) :
  nth_error adj m = Some f -> nth_error fac_ts m = Some (fac_timestamp f).
Proof. intros H. rewrite fac_ts_def. now apply map_nth_error. Qed.

Lemma later_after_next (ts : string) (j : nat) (t : string) :
  nth_error fac_ts (j + 1) = Some t -> String.ltb ts t = true ->
  later_after adj ts j.
Proof.
  intros Hnext Hlt m f Hjm Hm. apply fac_ts_nth in Hm.
  destruct (Nat.eq_dec m (j + 1)) as [-> | Hne].
  - congruence.
  - apply (ltb_leb_trans ts t); [assumption |].
    apply (sorted_nth _ fac_ts fac_sorted (j + 1) m); [lia | assumption ..].
Qed.

(** The loop over the bars: [i] is 0 or indexes a factor dated on or
    before every remaining bar. *)
Lemma assign_loop_ok (timestamps : list string) :
  forall i,
    StronglySorted (fun a b => String.leb a b = true) timestamps ->
    Forall (fun ts => exists m t, (0 < m)%nat /\ nth_error fac_ts m = Some t
                                  /\ String.ltb ts t = true) timestamps ->
    (i = O \/ exists t, nth_error fac_ts i = Some t
                        /\ Forall (fun ts => String.leb t ts = true)
                             timestamps) ->
    exists factors,
      Backtester.assign_loop fac_ts (map hfq_factor adj) i timestamps
      = Ok factors
      /\ Forall2 (assigned adj) timestamps factors.
Proof.
  induction timestamps as [| ts tss IH]; intros i Hsorted Hlast Hinv.
  - exists []. split; [reflexivity | constructor].
  - inversion Hsorted as [| ? ? Hs' Hhead].
    inversion Hlast as [| ? ? (m & t & Hm0 & Hm & Hlt) Hlast'].
    assert (Him : (i < m)%nat).
    { destruct Hinv as [-> | (ti & Hti & Hall)]; [assumption |].
      inversion Hall as [| ? ? Hle _].
      destruct (Nat.lt_ge_cases i m) as [| Hge]; [assumption |].
      exfalso. apply (ltb_not_leb ts t Hlt).
      destruct (Nat.eq_dec m i) as [-> | Hne].
      - congruence.
      - apply (leb_trans t ti ts); [| assumption].
        apply (sorted_nth _ fac_ts fac_sorted m i); [lia | assumption ..]. }
    destruct (advance_ok ts (S (List.length fac_ts)) i)
      as (j & Hadv & Hij & (t1 & Ht1 & Hlt1) & Hskip).
    { now exists m, t. }
    { lia. }
    assert (Hj : (j < List.length adj)%nat).
    { assert (Hj1 : (j + 1 < List.length fac_ts)%nat)
        by (apply nth_error_Some; congruence).
      rewrite fac_ts_def, length_map in Hj1. lia. }
    destruct (nth_error adj j) as [f |] eqn:Ef;
      [| apply nth_error_None in Ef; lia].
    assert (Hle : j <> O -> String.leb (fac_timestamp f) ts = true).
    { intros Hj0. pose proof (fac_ts_nth j f Ef) as Hfj.
      destruct (Nat.eq_dec j i) as [-> | Hne].
      - destruct Hinv as [-> | (ti & Hti & Hall)]; [congruence |].
        inversion Hall. congruence.
      - apply (Hskip j); [lia | assumption]. }
    destruct (IH j Hs' Hlast') as (factors & Hloop & Hall).
    { destruct (Nat.eq_dec j 0) as [-> | Hj0]; [now left | right].
      exists (fac_timestamp f). split; [now apply fac_ts_nth |].
      apply Forall_forall. intros ts' Hts'. rewrite Forall_forall in Hhead.
      apply (leb_trans _ ts); [now apply Hle | now apply Hhead]. }
    exists (hfq_factor f :: factors). split.
    + cbn [Backtester.assign_loop]. rewrite Hadv. cbn [bind].
      rewrite (map_nth_error hfq_factor j adj Ef), Hloop. reflexivity.
    + constructor; [| assumption].
      exists j, f. repeat split; try assumption.
      pose proof (later_after_next ts j t1 Ht1 Hlt1) as Hlater.
      destruct (Nat.eq_dec j 0) as [-> | Hj0].
      * right. now split.
      * left. split; [| assumption]. exists f. split; [assumption |].
        now apply Hle.
Qed.

End FactorScan.

Lemma with_changes_prices (rows : list Bar) :
  forall prev,
    map StepFunction.prices (Backtester.with_changes prev rows)
    = map StepFunction.prices rows.
Proof.
  induction rows as [| r rows IH]; intros prev; simpl; [reflexivity |].
  now rewrite IH.
Qed.

Lemma scaled_rounded_prices (rows : list Bar) :
  forall factors,
    map StepFunction.prices
      (map Backtester.round_row
         (Backtester.with_changes None
            (map (fun rf => Backtester.scale (fst rf) (snd rf))
               (combine rows factors))))
    = map (fun rf => StepFunction.adjusted_prices (fst rf) (snd rf))
        (combine rows factors).
Proof.
  intros factors.
  rewrite map_map.
  change (fun x => StepFunction.prices (Backtester.round_row x))
    with (fun x => (fun q => (round_val (fst (fst (fst q))),
                              round_val (snd (fst (fst q))),
                              round_val (snd (fst q)),
                              round_val (snd q)))
                     (StepFunction.prices x)).
  rewrite <- (map_map StepFunction.prices), with_changes_prices, !map_map.
  reflexivity.
Qed.

Lemma advance_raises_index (fac_ts : list string) (ts : string) (fuel : nat) :
forall i e, Backtester.advance fuel fac_ts i ts = Raise e -> e = IndexError.
Proof.
induction fuel as [| fuel IH]; simpl; intros i e H.
- now inversion H.
- destruct (nth_error fac_ts (i + 1)) as [t |]; [| now inversion H].
  destruct (String.ltb ts t); [discriminate | now apply (IH (i + 1)%nat)].
Qed.

Lemma advance_overrun (fac_ts : list string) (ts : string) (fuel : nat) :
forall i,
  (forall m t, (i < m)%nat -> nth_error fac_ts m = Some t ->
               String.leb t ts = true) ->
  Backtester.advance fuel fac_ts i ts = Raise IndexError.
Proof.
induction fuel as [| fuel IH]; simpl; intros i Hpast; [reflexivity |].
destruct (nth_error fac_ts (i + 1)) as [t |] eqn:E; [| reflexivity].
assert (Hle : String.leb t ts = true) by (apply (Hpast (i + 1)%nat); [lia | assumption]).
apply StringOrder.ltb_false_iff in Hle. rewrite Hle.
apply IH. intros m t' Hm. apply Hpast. lia.
Qed.

Lemma assign_loop_overrun (fac_ts : list string) (fac_vals : list Q)
  (timestamps : list string) :
Exists (Adjust.past_every_later_factor fac_ts) timestamps ->
forall i, Backtester.assign_loop fac_ts fac_vals i timestamps = Raise IndexError.
Proof.
induction 1 as [ts tss Hpast | ts tss Hlater IH]; intros i;
  cbn [Backtester.assign_loop].
- rewrite advance_overrun; [reflexivity |].
  intros m t Hm. apply Hpast. lia.
- destruct (Backtester.advance (S (List.length fac_ts)) fac_ts i ts)
    as [i' | e] eqn:Eadv; cbn [bind].
  + destruct (nth_error fac_vals i'); [| reflexivity].
    now rewrite IH.
  + apply advance_raises_index in Eadv. now subst.
Qed.

(** X22.  For a symbol whose bars and whose factor series (of at least two
    factors) are sorted ascending by date, and whose bars are all dated
    strictly before the last factor's effective date, the adjustment stage
    assigns to every bar the most recent factor whose effective date is on
    or before the bar's date, or the first factor while the bar predates
    the whole series, and multiplies the bar's four prices by it (rounded
    to 2 decimals). *)
Theorem factor_assignment_is_step_function
    (adj : list FactorRow) (bars_df : Frame) :
  let fac_ts := map fac_timestamp adj in
  let timestamps := map bar_timestamp (df_rows bars_df) in
  StepFunction.ascending fac_ts ->
  StepFunction.ascending timestamps ->
  (2 <= List.length adj)%nat ->
  Forall (fun ts => String.ltb ts (last fac_ts EmptyString) = true) timestamps ->
  exists factors,
    Backtester.assign_factor_value_to_day fac_ts (map hfq_factor adj) timestamps
    = Ok factors
    /\ Forall2 (StepFunction.assigned adj) timestamps factors
    /\ exists out,
         Backtester._adjust_prices bars_df adj = Ok out
         /\ map StepFunction.prices (df_rows out)
            = map (fun rf => StepFunction.adjusted_prices (fst rf) (snd rf))
                (combine (df_rows bars_df) factors).
Proof.
  intros fac_ts timestamps Hfac Hbars Hlen Hbefore.
  apply Sorted_StronglySorted in Hfac; [| apply StringOrder.leb_Transitive].
  apply Sorted_StronglySorted in Hbars; [| apply StringOrder.leb_Transitive].
  assert (Hlast : nth_error fac_ts (List.length fac_ts - 1)
                  = Some (last fac_ts EmptyString)).
  { apply nth_error_last. unfold fac_ts. destruct adj; simpl in *; [lia |].
    discriminate. }
  assert (Hlen' : List.length fac_ts = List.length adj)
    by (unfold fac_ts; apply length_map).
  destruct (assign_loop_ok fac_ts adj eq_refl Hfac timestamps 0 Hbars)
    as (factors & Hloop & Hall).
  { apply Forall_forall. intros ts Hts. rewrite Forall_forall in Hbefore.
    exists (List.length fac_ts - 1)%nat, (last fac_ts EmptyString).
    repeat split; [lia | assumption | now apply Hbefore]. }
  { now left. }
  exists factors. split; [exact Hloop |]. split; [exact Hall |].
  unfold Backtester._adjust_prices.
  fold fac_ts timestamps.
  unfold Backtester.assign_factor_value_to_day. rewrite Hloop. simpl.
  eexists. split; [reflexivity |]. simpl.
  apply scaled_rounded_prices.
Qed.

Lemma factor_assignment_is_step_function_witness :
  exists factors,
    Backtester.assign_factor_value_to_day
      (map fac_timestamp StepFunction.three_factors)
      (map hfq_factor StepFunction.three_factors)
      ["2019-06-01"; "2020-06-01"; "2021-06-01"]%string
    = Ok factors
    /\ Forall2 (StepFunction.assigned StepFunction.three_factors)
         ["2019-06-01"; "2020-06-01"; "2021-06-01"]%string factors
    /\ exists out,
         Backtester._adjust_prices
           (StepFunction.bars_on ["2019-06-01"; "2020-06-01"; "2021-06-01"]%string)
           StepFunction.three_factors = Ok out
         /\ map StepFunction.prices (df_rows out)
            = map (fun rf => StepFunction.adjusted_prices (fst rf) (snd rf))
                (combine
                   (df_rows (StepFunction.bars_on
                               ["2019-06-01"; "2020-06-01"; "2021-06-01"]%string))
                   factors).
Proof.
  apply (factor_assignment_is_step_function StepFunction.three_factors
           (StepFunction.bars_on ["2019-06-01"; "2020-06-01"; "2021-06-01"]%string)).
  - repeat constructor.
  - repeat constructor.
  - simpl. lia.
  - repeat constructor.
Defined.

(** C3 (code bug).  Whatever the sorted factor series, a bar dated on or
    after the last factor's effective date has a most recent factor, the
    last one, which is the factor the claim assigns to it; the scan instead
    reads [fac_ts[i + 1]] past the end of the list and the whole adjustment
    of the symbol ends in IndexError. *)
Theorem adjustment_overruns_from_the_last_factor_on
  (adj : list FactorRow) (bars_df : Frame) (r : Bar) :
StepFunction.ascending (map fac_timestamp adj) ->
adj <> [] ->
In r (df_rows bars_df) ->
String.leb (last (map fac_timestamp adj) EmptyString) (bar_timestamp r)
= true ->
StepFunction.most_recent adj (bar_timestamp r) (List.length adj - 1)
/\ Backtester._adjust_prices bars_df adj = Raise IndexError.
Proof.
intros Hsorted Hne Hin Hlast.
apply Sorted_StronglySorted in Hsorted; [| apply StringOrder.leb_Transitive].
set (fac_ts := map fac_timestamp adj) in *.
assert (Hlen : List.length fac_ts = List.length adj)
  by (unfold fac_ts; apply length_map).
assert (Hnth : nth_error fac_ts (List.length adj - 1)
               = Some (last fac_ts EmptyString)).
{ rewrite <- Hlen. apply nth_error_last. unfold fac_ts.
  destruct adj; [congruence | discriminate]. }
split.
- split.
  + unfold fac_ts in Hnth. rewrite nth_error_map in Hnth.
    destruct (nth_error adj (List.length adj - 1)) as [f |] eqn:Ef;
      [| discriminate].
    exists f. split; [reflexivity |].
    inversion Hnth as [Hf]. fold fac_ts. now rewrite Hf.
  + intros m f Hm Hf.
    assert (m < List.length adj)%nat by (apply nth_error_Some; congruence).
    lia.
- unfold Backtester._adjust_prices, Backtester.assign_factor_value_to_day.
  fold fac_ts. rewrite assign_loop_overrun; [reflexivity |].
  apply Exists_exists. exists (bar_timestamp r).
  split; [now apply in_map |].
  intros m t Hm Ht.
  destruct (Nat.eq_dec m (List.length adj - 1)) as [-> | Hneq].
  + rewrite Hnth in Ht. inversion Ht; subst t. exact Hlast.
  + assert (m < List.length fac_ts)%nat by (apply nth_error_Some; congruence).
    apply (StringOrder.leb_trans t (last fac_ts EmptyString)); [| exact Hlast].
    apply (sorted_nth _ fac_ts Hsorted m (List.length adj - 1));
      [lia | exact Ht | exact Hnth].
Qed.

Lemma adjustment_overruns_from_the_last_factor_on_witness :
StepFunction.most_recent StepFunction.two_factors "2021-06-01" 1
/\ Backtester._adjust_prices
     (StepFunction.bars_on ["2021-06-01"%string]) StepFunction.two_factors
   = Raise IndexError.
Proof.
apply (adjustment_overruns_from_the_last_factor_on StepFunction.two_factors
         (StepFunction.bars_on ["2021-06-01"%string])
         (StepFunction.bar_on "2021-06-01")).
- repeat constructor.
- discriminate.
- now left.
- reflexivity.
Defined.

(** ** The trading day on concrete frames *)

(** Marking to market fails as soon as one held position's symbol is
    missing from the day's frame. *)
Lemma tick_raises_on_absent_symbol
  (timestamp : string) (sub_df : Frame) (h : Holdings.t) :
Exists (fun cp => DataFrame.loc sub_df timestamp (pos_code (snd cp)) = None) h ->
Holdings.tick (Backtester.price_lookup timestamp sub_df) h = Raise KeyError.
Proof.
induction h as [| [c p] h IH]; intros Hex.
- inversion Hex.
- simpl. unfold Backtester.price_lookup at 1.
  destruct (DataFrame.loc sub_df timestamp (pos_code p)) as [b |] eqn:E.
  + inversion Hex as [? ? Hhere | ? ? Hlater]; subst.
    * simpl in Hhere. congruence.
    * simpl. now rewrite (IH Hlater).
  + reflexivity.
Qed.

Lemma trade_day_raises_on_absent_symbol
  (ctx : Context) (strategy : Strategy) (rng : Entropy)
  (st : Backtester.Sim) (timestamp : string) (sub_df : Frame) :
Exists (fun cp => DataFrame.loc sub_df timestamp (pos_code (snd cp)) = None)
  (Account.holdings (Backtester.sim_account st)) ->
Backtester.trade_day ctx strategy rng st timestamp sub_df = Raise KeyError.
Proof.
intros Hex. unfold Backtester.trade_day, Account.tick.
destruct (Account.holdings (Backtester.sim_account st)) as [| cp h] eqn:E.
- inversion Hex.
- rewrite (tick_raises_on_absent_symbol _ _ _ Hex). reflexivity.
Qed.

(** C6 fails on the code.  With 000001 held and only 000002 in the day's
    frame, the exit loop would skip the position, but the mark-to-market
    step before it looks up the missing close price and the day ends in a
    KeyError; [Backtester.trade] over that single day fails likewise. *)
Theorem suspended_symbol_aborts_the_day :
Backtester.exit_loop Scenarios.ctx Scenarios.day Scenarios.suspended []
  (Account.holdings (Scenarios.holding_account 1000), TradeBook.init, [])
  (Account.holdings (Scenarios.holding_account 1000))
= Ok (Account.holdings (Scenarios.holding_account 1000), TradeBook.init, [])
/\ Backtester.trade_day Scenarios.ctx Scenarios.never_signals
     (Scenarios.always 0) (Scenarios.start (Scenarios.holding_account 1000))
     Scenarios.day Scenarios.suspended
   = Raise KeyError
/\ Backtester.trade Scenarios.ctx (Scenarios.holding_account 1000)
     (Scenarios.always 0) 0 Scenarios.suspended Scenarios.never_signals
   = Raise KeyError.
Proof.
split; [reflexivity |]. split.
- apply trade_day_raises_on_absent_symbol. left. reflexivity.
- reflexivity.
Qed.

(** C4 fails on the code.  On a day where the held position is sold by
    take-profit and no buy or close signal fires, a trade is logged but no
    capital snapshot is; on a day with a buy signal and no cash, nothing is
    traded but a snapshot is appended. *)
Theorem snapshot_follows_signals_not_trades :
(exists st,
   Backtester.trade_day Scenarios.ctx Scenarios.never_signals
     (Scenarios.always 0) (Scenarios.start (Scenarios.holding_account 1000))
     Scenarios.day Scenarios.rally = Ok st
   /\ map tl_tag (TradeBook.trade_logs (Backtester.sim_book st)) = [TAKE_PROFIT]
   /\ Account.holdings (Backtester.sim_account st) = []
   /\ TradeBook.capital_logs (Backtester.sim_book st) = [])
/\ (exists st,
      Backtester.trade_day Scenarios.ctx Scenarios.buys_from_20
        (Scenarios.always 0) (Scenarios.start (Scenarios.cash_account 0))
        Scenarios.day Scenarios.three_symbols = Ok st
      /\ TradeBook.trade_logs (Backtester.sim_book st) = []
      /\ Account.holdings (Backtester.sim_account st) = []
      /\ map cl_timestamp (TradeBook.capital_logs (Backtester.sim_book st))
         = [Scenarios.day]).
Proof.
split; eexists; (split; [vm_compute; reflexivity |]); repeat split.
Qed.

(** C5 fails on the code.  With candidates 000001 and 000002 and a limit
    of one open, the pool is resampled from the whole day frame: it has
    exactly one row, but under a draw of 2 that row is 000003, which had no
    buy signal, and the day opens a position in it. *)
Theorem downsampling_draws_from_the_whole_frame :
Backtester.get_buy_signals (Scenarios.cash_account 10000)
  Scenarios.three_symbols Scenarios.buys_from_20
= Ok [(Scenarios.day, "000001"%string); (Scenarios.day, "000002"%string)]
/\ (exists pool_df budget k,
      StrategyBase.get_pool_and_budget Scenarios.ctx_one_open
        (Scenarios.cash_account 10000) (Scenarios.always 2) 0
        Scenarios.three_symbols
        [(Scenarios.day, "000001"%string); (Scenarios.day, "000002"%string)]
        10000
      = Ok (pool_df, budget, k)
      /\ map bar_code (df_rows pool_df) = ["000003"%string])
/\ (exists st,
      Backtester.trade_day Scenarios.ctx_one_open Scenarios.buys_from_20
        (Scenarios.always 2) (Scenarios.start (Scenarios.cash_account 10000))
        Scenarios.day Scenarios.three_symbols = Ok st
      /\ map tl_code (TradeBook.trade_logs (Backtester.sim_book st))
         = ["000003"%string]
      /\ map tl_tag (TradeBook.trade_logs (Backtester.sim_book st)) = [OPEN]).
Proof.
split; [reflexivity |]. split.
- eexists _, _, _. split; [vm_compute; reflexivity | reflexivity].
- eexists. split; [vm_compute; reflexivity |]. split; reflexivity.
Qed.

(** ** Indicator pipeline: faulty symbols are dropped in isolation *)

Lemma factors_of_missing (table : list FactorRow) (code : string) :
Forall (fun f => fac_code f <> code) table ->
Backtester.factors_of table code = Raise KeyError.
Proof.
intros Hall. unfold Backtester.factors_of.
assert (E : filter (fun f => String.eqb (fac_code f) code) table = []).
{ induction Hall as [| f l Hf _ IH]; simpl; [reflexivity |].
  apply String.eqb_neq in Hf. rewrite Hf. exact IH. }
rewrite E. reflexivity.
Qed.

Lemma exceeds_21_iff (v : value) :
Backtester.exceeds_21 v = true <-> Pipeline.above_21 v.
Proof.
destruct v as [q | s | positive]; simpl.
- rewrite negb_true_iff. split; intros H.
  + destruct (Qlt_le_dec 21 (Qabs q)) as [| Hle]; [assumption |].
    apply Qle_bool_iff in Hle. congruence.
  + destruct (Qle_bool (Qabs q) 21) eqn:E; [| reflexivity].
    apply Qle_bool_iff in E. lra.
- split; [discriminate | contradiction].
- split; trivial.
Qed.

Lemma implausible_iff (df : Frame) :
Backtester.implausible df = true
<-> exists r, In r (df_rows df)
              /\ Pipeline.above_21 (Backtester.pct_chg_of r).
Proof.
unfold Backtester.implausible. rewrite existsb_exists.
split; intros (r & Hin & H); exists r; (split; [assumption |]);
  now apply exceeds_21_iff.
Qed.

Lemma mapM_map {A B C} (f : B -> result C) (g : A -> B) (xs : list A) :
mapM (fun x => f (g x)) xs = mapM f (map g xs).
Proof.
induction xs as [| x xs IH]; simpl; [reflexivity |].
now rewrite IH.
Qed.

Section PipelineFacts.

Import Pipeline.

Variables (ctx : Context) (strategy : Strategy) (table : list FactorRow).
Hypothesis configured : hfq_adjust_factors ctx = Some table.

(** Either fault makes the guarded adjustment take its early return. *)
Lemma adjust_guarded_faulty (bars_df : Frame) (code : string) :
symbol bars_df code ->
faulty table strategy bars_df ->
Backtester.adjust_guarded table code (prepared strategy bars_df) = Ok None.
Proof.
intros (first & rest & Hrows & Hcode) Hfault.
assert (Hsame : forall code', symbol bars_df code' -> code' = code).
{ intros code' (first' & rest' & Hrows' & Hcode'). congruence. }
unfold Backtester.adjust_guarded.
destruct Hfault as [(code' & Hsym & Hall)
                   | (code' & factors & adjusted & r & Hsym & Hfac & Hadj
                      & Hin & Hbig)];
  apply Hsame in Hsym; subst code'.
- now rewrite (factors_of_missing _ _ Hall).
- rewrite Hfac. simpl. rewrite Hadj.
  assert (Himp : Backtester.implausible adjusted = true)
    by (apply implausible_iff; now exists r).
  now rewrite Himp.
Qed.

Lemma faulty_symbol_yields_no_rows
  (indicators : list (string * list string)) (bars_df : Frame) :
faulty table strategy bars_df ->
exists out,
  Backtester._adjust_then_compute ctx bars_df indicators strategy = Ok out
  /\ df_rows out = [].
Proof.
intros Hfault.
assert (Hsym : exists code, symbol bars_df code).
{ destruct Hfault as [(code & Hsym & _) | (code & ? & ? & ? & Hsym & _)];
    now exists code. }
destruct Hsym as (code & Hsym).
pose proof (adjust_guarded_faulty bars_df code Hsym Hfault) as Hguard.
destruct Hsym as (first & rest & Hrows & Hcode).
unfold Backtester._adjust_then_compute. rewrite Hrows, <- Hrows.
fold (prepared strategy bars_df).
destruct (DataFrame.is_empty (prepared strategy bars_df)) eqn:Hempty.
- exists (prepared strategy bars_df). split; [reflexivity |].
  unfold DataFrame.is_empty in Hempty.
  destruct (df_rows (prepared strategy bars_df)); [reflexivity | discriminate].
- rewrite configured, Hcode, Hguard. simpl.
  exists DataFrame.empty_frame. split; reflexivity.
Qed.

Lemma mapM_app {A B} (f : A -> result B) (xs ys : list A) :
mapM f (xs ++ ys)
= (us <- mapM f xs ;; vs <- mapM f ys ;; Ok (us ++ vs)).
Proof.
induction xs as [| x xs IH]; simpl.
- destruct (mapM f ys); reflexivity.
- destruct (f x) as [y | e]; simpl; [| reflexivity].
  rewrite IH. destruct (mapM f xs) as [us | e]; simpl; [| reflexivity].
  destruct (mapM f ys); reflexivity.
Qed.

(** With or without the faulty symbol the pipeline yields the same rows,
    or stops on the same exception, raised by another symbol. *)
Lemma faulty_symbol_is_isolated
  (indicators : list (string * list string))
  (before after : list Frame) (bars_df : Frame) :
faulty table strategy bars_df ->
rows ctx strategy indicators (before ++ bars_df :: after)
= rows ctx strategy indicators (before ++ after).
Proof.
intros Hfault.
destruct (faulty_symbol_yields_no_rows indicators bars_df Hfault)
  as (out & Hout & Hrows).
unfold rows. rewrite !mapM_app. simpl. rewrite Hout. simpl.
destruct (mapM _ before) as [us | e]; simpl; [| reflexivity].
destruct (mapM _ after) as [vs | e]; simpl; [| reflexivity].
rewrite !flat_map_app. simpl. now rewrite Hrows.
Qed.

Lemma get_indicators_df_rows (df out : Frame) :
Backtester.get_indicators_df ctx df strategy = Ok out ->
(pending df strategy = [] /\ out = df)
\/ (pending df strategy <> []
    /\ rows ctx strategy (pending df strategy)
         (map snd (DataFrame.groupby bar_code (by_code df)))
       = Ok (df_rows out)).
Proof.
unfold Backtester.get_indicators_df. fold (pending df strategy).
fold (by_code df).
destruct (pending df strategy) as [| ip ips] eqn:Hpending.
- intros H. inversion H. now left.
- intros H. right. split; [discriminate |].
  unfold rows. rewrite <- Hpending in *.
  set (f := fun g => Backtester._adjust_then_compute ctx g
                       (pending df strategy) strategy).
  pose proof (mapM_map f snd (DataFrame.groupby bar_code (by_code df)))
    as Hmap.
  unfold f in Hmap. simpl in Hmap. rewrite Hmap in H.
  destruct (mapM _ (map snd _)) as [frames | e]; simpl in *; [| discriminate].
  unfold DataFrame.concat in H.
  destruct frames; inversion H. reflexivity.
Qed.

End PipelineFacts.

(** ** Trading loop: only symbols of the dataset are traded *)

Tactic Notation "bind_ok" hyp(H) "as" simple_intropattern(x) ident(E) :=
match type of H with
| bind ?m _ = Ok _ =>
    destruct m as [x | ?] eqn:E; simpl in H; [| discriminate H]
end.

Section SymbolFacts.

Import Symbols.

Variable P : string -> Prop.

Lemma tick_in (lookup : Holdings.PriceLookupFun) (h : Holdings.t) :
forall h', Holdings.tick lookup h = Ok h' -> holdings_in P h -> holdings_in P h'.
Proof.
induction h as [| [c p] h IH]; simpl; intros h' H Hin.
- inversion H. constructor.
- bind_ok H as price Eprice. bind_ok H as rest Erest. inversion H; subst.
  inversion Hin; subst. constructor; [assumption |]. now apply IH.
Qed.

Lemma insert_in (c : string) (p : Position) (h : Holdings.t) :
P (pos_code p) -> holdings_in P h -> holdings_in P (Holdings.insert c p h).
Proof.
intros Hp. induction h as [| [k q] h IH]; simpl; intros Hin.
- repeat constructor. assumption.
- inversion Hin; subst. destruct (String.eqb k c).
  + constructor; assumption.
  + constructor; [assumption | now apply IH].
Qed.

Lemma remove_in (c : string) (h : Holdings.t) :
holdings_in P h -> holdings_in P (Holdings.remove c h).
Proof.
unfold holdings_in, Holdings.remove. rewrite !Forall_forall.
intros H x Hx. apply filter_In in Hx. now apply H.
Qed.

Lemma buy_in (a : Account.t) (ps : list Position) :
Forall (fun p => P (pos_code p)) ps ->
holdings_in P (Account.holdings a) ->
holdings_in P (Account.holdings (Account.buy a ps)).
Proof.
rewrite buy_holdings. unfold Ledger.insert_all.
generalize (Account.holdings a).
induction ps as [| p ps IH]; simpl; intros h Hps Hin; [assumption |].
inversion Hps; subst. apply IH; [assumption |]. now apply insert_in.
Qed.

Lemma sell_in (a : Account.t) (ps : list Position) :
holdings_in P (Account.holdings a) ->
holdings_in P (Account.holdings (Account.sell a ps)).
Proof.
rewrite sell_holdings. unfold Ledger.remove_all.
generalize (Account.holdings a).
induction ps as [| p ps IH]; simpl; intros h Hin; [assumption |].
apply IH. now apply remove_in.
Qed.

Lemma sell_log_in (b b' : TradeBook.t) (timestamp : string) (pos : Position)
  (action : TradeActionType) :
TradeBook.sell_ b timestamp pos action = Ok b' ->
P (pos_code pos) -> logs_in P b -> logs_in P b'.
Proof.
unfold TradeBook.sell_, logs_in.
destruct (truthy (pos_latest_price pos)); [| discriminate].
intros H Hp Hin. inversion H; subst. simpl.
apply Forall_app. split; [assumption | repeat constructor; assumption].
Qed.

Lemma buy_logs_in (timestamp : string) (ps : list Position) :
forall b,
  Forall (fun p => P (pos_code p)) ps -> logs_in P b ->
  logs_in P (fold_left (fun b pos => TradeBook.buy b timestamp pos) ps b).
Proof.
induction ps as [| p ps IH]; simpl; intros b Hps Hin; [assumption |].
inversion Hps; subst. apply IH; [assumption |].
unfold logs_in, TradeBook.buy. simpl.
apply Forall_app. split; [assumption | repeat constructor; assumption].
Qed.

Lemma exit_step_in (ctx : Context) (timestamp : string) (sub_df : Frame)
  (close_indices : list (string * string)) (acc acc' : Backtester.ExitAcc)
  (entry : string * Position) :
Backtester.exit_step ctx timestamp sub_df close_indices acc entry = Ok acc' ->
P (pos_code (snd entry)) -> exit_acc_in P acc -> exit_acc_in P acc'.
Proof.
destruct acc as [[h book] sells], entry as [code pos].
unfold Backtester.exit_step, exit_acc_in. simpl.
intros H Hp [Hh Hb].
destruct (DataFrame.loc sub_df timestamp code) as [bar |];
  [| inversion H; subst; now split].
destruct (Backtester.walrus (should_take_profit ctx bar pos)) as [tp |].
{ bind_ok H as book' Ebook. inversion H; subst. simpl. split.
  - now apply insert_in.
  - eapply sell_log_in; eauto. }
destruct (Backtester.walrus (should_stop_loss ctx bar pos)) as [sl |].
{ bind_ok H as book' Ebook. inversion H; subst. simpl. split.
  - now apply insert_in.
  - eapply sell_log_in; eauto. }
destruct (Backtester.index_in (timestamp, code) close_indices).
{ bind_ok H as book' Ebook. inversion H; subst. simpl. split.
  - now apply insert_in.
  - eapply sell_log_in; eauto. }
inversion H; subst. now split.
Qed.

Lemma exit_loop_in (ctx : Context) (timestamp : string) (sub_df : Frame)
  (close_indices : list (string * string))
  (entries : list (string * Position)) :
forall acc acc',
  Backtester.exit_loop ctx timestamp sub_df close_indices acc entries = Ok acc' ->
  holdings_in P entries -> exit_acc_in P acc -> exit_acc_in P acc'.
Proof.
induction entries as [| entry entries IH]; simpl; intros acc acc' H He Hacc.
- inversion H; subst. assumption.
- bind_ok H as acc1 Estep. inversion He; subst.
  apply (IH _ _ H); [assumption |].
  eapply exit_step_in; eauto.
Qed.

Lemma draw_in (rng : Entropy) (n : nat) :
forall k rows r, In r (Random.draw rng k rows n) -> In r rows.
Proof.
assert (Hrem : forall (i : nat) (l : list Bar) (x : Bar),
           In x (Random.remove_nth i l) -> In x l).
{ intros i l. revert i.
  induction l as [| y l IHl]; intros [| i] x; simpl; auto.
  intros [-> | H]; [now left | right; now apply (IHl i)]. }
induction n as [| n IH]; simpl; intros k rows r Hr; [contradiction |].
destruct (nth_error rows (rng k mod List.length rows)) as [r0 |] eqn:E;
  [| contradiction].
destruct Hr as [<- | Hr].
- now apply nth_error_In with (rng k mod List.length rows)%nat.
- apply IH in Hr. now apply Hrem in Hr.
Qed.

Lemma loc_all_in (bars_df : Frame) (indices : list (string * string)) :
forall rows,
  loc_all bars_df indices = Ok rows -> forall r, In r rows -> In r (df_rows bars_df).
Proof.
unfold loc_all.
induction indices as [| idx indices IH]; simpl; intros rows H r Hr.
- inversion H; subst. contradiction.
- destruct (DataFrame.loc bars_df (fst idx) (snd idx)) as [r0 |] eqn:E;
    simpl in H; [| discriminate].
  bind_ok H as rest Erest. inversion H; subst.
  destruct Hr as [<- | Hr].
  + unfold DataFrame.loc in E. now apply find_some in E.
  + now apply (IH rest).
Qed.

Lemma pool_in (ctx : Context) (account : Account.t) (rng : Entropy) (k : nat)
  (bars_df : Frame) (buy_indices : list (string * string)) (budget : Q)
  (pool_df : Frame) (budget' : Q) (k' : nat) :
get_pool_and_budget ctx account rng k bars_df buy_indices budget
= Ok (pool_df, budget', k') ->
frame_in P bars_df -> frame_in P pool_df.
Proof.
unfold get_pool_and_budget, frame_in. intros H Hin.
bind_ok H as l Eloc.
assert (Hpool : forall df kk,
           (if (max_position_opens ctx
                <? Z.of_nat (List.length (df_rows (DataFrame.with_rows bars_df l))))%Z
            then Random.sample rng k bars_df (max_position_opens ctx)
            else Ok (DataFrame.with_rows bars_df l, k)) = Ok (df, kk) ->
           forall r, In r (df_rows df) -> In r (df_rows bars_df)).
{ intros df kk Hdf r Hr.
  destruct (max_position_opens ctx <? _)%Z.
  - unfold Random.sample in Hdf.
    destruct (max_position_opens ctx <? 0)%Z; [discriminate |].
    destruct (_ <? max_position_opens ctx)%Z; [discriminate |].
    inversion Hdf; subst. simpl in Hr. now apply draw_in in Hr.
  - inversion Hdf; subst. simpl in Hr. now apply (loc_all_in _ _ _ Eloc). }
bind_ok H as [df kk] Epool.
assert (Hdf : df = pool_df).
{ destruct (df_rows df); [discriminate | now inversion H]. }
subst df.
rewrite Forall_forall in *. intros r Hr. apply Hin.
now apply (Hpool pool_df kk).
Qed.

Lemma redistribute_rows (pool : list Sized) :
forall remaining,
  map sz_row (fst (redistribute pool remaining)) = map sz_row pool.
Proof.
induction pool as [| row pool IH]; intros remaining; simpl; [reflexivity |].
destruct (floordiv remaining (trade_price row) =? 0)%Z.
- specialize (IH remaining).
  destruct (redistribute pool remaining). simpl in *. now f_equal.
- specialize (IH (remaining
                  - inject_Z (floordiv remaining (trade_price row))
                    * trade_price row)).
  destruct (redistribute pool _). simpl in *. now f_equal.
Qed.

Lemma make_positions_in (ctx : Context) (rng : Entropy) (pool : list Sized) :
forall k,
  Forall (fun s => P (bar_code (sz_row s))) pool ->
  Forall (fun p => P (pos_code p)) (fst (make_positions ctx rng k pool)).
Proof.
induction pool as [| row pool IH]; simpl; intros k Hpool; [constructor |].
inversion Hpool; subst.
destruct (0 <? trade_shares row)%Z.
- specialize (IH (S k) H2).
  destruct (make_positions ctx rng (S k) pool). simpl in *.
  constructor; assumption.
- now apply IH.
Qed.

Lemma generate_positions_in (ctx : Context) (rng : Entropy) (k : nat)
  (pool_df : Frame) (budget : Q) :
frame_in P pool_df ->
Forall (fun p => P (pos_code p))
  (fst (generate_positions ctx rng k pool_df budget)).
Proof.
unfold generate_positions, frame_in. intros Hin.
destruct (DataFrame.is_empty pool_df || Qle_bool budget 0); [constructor |].
apply make_positions_in. unfold allocate.
set (pool := size_rows ctx (df_rows pool_df) budget).
assert (Hrows : map sz_row (fst (redistribute (sort_desc pool)
                                   (budget - allocated pool)))
                = map sz_row (sort_desc pool)) by apply redistribute_rows.
assert (Hsize : map sz_row pool = df_rows pool_df).
{ unfold pool, size_rows. rewrite map_map. simpl. apply map_id. }
assert (Hall : Forall (fun r => P (bar_code r))
                 (map sz_row (fst (redistribute (sort_desc pool)
                                     (budget - allocated pool))))).
{ rewrite Hrows. rewrite Forall_forall in *. intros r Hr. apply Hin.
  rewrite <- Hsize. apply in_map_iff in Hr. destruct Hr as (s & <- & Hs).
  apply in_map. apply (Permutation_in _ (sort_perm _ pool) Hs). }
rewrite Forall_map in Hall. exact Hall.
Qed.

End SymbolFacts.

Section TradeSymbols.

Import Symbols.

Variable P : string -> Prop.

Lemma account_tick_in (a a' : Account.t) (lookup : Holdings.PriceLookupFun) :
Account.tick a lookup = Ok a' ->
holdings_in P (Account.holdings a) -> holdings_in P (Account.holdings a').
Proof.
unfold Account.tick. intros H Hin.
destruct (Account.holdings a) as [| cp h] eqn:Eh.
- inversion H; subst. now rewrite Eh.
- bind_ok H as h' Etick. inversion H; subst. simpl.
  now apply (tick_in P lookup (cp :: h)).
Qed.

Lemma trade_day_in (ctx : Context) (strategy : Strategy) (rng : Entropy)
  (st st' : Backtester.Sim) (timestamp : string) (sub_df : Frame) :
Backtester.trade_day ctx strategy rng st timestamp sub_df = Ok st' ->
frame_in P sub_df -> sim_in P st -> sim_in P st'.
Proof.
unfold Backtester.trade_day. intros H Hframe [Hh Hb].
bind_ok H as account Etick.
pose proof (account_tick_in _ _ _ Etick Hh) as Hh1.
bind_ok H as close_indices Eclose.
bind_ok H as [[h book] sells] Eexit.
pose proof (exit_loop_in P _ _ _ _ _ _ _ Eexit Hh1 (conj Hh1 Hb)) as [Hh2 Hb2].
simpl in Hh2, Hb2.
set (account2 := match sells with
                 | [] => Account.with_holdings account h
                 | _ :: _ => Account.sell (Account.with_holdings account h) sells
                 end) in *.
assert (Hh3 : holdings_in P (Account.holdings account2)).
{ unfold account2. destruct sells; [exact Hh2 |]. now apply sell_in. }
bind_ok H as buy_indices Ebuy.
bind_ok H as [[account3 book3] k3] Ebought.
assert (Hin3 : holdings_in P (Account.holdings account3) /\ logs_in P book3).
{ destruct buy_indices as [| idx rest].
  - inversion Ebought; subst. now split.
  - bind_ok Ebought as [[pool_df budget] k] Epool.
    pose proof (pool_in P _ _ _ _ _ _ _ _ _ _ Epool Hframe) as Hpool.
    pose proof (generate_positions_in P ctx rng k pool_df budget Hpool) as Hps.
    destruct (generate_positions ctx rng k pool_df budget) as [ps k4].
    simpl in Hps. inversion Ebought; subst. split.
    + now apply buy_in.
    + now apply buy_logs_in. }
destruct Hin3 as [Hh4 Hb4].
inversion H; subst. split; simpl; [assumption |].
destruct buy_indices, close_indices; exact Hb4.
Qed.

Lemma trade_days_in (ctx : Context) (strategy : Strategy) (rng : Entropy)
  (days : list (string * Frame)) :
forall st st',
  Backtester.trade_days ctx strategy rng st days = Ok st' ->
  Forall (fun d => frame_in P (snd d)) days ->
  sim_in P st -> sim_in P st'.
Proof.
induction days as [| [timestamp sub_df] days IH]; simpl; intros st st' H Hd Hst.
- inversion H; subst. assumption.
- bind_ok H as st1 Eday. inversion Hd; subst.
  apply (IH _ _ H); [assumption |].
  eapply trade_day_in; eauto.
Qed.

End TradeSymbols.

Lemma groupby_rows (key : Bar -> string) (df : Frame) :
Forall (fun g => forall r, In r (df_rows (snd g)) -> In r (df_rows df))
  (DataFrame.groupby key df).
Proof.
unfold DataFrame.groupby. apply Forall_forall. intros g Hg.
apply in_map_iff in Hg. destruct Hg as (k & <- & _). simpl.
intros r Hr. now apply filter_In in Hr.
Qed.

Lemma trade_frame_rows (df : Frame) (r : Bar) :
In r (df_rows (Backtester.trade_frame df)) -> In r (df_rows df).
Proof.
unfold Backtester.trade_frame.
destruct (Backtester.index_names_eqb (df_index df) Backtester.trade_index);
  [trivial |].
simpl. apply Permutation_in. apply sort_perm.
Qed.

(** Every trade of a run is in a symbol that has a row in the dataset or
    was held at the start. *)
Lemma trade_only_tradable_symbols
  (ctx : Context) (account : Account.t) (rng : Entropy) (k : nat)
  (df : Frame) (strategy : Strategy) (st : Backtester.Sim) :
Backtester.trade ctx account rng k df strategy = Ok st ->
Forall (fun l => Symbols.tradable df account (tl_code l))
  (TradeBook.trade_logs (Backtester.sim_book st)).
Proof.
unfold Backtester.trade. intros H.
apply (trade_days_in (Symbols.tradable df account)) in H.
- exact (proj2 H).
- pose proof (groupby_rows bar_timestamp (Backtester.trade_frame df)) as Hg.
  rewrite Forall_forall in *. intros g Hin.
  unfold Symbols.frame_in. apply Forall_forall. intros r Hr.
  left. apply in_map. apply trade_frame_rows. now apply (Hg g).
- split; simpl.
  + unfold Symbols.holdings_in. apply Forall_forall. intros cp Hcp.
    right. now apply (in_map (fun cp => pos_code (snd cp))).
  + constructor.
Qed.

(** C7 (amended).  With a factor table configured, a symbol that has no
    entry in the table, or whose adjusted bars show some |pct_chg| above 21
    (an infinite one included), comes out of [_adjust_then_compute] as a
    frame without rows; the pipeline over all symbols yields the same rows,
    or stops on the same exception, as the pipeline over the other symbols
    alone, so the fault itself never aborts it; when some declared
    indicator is not yet a column of the dataset, those rows are the rows
    of the enriched dataset; and a run trades no symbol that has no row in
    the enriched dataset and was not held at the start. *)
Theorem faulty_symbol_is_dropped_in_isolation
  (ctx : Context) (strategy : Strategy) (table : list FactorRow) :
hfq_adjust_factors ctx = Some table ->
(forall indicators bars_df,
    Pipeline.faulty table strategy bars_df ->
    exists out,
      Backtester._adjust_then_compute ctx bars_df indicators strategy = Ok out
      /\ df_rows out = [])
/\ (forall indicators before bars_df after,
       Pipeline.faulty table strategy bars_df ->
       Pipeline.rows ctx strategy indicators (before ++ bars_df :: after)
       = Pipeline.rows ctx strategy indicators (before ++ after))
/\ (forall df out,
       Backtester.get_indicators_df ctx df strategy = Ok out ->
       Pipeline.pending df strategy <> [] ->
       Pipeline.rows ctx strategy (Pipeline.pending df strategy)
         (map snd (DataFrame.groupby bar_code (Pipeline.by_code df)))
       = Ok (df_rows out))
/\ (forall account rng k ind_df st code,
       Backtester.trade ctx account rng k ind_df strategy = Ok st ->
       ~ In code (map bar_code (df_rows ind_df)) ->
       ~ In code (map (fun cp => pos_code (snd cp)) (Account.holdings account)) ->
       ~ In code (map tl_code (TradeBook.trade_logs (Backtester.sim_book st)))).
Proof.
intros Hconf. split; [| split; [| split]].
- intros indicators bars_df.
  now apply (faulty_symbol_yields_no_rows ctx strategy table).
- intros indicators before bars_df after.
  now apply (faulty_symbol_is_isolated ctx strategy table).
- intros df out Hout Hpending.
  destruct (get_indicators_df_rows ctx strategy df out Hout) as [[He _] | [_ H]];
    [contradiction | exact H].
- intros account rng k ind_df st code Htrade Hrow Hheld Hin.
  apply trade_only_tradable_symbols in Htrade.
  apply in_map_iff in Hin. destruct Hin as (l & <- & Hl).
  rewrite Forall_forall in Htrade.
  destruct (Htrade l Hl) as [H | H]; contradiction.
Qed.

Lemma faulty_symbol_is_dropped_in_isolation_witness :
(exists out,
   Backtester._adjust_then_compute Pipeline.adjusting
     (Pipeline.one_bar "000002") (compute_order Pipeline.copies_close)
     Pipeline.copies_close = Ok out
   /\ df_rows out = [])
/\ (exists out,
      Backtester.get_indicators_df Pipeline.adjusting Pipeline.two_symbols
        Pipeline.copies_close = Ok out
      /\ map bar_code (df_rows out) = ["000001"%string])
/\ (exists out,
      Backtester._adjust_then_compute Pipeline.adjusting
        (Pipeline.after_zero_close "000001")
        (compute_order Pipeline.copies_close) Pipeline.copies_close = Ok out
      /\ df_rows out = []).
Proof.
split; [| split].
- apply (proj1 (faulty_symbol_is_dropped_in_isolation
                  Pipeline.adjusting Pipeline.copies_close
                  Pipeline.factors_for_000001 eq_refl)).
  left. exists "000002"%string. split.
  + eexists _, _. split; reflexivity.
  + repeat constructor; discriminate.
- eexists. split; [vm_compute; reflexivity | reflexivity].
- apply (proj1 (faulty_symbol_is_dropped_in_isolation
                  Pipeline.adjusting Pipeline.copies_close
                  Pipeline.factors_for_000001 eq_refl)).
  right. exists "000001"%string. eexists _, _, _.
  split; [eexists _, _; split; reflexivity |].
  split; [vm_compute; reflexivity |].
  split; [vm_compute; reflexivity |].
  split; [right; left; reflexivity | exact I].
Defined.

(** C7 as stated fails when every declared indicator is already a column
    of the dataset: [get_indicators_df] then returns the dataset as it is,
    before any symbol is adjusted, so 000002, which has no entry in the
    factor table, keeps its row in the enriched dataset and is traded. *)
Lemma absent_factor_is_kept_when_nothing_is_pending :
Pipeline.pending Pipeline.both_above_20 Scenarios.buys_from_20 = []
/\ Forall (fun f => fac_code f <> "000002"%string) Pipeline.factors_for_000001
/\ Backtester.get_indicators_df Pipeline.adjusting Pipeline.both_above_20
     Scenarios.buys_from_20 = Ok Pipeline.both_above_20
/\ exists st,
     Backtester.run Pipeline.adjusting (Scenarios.cash_account 10000)
       (Scenarios.always 0) 0 Pipeline.both_above_20 Scenarios.buys_from_20
     = Ok (Pipeline.both_above_20, st)
     /\ map tl_code (TradeBook.trade_logs (Backtester.sim_book st))
        = ["000001"; "000002"]%string.
Proof.
split; [reflexivity |].
split; [repeat constructor; discriminate |].
split; [reflexivity |].
eexists. split; [vm_compute; reflexivity | reflexivity].
Qed.

(** ** Determinism up to the random position ids *)

Section AnonymousLedger.

Lemma anon_insert (c : string) (p : Position) (h : Holdings.t) :
Anonymous.holdings (Holdings.insert c p h)
= Holdings.insert c (Anonymous.position p) (Anonymous.holdings h).
Proof.
induction h as [| [k q] h IH]; simpl; [reflexivity |].
destruct (String.eqb k c); simpl; [reflexivity | now rewrite IH].
Qed.

Lemma anon_remove (c : string) (h : Holdings.t) :
Anonymous.holdings (Holdings.remove c h)
= Holdings.remove c (Anonymous.holdings h).
Proof.
induction h as [| [k q] h IH]; simpl; [reflexivity |].
destruct (String.eqb k c); simpl; [assumption | now rewrite IH].
Qed.

Lemma anon_codes (h : Holdings.t) :
Holdings.position_codes (Anonymous.holdings h) = Holdings.position_codes h.
Proof.
unfold Holdings.position_codes, Anonymous.holdings. rewrite map_map.
reflexivity.
Qed.

Lemma anon_worth (h : Holdings.t) :
Holdings.get_total_worth (Anonymous.holdings h) = Holdings.get_total_worth h.
Proof.
unfold Holdings.get_total_worth, Anonymous.holdings. rewrite map_map.
reflexivity.
Qed.

Lemma anon_tick (lookup : Holdings.PriceLookupFun) (h : Holdings.t) :
Holdings.tick lookup (Anonymous.holdings h)
= result_map Anonymous.holdings (Holdings.tick lookup h).
Proof.
induction h as [| [c p] h IH]; simpl; [reflexivity |].
destruct (lookup (pos_code p)) as [price | e]; simpl; [| reflexivity].
rewrite IH. destruct (Holdings.tick lookup h); reflexivity.
Qed.

Lemma anon_account_tick (a : Account.t) (lookup : Holdings.PriceLookupFun) :
Account.tick (Anonymous.account a) lookup
= result_map Anonymous.account (Account.tick a lookup).
Proof.
unfold Account.tick, Anonymous.account. simpl.
destruct (Account.holdings a) as [| [c p] h] eqn:Eh; simpl.
- rewrite Eh. reflexivity.
- pose proof (anon_tick lookup ((c, p) :: h)) as H. simpl in H.
  rewrite H.
  destruct (lookup (pos_code p)); simpl; [| reflexivity].
  destruct (Holdings.tick lookup h); reflexivity.
Qed.

Lemma anon_sumQ_mark (ps : list Position) :
map Holdings.mark_value (map Anonymous.position ps)
= map Holdings.mark_value ps.
Proof. rewrite map_map. reflexivity. Qed.

Lemma anon_sumQ_cost (ps : list Position) :
map Holdings.raw_cost (map Anonymous.position ps) = map Holdings.raw_cost ps.
Proof. rewrite map_map. reflexivity. Qed.

Lemma anon_remove_all (ps : list Position) :
forall h,
  Anonymous.holdings (Ledger.remove_all ps h)
  = Ledger.remove_all (map Anonymous.position ps) (Anonymous.holdings h).
Proof.
unfold Ledger.remove_all.
induction ps as [| p ps IH]; simpl; intros h; [reflexivity |].
now rewrite IH, anon_remove.
Qed.

Lemma anon_insert_all (ps : list Position) :
forall h,
  Anonymous.holdings (Ledger.insert_all ps h)
  = Ledger.insert_all (map Anonymous.position ps) (Anonymous.holdings h).
Proof.
unfold Ledger.insert_all.
induction ps as [| p ps IH]; simpl; intros h; [reflexivity |].
now rewrite IH, anon_insert.
Qed.

Lemma anon_sell (a : Account.t) (ps : list Position) :
Anonymous.account (Account.sell a ps)
= Account.sell (Anonymous.account a) (map Anonymous.position ps).
Proof.
unfold Account.sell, Holdings.sell, Anonymous.account. simpl.
rewrite anon_sumQ_mark.
fold (Ledger.remove_all ps (Account.holdings a)).
fold (Ledger.remove_all (map Anonymous.position ps)
        (Anonymous.holdings (Account.holdings a))).
rewrite <- anon_remove_all.
destruct (truthy (Holdings.sumQ (map Holdings.mark_value ps))); reflexivity.
Qed.

Lemma anon_buy (a : Account.t) (ps : list Position) :
Anonymous.account (Account.buy a ps)
= Account.buy (Anonymous.account a) (map Anonymous.position ps).
Proof.
unfold Account.buy, Holdings.buy, Anonymous.account. simpl.
rewrite anon_sumQ_cost.
fold (Ledger.insert_all ps (Account.holdings a)).
fold (Ledger.insert_all (map Anonymous.position ps)
        (Anonymous.holdings (Account.holdings a))).
rewrite <- anon_insert_all.
destruct (truthy (Holdings.sumQ (map Holdings.raw_cost ps))); reflexivity.
Qed.

Lemma anon_sell_log (b : TradeBook.t) (timestamp : string) (pos : Position)
  (action : TradeActionType) :
TradeBook.sell_ (Anonymous.book b) timestamp (Anonymous.position pos) action
= result_map Anonymous.book (TradeBook.sell_ b timestamp pos action).
Proof.
unfold TradeBook.sell_. simpl.
destruct (truthy (pos_latest_price pos)); [| reflexivity].
simpl. unfold Anonymous.book. simpl. rewrite map_app. reflexivity.
Qed.

Lemma anon_buy_logs (timestamp : string) (ps : list Position) :
forall b,
  Anonymous.book (fold_left (fun b pos => TradeBook.buy b timestamp pos) ps b)
  = fold_left (fun b pos => TradeBook.buy b timestamp pos)
      (map Anonymous.position ps) (Anonymous.book b).
Proof.
induction ps as [| p ps IH]; simpl; intros b; [reflexivity |].
rewrite IH. f_equal.
unfold TradeBook.buy, Anonymous.book. simpl. rewrite map_app. reflexivity.
Qed.

End AnonymousLedger.

Section AnonymousDay.

Variables (ctx : Context) (strategy : Strategy).
Variables (timestamp : string) (sub_df : Frame).

Lemma anon_exit_step (close_indices : list (string * string))
  (acc : Backtester.ExitAcc) (code : string) (pos : Position) :
Backtester.exit_step ctx timestamp sub_df close_indices
  (Anonymous.exit_acc acc) (code, Anonymous.position pos)
= result_map Anonymous.exit_acc
    (Backtester.exit_step ctx timestamp sub_df close_indices acc (code, pos)).
Proof.
destruct acc as [[h book] sells].
unfold Backtester.exit_step, Anonymous.exit_acc. simpl.
destruct (DataFrame.loc sub_df timestamp code) as [bar |]; [| reflexivity].
change (should_take_profit ctx bar (Anonymous.position pos))
  with (should_take_profit ctx bar pos).
change (should_stop_loss ctx bar (Anonymous.position pos))
  with (should_stop_loss ctx bar pos).
destruct (Backtester.walrus (should_take_profit ctx bar pos)) as [tp |].
{ change (close (Anonymous.position pos) tp)
    with (Anonymous.position (close pos tp)).
  unfold TradeBook.take_profit. rewrite anon_sell_log.
  destruct (TradeBook.sell_ book timestamp (close pos tp) TAKE_PROFIT);
    simpl; [| reflexivity].
  now rewrite anon_insert, map_app. }
destruct (Backtester.walrus (should_stop_loss ctx bar pos)) as [sl |].
{ change (close (Anonymous.position pos) sl)
    with (Anonymous.position (close pos sl)).
  unfold TradeBook.stop_loss. rewrite anon_sell_log.
  destruct (TradeBook.sell_ book timestamp (close pos sl) STOP_LOSS);
    simpl; [| reflexivity].
  now rewrite anon_insert, map_app. }
destruct (Backtester.index_in (timestamp, code) close_indices);
  [| reflexivity].
change (close (Anonymous.position pos) (bar_close bar))
  with (Anonymous.position (close pos (bar_close bar))).
unfold TradeBook.close_position. rewrite anon_sell_log.
destruct (TradeBook.sell_ book timestamp (close pos (bar_close bar)) CLOSE);
  simpl; [| reflexivity].
now rewrite anon_insert, map_app.
Qed.

Lemma anon_exit_loop (close_indices : list (string * string))
  (entries : list (string * Position)) :
forall acc,
  Backtester.exit_loop ctx timestamp sub_df close_indices
    (Anonymous.exit_acc acc) (Anonymous.holdings entries)
  = result_map Anonymous.exit_acc
      (Backtester.exit_loop ctx timestamp sub_df close_indices acc entries).
Proof.
induction entries as [| [code pos] entries IH]; intros acc;
  [reflexivity |].
cbn [Anonymous.holdings map Backtester.exit_loop fst snd].
rewrite anon_exit_step.
destruct (Backtester.exit_step ctx timestamp sub_df close_indices acc
            (code, pos)) as [acc' | e]; cbn [bind result_map];
  [apply IH | reflexivity].
Qed.

Lemma anon_codes_eq (a1 a2 : Account.t) :
Anonymous.account a1 = Anonymous.account a2 ->
Holdings.position_codes (Account.holdings a1)
= Holdings.position_codes (Account.holdings a2).
Proof.
intros H. rewrite <- (anon_codes (Account.holdings a1)).
rewrite <- (anon_codes (Account.holdings a2)).
change (Anonymous.holdings (Account.holdings a1))
  with (Account.holdings (Anonymous.account a1)).
now rewrite H.
Qed.

Lemma anon_close_signals (a1 a2 : Account.t) :
Anonymous.account a1 = Anonymous.account a2 ->
Backtester.get_close_signals a1 sub_df strategy
= Backtester.get_close_signals a2 sub_df strategy.
Proof.
intros H. unfold Backtester.get_close_signals.
now rewrite (anon_codes_eq a1 a2 H).
Qed.

Lemma anon_buy_signals (a1 a2 : Account.t) :
Anonymous.account a1 = Anonymous.account a2 ->
Backtester.get_buy_signals a1 sub_df strategy
= Backtester.get_buy_signals a2 sub_df strategy.
Proof.
intros H. unfold Backtester.get_buy_signals.
now rewrite (anon_codes_eq a1 a2 H).
Qed.

Lemma anon_total (a1 a2 : Account.t) :
Anonymous.account a1 = Anonymous.account a2 ->
Account.cash_amount a1 = Account.cash_amount a2
/\ Holdings.get_total_worth (Account.holdings a1)
   = Holdings.get_total_worth (Account.holdings a2).
Proof.
intros H. split.
- change (Account.cash_amount (Anonymous.account a1)
          = Account.cash_amount (Anonymous.account a2)).
  now rewrite H.
- rewrite <- (anon_worth (Account.holdings a1)).
  rewrite <- (anon_worth (Account.holdings a2)).
  change (Anonymous.holdings (Account.holdings a1))
    with (Account.holdings (Anonymous.account a1)).
  now rewrite H.
Qed.

End AnonymousDay.

Lemma filterM_length {A} (p : A -> result bool) (xs : list A) :
forall ys, filterM p xs = Ok ys -> (List.length ys <= List.length xs)%nat.
Proof.
induction xs as [| x xs IH]; simpl; intros ys H.
- inversion H. simpl. lia.
- bind_ok H as b Eb. bind_ok H as rest Erest. inversion H; subst.
  specialize (IH rest eq_refl). destruct b; simpl; lia.
Qed.

Lemma mapM_length {A B} (f : A -> result B) (xs : list A) :
forall ys, mapM f xs = Ok ys -> List.length ys = List.length xs.
Proof.
induction xs as [| x xs IH]; simpl; intros ys H.
- inversion H. reflexivity.
- bind_ok H as y Ey. bind_ok H as rest Erest. inversion H; subst.
  simpl. now rewrite (IH rest).
Qed.

Lemma buy_signals_length (a : Account.t) (df : Frame) (strategy : Strategy)
  (buy_indices : list (string * string)) :
Backtester.get_buy_signals a df strategy = Ok buy_indices ->
(List.length buy_indices <= List.length (df_rows df))%nat.
Proof.
unfold Backtester.get_buy_signals. intros H.
bind_ok H as rows Erows. inversion H; subst.
rewrite length_map. now apply (filterM_length _ _ _ Erows).
Qed.

(** Within the limit the pool is the candidate set itself: neither the
    random source nor the position ids reach the pool or the budget. *)
Lemma pool_without_sampling (ctx : Context) (a1 a2 : Account.t)
  (rng1 rng2 : Entropy) (k1 k2 : nat) (bars_df : Frame)
  (buy_indices : list (string * string)) (budget : Q) :
Account.get_total_asset_value a1 = Account.get_total_asset_value a2 ->
(Z.of_nat (List.length buy_indices) <= max_position_opens ctx)%Z ->
result_map fst (get_pool_and_budget ctx a1 rng1 k1 bars_df buy_indices budget)
= result_map fst (get_pool_and_budget ctx a2 rng2 k2 bars_df buy_indices budget).
Proof.
intros Htotal Hlimit. unfold get_pool_and_budget.
destruct (loc_all bars_df buy_indices) as [rows | e] eqn:Eloc; simpl;
  [| reflexivity].
apply mapM_length in Eloc.
assert (Hno : (max_position_opens ctx <? Z.of_nat (List.length rows))%Z = false)
  by (apply Z.ltb_ge; lia).
rewrite Hno. simpl.
destruct rows; simpl; [reflexivity |]. now rewrite Htotal.
Qed.

Lemma anon_make_positions (ctx : Context) (rng1 rng2 : Entropy)
  (pool : list Sized) :
forall k1 k2,
  map Anonymous.position (fst (make_positions ctx rng1 k1 pool))
  = map Anonymous.position (fst (make_positions ctx rng2 k2 pool)).
Proof.
induction pool as [| row pool IH]; intros k1 k2; simpl; [reflexivity |].
destruct (0 <? trade_shares row)%Z; [| apply IH].
specialize (IH (S k1) (S k2)).
destruct (make_positions ctx rng1 (S k1) pool),
         (make_positions ctx rng2 (S k2) pool).
simpl in *. now rewrite IH.
Qed.

Lemma anon_generate_positions (ctx : Context) (rng1 rng2 : Entropy)
  (k1 k2 : nat) (pool_df : Frame) (budget : Q) :
map Anonymous.position (fst (generate_positions ctx rng1 k1 pool_df budget))
= map Anonymous.position (fst (generate_positions ctx rng2 k2 pool_df budget)).
Proof.
unfold generate_positions.
destruct (DataFrame.is_empty pool_df || Qle_bool budget 0); [reflexivity |].
apply anon_make_positions.
Qed.

Lemma anon_buy_eq (a1 a2 : Account.t) (ps1 ps2 : list Position) :
Anonymous.account a1 = Anonymous.account a2 ->
map Anonymous.position ps1 = map Anonymous.position ps2 ->
Anonymous.account (Account.buy a1 ps1) = Anonymous.account (Account.buy a2 ps2).
Proof. intros Ha Hp. now rewrite !anon_buy, Ha, Hp. Qed.

Lemma anon_sell_eq (a1 a2 : Account.t) (ps1 ps2 : list Position) :
Anonymous.account a1 = Anonymous.account a2 ->
map Anonymous.position ps1 = map Anonymous.position ps2 ->
Anonymous.account (Account.sell a1 ps1) = Anonymous.account (Account.sell a2 ps2).
Proof. intros Ha Hp. now rewrite !anon_sell, Ha, Hp. Qed.

Lemma anon_buy_logs_eq (timestamp : string) (b1 b2 : TradeBook.t)
  (ps1 ps2 : list Position) :
Anonymous.book b1 = Anonymous.book b2 ->
map Anonymous.position ps1 = map Anonymous.position ps2 ->
Anonymous.book (fold_left (fun b pos => TradeBook.buy b timestamp pos) ps1 b1)
= Anonymous.book (fold_left (fun b pos => TradeBook.buy b timestamp pos) ps2 b2).
Proof. intros Hb Hp. now rewrite !anon_buy_logs, Hb, Hp. Qed.

Lemma anon_with_holdings (a1 a2 : Account.t) (h1 h2 : Holdings.t) :
Anonymous.account a1 = Anonymous.account a2 ->
Anonymous.holdings h1 = Anonymous.holdings h2 ->
Anonymous.account (Account.with_holdings a1 h1)
= Anonymous.account (Account.with_holdings a2 h2).
Proof.
unfold Anonymous.account, Account.with_holdings. simpl.
intros Ha Hh. inversion Ha. now rewrite Hh.
Qed.

Lemma result_map_eq_inv {A B} (f : A -> B) (m1 m2 : result A) :
result_map f m1 = result_map f m2 ->
(exists a1 a2, m1 = Ok a1 /\ m2 = Ok a2 /\ f a1 = f a2)
\/ (exists e, m1 = Raise e /\ m2 = Raise e).
Proof.
destruct m1 as [a1 | e1], m2 as [a2 | e2]; simpl; intros H;
  try discriminate.
- left. exists a1, a2. repeat split. now inversion H.
- right. exists e1. inversion H. now split.
Qed.

Lemma anon_log_capitals (b1 b2 : TradeBook.t) (timestamp : string)
  (cash1 cash2 worth1 worth2 : Q) :
Anonymous.book b1 = Anonymous.book b2 -> cash1 = cash2 -> worth1 = worth2 ->
Anonymous.book (TradeBook.log_capitals b1 timestamp cash1 worth1)
= Anonymous.book (TradeBook.log_capitals b2 timestamp cash2 worth2).
Proof.
unfold Anonymous.book, TradeBook.log_capitals. simpl.
intros Hb -> ->. inversion Hb. reflexivity.
Qed.

(** One day of two runs that agree up to position ids: within the limit
    they end in the same exception or in states that again agree up to
    position ids, whatever their random sources. *)
Lemma trade_day_anon (ctx : Context) (strategy : Strategy)
  (rng1 rng2 : Entropy) (st1 st2 : Backtester.Sim)
  (timestamp : string) (sub_df : Frame) :
Anonymous.sim st1 = Anonymous.sim st2 ->
Anonymous.day_within_limit ctx strategy st1 timestamp sub_df ->
result_map Anonymous.sim
  (Backtester.trade_day ctx strategy rng1 st1 timestamp sub_df)
= result_map Anonymous.sim
    (Backtester.trade_day ctx strategy rng2 st2 timestamp sub_df).
Proof.
intros Hst Hlimit.
destruct st1 as [a1 b1 k1], st2 as [a2 b2 k2].
unfold Anonymous.sim in Hst.
cbn [Backtester.sim_account Backtester.sim_book] in Hst.
pose proof (f_equal fst Hst) as Ha. pose proof (f_equal snd Hst) as Hb.
cbn [fst snd] in Ha, Hb. clear Hst.
unfold Anonymous.day_within_limit, Anonymous.candidates in Hlimit.
cbn [Backtester.sim_account Backtester.sim_book] in Hlimit.
unfold Backtester.trade_day. cbn [Backtester.sim_account Backtester.sim_book
                                   Backtester.sim_draws].
(* Opening *)
assert (H1 : result_map Anonymous.account
               (Account.tick a1 (Backtester.price_lookup timestamp sub_df))
             = result_map Anonymous.account
                 (Account.tick a2 (Backtester.price_lookup timestamp sub_df)))
  by (rewrite <- !anon_account_tick; now rewrite Ha).
destruct (result_map_eq_inv _ _ _ H1)
  as [(x1 & x2 & E1 & E2 & Hx) | (e & E1 & E2)];
  rewrite E1, E2; cbn [bind]; [| reflexivity].
rewrite E1 in Hlimit. cbn [bind] in Hlimit.
clear H1 E1 E2.
(* Sell *)
rewrite (anon_close_signals strategy sub_df x1 x2 Hx) in Hlimit |- *.
destruct (Backtester.get_close_signals x2 sub_df strategy)
  as [close_indices | e]; cbn [bind] in Hlimit |- *; [| reflexivity].
assert (H3 : result_map Anonymous.exit_acc
               (Backtester.exit_loop ctx timestamp sub_df close_indices
                  (Account.holdings x1, b1, []) (Account.holdings x1))
             = result_map Anonymous.exit_acc
                 (Backtester.exit_loop ctx timestamp sub_df close_indices
                    (Account.holdings x2, b2, []) (Account.holdings x2))).
{ rewrite <- !anon_exit_loop. unfold Anonymous.exit_acc. simpl.
  change (Anonymous.holdings (Account.holdings x1))
    with (Account.holdings (Anonymous.account x1)).
  change (Anonymous.holdings (Account.holdings x2))
    with (Account.holdings (Anonymous.account x2)).
  now rewrite Hx, Hb. }
destruct (result_map_eq_inv _ _ _ H3)
  as [([[h1 bk1] s1] & [[h2 bk2] s2] & E1 & E2 & Hacc) | (e & E1 & E2)];
  rewrite E1, E2; cbn [bind]; [| reflexivity].
rewrite E1 in Hlimit. cbn [bind] in Hlimit.
clear H3 E1 E2.
unfold Anonymous.exit_acc in Hacc. cbn [fst snd] in Hacc.
pose proof (f_equal (fun x => fst (fst x)) Hacc) as Hh.
pose proof (f_equal (fun x => snd (fst x)) Hacc) as Hbk.
pose proof (f_equal snd Hacc) as Hs.
cbn [fst snd] in Hh, Hbk, Hs. clear Hacc.
set (y1 := match s1 with
           | [] => Account.with_holdings x1 h1
           | _ :: _ => Account.sell (Account.with_holdings x1 h1) s1
           end) in *.
set (y2 := match s2 with
           | [] => Account.with_holdings x2 h2
           | _ :: _ => Account.sell (Account.with_holdings x2 h2) s2
           end).
assert (Hy : Anonymous.account y1 = Anonymous.account y2).
{ unfold y1, y2.
  destruct s1, s2; try discriminate Hs.
  - now apply anon_with_holdings.
  - apply anon_sell_eq; [now apply anon_with_holdings | assumption]. }
clearbody y1 y2.
(* Buy *)
rewrite (anon_buy_signals strategy sub_df y1 y2 Hy) in Hlimit |- *.
destruct (Backtester.get_buy_signals y2 sub_df strategy)
  as [buy_indices | e] eqn:Ebuy; cbn [bind]; [| reflexivity].
specialize (Hlimit buy_indices eq_refl).
destruct (anon_total y1 y2 Hy) as [Hcash Hworth].
destruct buy_indices as [| idx rest].
- cbn [bind]. simpl result_map. unfold Anonymous.sim. simpl.
  f_equal. f_equal; [assumption |].
  destruct close_indices; [assumption |].
  now apply anon_log_capitals.
- assert (H6 := pool_without_sampling ctx y1 y2 rng1 rng2 k1 k2 sub_df
                  (idx :: rest) (Account.cash_amount y1)).
  rewrite Hcash in H6 at 2.
  specialize (H6 ltac:(unfold Account.get_total_asset_value; congruence)
                 Hlimit).
  rewrite <- Hcash.
  destruct (result_map_eq_inv _ _ _ H6)
    as [([[p1 g1] j1] & [[p2 g2] j2] & E1 & E2 & Hpool) | (e & E1 & E2)];
    rewrite E1; rewrite Hcash; rewrite E2; cbn [bind]; [| reflexivity].
  cbn [fst] in Hpool.
  assert (Hp : p1 = p2) by congruence.
  assert (Hg : g1 = g2) by congruence.
  subst p1 g1. clear Hpool.
  pose proof (anon_generate_positions ctx rng1 rng2 j1 j2 p2 g2) as Hps.
  destruct (generate_positions ctx rng1 j1 p2 g2) as [ps1 j1'].
  destruct (generate_positions ctx rng2 j2 p2 g2) as [ps2 j2'].
  simpl in Hps. cbn [bind]. simpl result_map.
  unfold Anonymous.sim. simpl.
  pose proof (anon_buy_eq y1 y2 ps1 ps2 Hy Hps) as Hbought.
  destruct (anon_total _ _ Hbought) as [Hcash' Hworth'].
  f_equal. f_equal; [assumption |].
  apply anon_log_capitals; try assumption.
  now apply anon_buy_logs_eq.
Qed.

Lemma trade_days_anon (ctx : Context) (strategy : Strategy)
  (rng1 rng2 : Entropy) (days : list (string * Frame)) :
forall st1 st2,
  Anonymous.sim st1 = Anonymous.sim st2 ->
  Anonymous.never_downsamples ctx strategy rng1 st1 days ->
  result_map Anonymous.sim (Backtester.trade_days ctx strategy rng1 st1 days)
  = result_map Anonymous.sim (Backtester.trade_days ctx strategy rng2 st2 days).
Proof.
induction days as [| [timestamp sub_df] days IH]; intros st1 st2 Hst Hdays.
- simpl. now rewrite Hst.
- cbn [Anonymous.never_downsamples] in Hdays. destruct Hdays as [Hday Hrest].
  cbn [Backtester.trade_days].
  pose proof (trade_day_anon ctx strategy rng1 rng2 st1 st2 timestamp sub_df
                Hst Hday) as H.
  destruct (result_map_eq_inv _ _ _ H)
    as [(x1 & x2 & E1 & E2 & Hx) | (e & E1 & E2)];
    rewrite E1, E2; cbn [bind]; [| reflexivity].
  apply IH; [exact Hx | now apply Hrest].
Qed.

(** C9 (amended).  Two runs of the day-by-day simulation over the same
    enriched dataset, strategy parameters and initial account, each with
    its own random source, end in the same exception or with the same
    ledger, the same capital log and the same trade log up to the randomly
    generated position ids, provided that on no day of the first run the
    buy candidates outnumber the max-opens limit, so that no pool is
    randomly downsampled. *)
Theorem runs_agree_up_to_position_ids
  (ctx : Context) (strategy : Strategy) (account : Account.t) (df : Frame)
  (rng1 rng2 : Entropy) (k1 k2 : nat) :
Anonymous.never_downsamples ctx strategy rng1
  (Backtester.mkSim account TradeBook.init k1)
  (DataFrame.groupby bar_timestamp (Backtester.trade_frame df)) ->
result_map Anonymous.sim (Backtester.trade ctx account rng1 k1 df strategy)
= result_map Anonymous.sim (Backtester.trade ctx account rng2 k2 df strategy).
Proof.
intros Hdays. unfold Backtester.trade.
now apply trade_days_anon.
Qed.

Lemma runs_agree_up_to_position_ids_witness :
result_map Anonymous.sim
  (Backtester.trade Scenarios.ctx_one_open (Scenarios.cash_account 10000)
     (Scenarios.always 0) 0 Scenarios.three_symbols Scenarios.buys_from_30)
= result_map Anonymous.sim
    (Backtester.trade Scenarios.ctx_one_open (Scenarios.cash_account 10000)
       (Scenarios.always 7) 3 Scenarios.three_symbols Scenarios.buys_from_30).
Proof.
apply (runs_agree_up_to_position_ids Scenarios.ctx_one_open
         Scenarios.buys_from_30 (Scenarios.cash_account 10000)
         Scenarios.three_symbols (Scenarios.always 0) (Scenarios.always 7)
         0 3).
split; [| intros st' _; exact I].
intros buy_indices H. vm_compute in H. inversion H. simpl. lia.
Defined.

(** C9 as stated fails.  Over the same dataset, parameters and initial
    account, two runs whose uuid draws differ log different position ids,
    and with a limit of one open two runs whose sampling draws differ open
    positions in different symbols. *)
Lemma runs_differ_with_the_random_source :
(exists st1 st2,
   Backtester.trade Scenarios.ctx (Scenarios.cash_account 10000)
     (Scenarios.always 0) 0 Scenarios.three_symbols Scenarios.buys_from_20
   = Ok st1
   /\ Backtester.trade Scenarios.ctx (Scenarios.cash_account 10000)
        (Scenarios.always 1) 0 Scenarios.three_symbols Scenarios.buys_from_20
      = Ok st2
   /\ map tl_pos_id (TradeBook.trade_logs (Backtester.sim_book st1))
      = ["PAB-0000"; "VKA-0000"]%string
   /\ map tl_pos_id (TradeBook.trade_logs (Backtester.sim_book st2))
      = ["PAB-0001"; "VKA-0001"]%string
   /\ TradeBook.trade_logs (Backtester.sim_book st1)
      <> TradeBook.trade_logs (Backtester.sim_book st2))
/\ (exists st1 st2,
      Backtester.trade Scenarios.ctx_one_open (Scenarios.cash_account 10000)
        (Scenarios.always 0) 0 Scenarios.three_symbols Scenarios.buys_from_20
      = Ok st1
      /\ Backtester.trade Scenarios.ctx_one_open (Scenarios.cash_account 10000)
           (Scenarios.always 2) 0 Scenarios.three_symbols Scenarios.buys_from_20
         = Ok st2
      /\ map tl_code (TradeBook.trade_logs (Backtester.sim_book st1))
         = ["000001"%string]
      /\ map tl_code (TradeBook.trade_logs (Backtester.sim_book st2))
         = ["000003"%string]
      /\ TradeBook.trade_logs (Backtester.sim_book st1)
         <> TradeBook.trade_logs (Backtester.sim_book st2)).
Proof.
split.
- eexists _, _.
  split; [vm_compute; reflexivity |]. split; [vm_compute; reflexivity |].
  split; [reflexivity |]. split; [reflexivity |].
  intros H. apply (f_equal (map tl_pos_id)) in H. vm_compute in H.
  discriminate H.
- eexists _, _.
  split; [vm_compute; reflexivity |]. split; [vm_compute; reflexivity |].
  split; [reflexivity |]. split; [reflexivity |].
  intros H. apply (f_equal (map tl_code)) in H. vm_compute in H.
  discriminate H.
Qed.

(* ------------------------------------------------------------------ *)
(** * Further properties of the ledger, the sizing and the trading loop *)

(** ** Rounding is monotone and idempotent *)

Ltac compare_to_order H :=
match type of H with
| Qcompare _ _ = Eq => apply Qeq_alt in H
| Qcompare _ _ = Lt => apply Qlt_alt in H
| Qcompare _ _ = Gt => apply Qgt_alt in H
end.

Lemma round_half_even_mono (x y : Q) :
x <= y -> (round_half_even x <= round_half_even y)%Z.
Proof.
intros Hxy. unfold round_half_even.
pose proof (Qfloor_resp_le x y Hxy) as Hf.
pose proof (Qfloor_le x) as Hxl. pose proof (Qlt_floor x) as Hxu.
pose proof (Qfloor_le y) as Hyl. pose proof (Qlt_floor y) as Hyu.
rewrite inject_Z_plus in Hxu, Hyu.
change (inject_Z 1) with 1 in Hxu, Hyu.
destruct (Z.eq_dec (Qfloor x) (Qfloor y)) as [E | Hne].
- rewrite <- E in *.
  destruct (Qcompare (x - inject_Z (Qfloor x)) (1 # 2)) eqn:Cx;
    destruct (Qcompare (y - inject_Z (Qfloor x)) (1 # 2)) eqn:Cy;
    try (destruct (Z.even (Qfloor x))); try lia;
    exfalso; compare_to_order Cx; compare_to_order Cy; lra.
- assert (Hlt : (Qfloor x + 1 <= Qfloor y)%Z) by lia.
  destruct (Qcompare (x - inject_Z (Qfloor x)) (1 # 2));
    destruct (Qcompare (y - inject_Z (Qfloor y)) (1 # 2));
    try (destruct (Z.even (Qfloor x))); try (destruct (Z.even (Qfloor y)));
    lia.
Qed.

Lemma round_val_mono (x y : Q) : x <= y -> round_val x <= round_val y.
Proof.
intros Hxy. unfold round_val.
assert (H : (round_half_even (x * 100) <= round_half_even (y * 100))%Z)
  by (apply round_half_even_mono; lra).
rewrite Zle_Qle in H.
apply Qle_shift_div_l; [reflexivity |].
assert (E : inject_Z (round_half_even (x * 100)) / 100 * 100
            == inject_Z (round_half_even (x * 100))) by field.
rewrite E. exact H.
Qed.

Lemma round_val_idem (x : Q) : round_val (round_val x) == round_val x.
Proof. unfold round_val at 2 3. apply round_val_cents. Qed.

Lemma round_val_cents_diff (a b : Z) :
round_val (inject_Z a / 100 - inject_Z b / 100)
== inject_Z a / 100 - inject_Z b / 100.
Proof.
assert (E : inject_Z a / 100 - inject_Z b / 100 == inject_Z (a - b) / 100).
{ unfold Zminus. rewrite inject_Z_plus, inject_Z_opp. field. }
rewrite E. apply round_val_cents.
Qed.

(** ** Position valuations *)

(** X1.  The double rounding in [Position.cost] is harmless: the cost is
    the rounded value at the entry price; the profit or loss at any price is
    exactly the difference of the two rounded values, so it is zero at the
    entry price, as is the price change. *)
Theorem position_valuations_agree (p : Position) (price : Q) :
cost p == total_value_at p (pos_price p)
/\ profit_or_loss_at p price == total_value_at p price - cost p
/\ profit_or_loss_at p (pos_price p) == 0
/\ chg_at p (pos_price p) == 0.
Proof.
assert (Hcost : cost p == total_value_at p (pos_price p)).
{ unfold cost, total_value_at. apply round_val_idem. }
assert (Hdiff : forall q,
           profit_or_loss_at p q == total_value_at p q - cost p).
{ intros q. unfold profit_or_loss_at, cost, total_value_at.
  exact (round_val_cents_diff _ _). }
split; [exact Hcost |]. split; [apply Hdiff |]. split.
- rewrite Hdiff, Hcost. ring.
- unfold chg_at.
  assert (E : pos_price p - pos_price p == 0) by ring.
  rewrite E. reflexivity.
Qed.

(** X2.  [Position.price_at_pct_change] is monotone in the percentage for
    a non-negative entry price, so for non-negative thresholds the
    stop-loss exit price is at most the rounded entry price, which is at
    most the take-profit exit price. *)
Theorem exit_thresholds_ordered
  (ctx : Context) (p : Position) (pct1 pct2 : Q) :
0 <= pos_price p ->
(pct1 <= pct2 -> price_at_pct_change p pct1 <= price_at_pct_change p pct2)
/\ (0 <= stop_loss ctx -> 0 <= take_profit ctx ->
    price_at_pct_change p (- stop_loss ctx) <= round_val (pos_price p)
    /\ round_val (pos_price p) <= price_at_pct_change p (take_profit ctx)).
Proof.
intros Hp.
assert (Hmono : forall a b, a <= b ->
           price_at_pct_change p a <= price_at_pct_change p b).
{ intros a b Hab. unfold price_at_pct_change. apply round_val_mono.
  assert (H : pos_price p * (a * (1 # 100)) <= pos_price p * (b * (1 # 100))).
  { rewrite !(Qmult_comm (pos_price p)).
    apply Qmult_le_compat_r; [lra | assumption]. }
  rewrite !Qmult_plus_distr_r. lra. }
assert (Hzero : price_at_pct_change p 0 == round_val (pos_price p)).
{ unfold price_at_pct_change.
  assert (E : pos_price p * (1 + 0 * (1 # 100)) == pos_price p) by ring.
  now rewrite E. }
split; [apply Hmono |].
intros Hsl Htp. rewrite <- Hzero. split; apply Hmono; lra.
Qed.

Lemma exit_thresholds_ordered_witness :
price_at_pct_change Examples.pos10 (- stop_loss Exits.thresholds)
<= round_val (pos_price Examples.pos10)
/\ round_val (pos_price Examples.pos10)
   <= price_at_pct_change Examples.pos10 (take_profit Exits.thresholds).
Proof.
apply (proj2 (exit_thresholds_ordered Exits.thresholds Examples.pos10 0 0
                ltac:(vm_compute; discriminate)));
  vm_compute; discriminate.
Defined.

(** ** The exit loop *)

Lemma walrus_some (o : option Q) (q : Q) :
Backtester.walrus o = Some q -> o = Some q /\ truthy q = true.
Proof.
unfold Backtester.walrus. destruct o as [x |]; [| discriminate].
destruct (truthy x) eqn:T; [| discriminate].
intros H. inversion H; subst. now split.
Qed.

Lemma sell_log_shape (b : TradeBook.t) (timestamp : string) (p : Position)
  (action : TradeActionType) :
action <> OPEN ->
truthy (pos_latest_price p) = true ->
exists l,
  TradeBook.sell_ b timestamp p action
  = Ok (TradeBook.mk (TradeBook.trade_logs b ++ [l]) (TradeBook.capital_logs b))
  /\ Exits.logged_sale timestamp l p.
Proof.
intros Ha Ht. unfold TradeBook.sell_. rewrite Ht.
eexists. split; [reflexivity |].
unfold Exits.logged_sale. simpl. repeat split; assumption.
Qed.

(** One iteration either leaves the state alone or closes the position at
    one price, logs that sale and selects the position for selling. *)
Lemma exit_step_ok_shape (ctx : Context) (timestamp : string) (sub_df : Frame)
  (close_indices : list (string * string)) (h : Holdings.t)
  (book : TradeBook.t) (sold : list Position) (code : string) (pos : Position)
  (acc' : Backtester.ExitAcc) :
Backtester.exit_step ctx timestamp sub_df close_indices (h, book, sold)
  (code, pos) = Ok acc' ->
acc' = (h, book, sold)
\/ exists l q,
     DataFrame.loc sub_df timestamp code <> None
     /\ acc' = (Holdings.insert code (close pos q) h,
                TradeBook.mk (TradeBook.trade_logs book ++ [l])
                  (TradeBook.capital_logs book),
                sold ++ [close pos q])
     /\ Exits.logged_sale timestamp l (close pos q).
Proof.
unfold Backtester.exit_step.
destruct (DataFrame.loc sub_df timestamp code) as [bar |];
  [| intros H; inversion H; now left].
assert (Hsale : forall q action rest,
           action <> OPEN -> truthy q = true ->
           (book <- TradeBook.sell_ book timestamp (close pos q) action ;;
            Ok (Holdings.insert code (close pos q) h, book,
                sold ++ [close pos q])) = Ok rest ->
           exists l q',
             Some bar <> None
             /\ rest = (Holdings.insert code (close pos q') h,
                        TradeBook.mk (TradeBook.trade_logs book ++ [l])
                          (TradeBook.capital_logs book),
                        sold ++ [close pos q'])
             /\ Exits.logged_sale timestamp l (close pos q')).
{ intros q action rest Ha Ht H.
  destruct (sell_log_shape book timestamp (close pos q) action Ha Ht)
    as (l & Hl & Hlog).
  rewrite Hl in H. simpl in H. inversion H; subst.
  exists l, q. split; [discriminate | split; [reflexivity | assumption]]. }
destruct (Backtester.walrus (should_take_profit ctx bar pos)) as [tp |] eqn:Etp.
{ intros H. right. apply walrus_some in Etp.
  apply (Hsale tp TAKE_PROFIT); [discriminate | tauto | exact H]. }
destruct (Backtester.walrus (should_stop_loss ctx bar pos)) as [sl |] eqn:Esl.
{ intros H. right. apply walrus_some in Esl.
  apply (Hsale sl STOP_LOSS); [discriminate | tauto | exact H]. }
destruct (Backtester.index_in (timestamp, code) close_indices);
  [| intros H; inversion H; now left].
intros H. right.
destruct (truthy (bar_close bar)) eqn:T.
- apply (Hsale (bar_close bar) CLOSE); [discriminate | assumption | exact H].
- unfold TradeBook.close_position, TradeBook.sell_ in H.
  cbn [close update_price pos_latest_price] in H. rewrite T in H.
  discriminate H.
Qed.

(** An iteration fails only on a strategy close at a zero close price. *)
Lemma exit_step_raise_shape (ctx : Context) (timestamp : string)
  (sub_df : Frame) (close_indices : list (string * string))
  (acc : Backtester.ExitAcc) (code : string) (pos : Position) (e : exn) :
Backtester.exit_step ctx timestamp sub_df close_indices acc (code, pos)
= Raise e ->
e = AssertionError
/\ exists bar,
     DataFrame.loc sub_df timestamp code = Some bar
     /\ Backtester.index_in (timestamp, code) close_indices = true
     /\ bar_close bar == 0.
Proof.
destruct acc as [[h book] sold]. unfold Backtester.exit_step.
destruct (DataFrame.loc sub_df timestamp code) as [bar |]; [| discriminate].
destruct (Backtester.walrus (should_take_profit ctx bar pos)) as [tp |] eqn:Etp.
{ apply walrus_some in Etp. destruct Etp as [_ Ht].
  destruct (sell_log_shape book timestamp (close pos tp) TAKE_PROFIT
              ltac:(discriminate) Ht) as (l & Hl & _).
  unfold TradeBook.take_profit. rewrite Hl. discriminate. }
destruct (Backtester.walrus (should_stop_loss ctx bar pos)) as [sl |] eqn:Esl.
{ apply walrus_some in Esl. destruct Esl as [_ Ht].
  destruct (sell_log_shape book timestamp (close pos sl) STOP_LOSS
              ltac:(discriminate) Ht) as (l & Hl & _).
  unfold TradeBook.stop_loss. rewrite Hl. discriminate. }
destruct (Backtester.index_in (timestamp, code) close_indices) eqn:Ein;
  [| discriminate].
unfold TradeBook.close_position, TradeBook.sell_.
cbn [close update_price pos_latest_price].
destruct (truthy (bar_close bar)) eqn:T; [discriminate |].
simpl. intros H. inversion H; subst. split; [reflexivity |].
exists bar. repeat split. now apply truthy_false.
Qed.

Lemma lookup_insert_other (c c' : string) (p : Position) (h : Holdings.t) :
c' <> c -> Holdings.lookup c' (Holdings.insert c p h) = Holdings.lookup c' h.
Proof.
intros Hne. induction h as [| [k q] h IH]; simpl.
- destruct (String.eqb c c') eqn:E; [| reflexivity].
  apply String.eqb_eq in E. congruence.
- destruct (String.eqb k c) eqn:E; simpl.
  + apply String.eqb_eq in E. subst k.
    destruct (String.eqb c c') eqn:E'; [| reflexivity].
    apply String.eqb_eq in E'. congruence.
  + destruct (String.eqb k c'); [reflexivity | exact IH].
Qed.

Lemma codes_insert_held (c : string) (p : Position) (h : Holdings.t) :
In c (Holdings.position_codes h) ->
Holdings.position_codes (Holdings.insert c p h) = Holdings.position_codes h.
Proof.
induction h as [| [k q] h IH]; simpl; intros Hin; [contradiction |].
destruct (String.eqb k c) eqn:E; simpl; [reflexivity |].
f_equal. apply IH. destruct Hin as [-> | Hin]; [| assumption].
rewrite String.eqb_refl in E. discriminate.
Qed.

Lemma exit_loop_ok_shape (ctx : Context) (timestamp : string) (sub_df : Frame)
  (close_indices : list (string * string))
  (entries : list (string * Position)) :
forall h book sold h' book' sold',
  Backtester.exit_loop ctx timestamp sub_df close_indices (h, book, sold)
    entries = Ok (h', book', sold') ->
  (exists new_logs new_sold,
     TradeBook.trade_logs book' = TradeBook.trade_logs book ++ new_logs
     /\ TradeBook.capital_logs book' = TradeBook.capital_logs book
     /\ sold' = sold ++ new_sold
     /\ Forall2 (Exits.logged_sale timestamp) new_logs new_sold
     /\ Forall (Exits.sold_from timestamp sub_df entries) new_sold
     /\ (List.length new_sold <= List.length entries)%nat)
  /\ (forall code, DataFrame.loc sub_df timestamp code = None ->
                   Holdings.lookup code h' = Holdings.lookup code h)
  /\ (Forall (fun e => In (fst e) (Holdings.position_codes h)) entries ->
      Holdings.position_codes h' = Holdings.position_codes h).
Proof.
induction entries as [| [code pos] entries IH];
  intros h book sold h' book' sold' H.
- simpl in H. inversion H; subst. split; [| split; [reflexivity | reflexivity]].
  exists [], []. rewrite !app_nil_r. repeat split; constructor.
- cbn [Backtester.exit_loop] in H.
  destruct (Backtester.exit_step ctx timestamp sub_df close_indices
              (h, book, sold) (code, pos)) as [[[h1 book1] sold1] | e] eqn:Estep;
    cbn [bind] in H; [| discriminate].
  destruct (IH _ _ _ _ _ _ H)
    as ((logs2 & sold2 & Hl2 & Hc2 & Hs2 & Hall2 & Hfrom2 & Hlen2)
        & Hlook2 & Hcodes2).
  assert (Hweak : Forall (Exits.sold_from timestamp sub_df
                            ((code, pos) :: entries)) sold2).
  { eapply Forall_impl; [| exact Hfrom2].
    intros p (c & q & price & Hin & Hloc & Hp).
    exists c, q, price. repeat split; [now right | assumption | assumption]. }
  apply exit_step_ok_shape in Estep.
  destruct Estep as [Hsame | (l & q & Hloc & Hacc & Hlog)].
  + inversion Hsame; subst h1 book1 sold1.
    split; [| split].
    * exists logs2, sold2. repeat split; try assumption. simpl. lia.
    * assumption.
    * intros Hheld. inversion Hheld; subst. now apply Hcodes2.
  + inversion Hacc; subst h1 book1 sold1. simpl in Hl2, Hc2.
    split; [| split].
    * exists (l :: logs2), (close pos q :: sold2).
      rewrite Hl2, Hs2, <- !app_assoc. simpl.
      repeat split; try assumption.
      -- now constructor.
      -- constructor; [| assumption].
         exists code, pos, q. repeat split; [now left | assumption].
      -- lia.
    * intros c Hc. rewrite (Hlook2 c Hc).
      apply lookup_insert_other. intros ->. contradiction.
    * intros Hheld. inversion Hheld as [| ? ? Hin Hrest]; subst.
      simpl in Hin.
      rewrite <- (codes_insert_held code (close pos q) h Hin).
      apply Hcodes2. now rewrite (codes_insert_held code (close pos q) h Hin).
Qed.

(** X3.  Every exit of the day is logged exactly once: the exit loop only
    appends to the trade log, leaves the capital log alone, and appends one
    entry per position it selects for selling, in the same order, with that
    position's id, symbol, share count and non-zero exit price under an
    exit tag and the day's timestamp; it selects at most one exit per held
    position. *)
Theorem exit_loop_logs_every_sale
  (ctx : Context) (timestamp : string) (sub_df : Frame)
  (close_indices : list (string * string))
  (entries : list (string * Position))
  (h h' : Holdings.t) (book book' : TradeBook.t) (sold sold' : list Position) :
Backtester.exit_loop ctx timestamp sub_df close_indices (h, book, sold) entries
= Ok (h', book', sold') ->
exists new_logs new_sold,
  TradeBook.trade_logs book' = TradeBook.trade_logs book ++ new_logs
  /\ TradeBook.capital_logs book' = TradeBook.capital_logs book
  /\ sold' = sold ++ new_sold
  /\ Forall2 (Exits.logged_sale timestamp) new_logs new_sold
  /\ (List.length new_sold <= List.length entries)%nat.
Proof.
intros H. apply exit_loop_ok_shape in H.
destruct H as ((logs & solds & Hl & Hc & Hs & Hall & _ & Hlen) & _).
exists logs, solds. repeat split; assumption.
Qed.

Lemma exit_loop_logs_every_sale_witness :
exists h' book' sold',
  Backtester.exit_loop Exits.thresholds "2023-01-03" Exits.one_trades []
    (Exits.two_held, TradeBook.init, []) Exits.two_held
  = Ok (h', book', sold')
  /\ exists new_logs new_sold,
       TradeBook.trade_logs book'
       = TradeBook.trade_logs TradeBook.init ++ new_logs
       /\ TradeBook.capital_logs book' = TradeBook.capital_logs TradeBook.init
       /\ sold' = [] ++ new_sold
       /\ Forall2 (Exits.logged_sale "2023-01-03") new_logs new_sold
       /\ (List.length new_sold <= List.length Exits.two_held)%nat.
Proof.
eexists _, _, _. split.
- vm_compute. reflexivity.
- eapply (exit_loop_logs_every_sale Exits.thresholds "2023-01-03"
            Exits.one_trades [] Exits.two_held Exits.two_held).
  vm_compute. reflexivity.
Defined.

(** X4.  The exit loop leaves alone every held position whose symbol is
    absent from the day's frame: its entry in the holdings is unchanged and
    it is never selected for selling; the loop removes nothing from the
    holdings (removal is left to the ledger's sell), so the held symbols
    and their order are the same after it. *)
Theorem exit_loop_skips_absent_symbols
  (ctx : Context) (timestamp : string) (sub_df : Frame)
  (close_indices : list (string * string))
  (entries : list (string * Position))
  (h h' : Holdings.t) (book book' : TradeBook.t) (sold sold' : list Position) :
Backtester.exit_loop ctx timestamp sub_df close_indices (h, book, sold) entries
= Ok (h', book', sold') ->
(forall code, DataFrame.loc sub_df timestamp code = None ->
              Holdings.lookup code h' = Holdings.lookup code h)
/\ (exists new_sold,
      sold' = sold ++ new_sold
      /\ Forall (Exits.sold_from timestamp sub_df entries) new_sold)
/\ (Forall (fun e => In (fst e) (Holdings.position_codes h)) entries ->
    Holdings.position_codes h' = Holdings.position_codes h).
Proof.
intros H. apply exit_loop_ok_shape in H.
destruct H as ((logs & solds & Hl & Hc & Hs & Hall & Hfrom & Hlen)
               & Hlook & Hcodes).
split; [exact Hlook |]. split; [| exact Hcodes].
exists solds. now split.
Qed.

Lemma exit_loop_skips_absent_symbols_witness :
exists h' book' sold',
  Backtester.exit_loop Exits.thresholds "2023-01-03" Exits.one_trades []
    (Exits.two_held, TradeBook.init, []) Exits.two_held
  = Ok (h', book', sold')
  /\ Holdings.lookup "000002" h' = Holdings.lookup "000002" Exits.two_held
  /\ map pos_code sold' = ["000001"%string].
Proof.
eexists _, _, _. split; [vm_compute; reflexivity |]. split.
- apply (proj1 (exit_loop_skips_absent_symbols Exits.thresholds "2023-01-03"
                  Exits.one_trades [] Exits.two_held Exits.two_held _
                  TradeBook.init _ [] _ ltac:(vm_compute; reflexivity))).
  reflexivity.
- reflexivity.
Defined.

Lemma exit_loop_raise_shape (ctx : Context) (timestamp : string)
  (sub_df : Frame) (close_indices : list (string * string))
  (entries : list (string * Position)) :
forall acc e,
  Backtester.exit_loop ctx timestamp sub_df close_indices acc entries
  = Raise e ->
  e = AssertionError
  /\ exists code pos bar,
       In (code, pos) entries
       /\ DataFrame.loc sub_df timestamp code = Some bar
       /\ Backtester.index_in (timestamp, code) close_indices = true
       /\ bar_close bar == 0.
Proof.
induction entries as [| [code pos] entries IH]; intros acc e H.
- discriminate H.
- cbn [Backtester.exit_loop] in H.
  destruct (Backtester.exit_step ctx timestamp sub_df close_indices acc
              (code, pos)) as [acc1 | e1] eqn:Estep; cbn [bind] in H.
  + destruct (IH _ _ H) as (He & c & p & bar & Hin & Hrest).
    split; [exact He |]. exists c, p, bar. split; [now right | exact Hrest].
  + inversion H; subst e1.
    destruct (exit_step_raise_shape _ _ _ _ _ _ _ _ Estep)
      as (He & bar & Hrest).
    split; [exact He |]. exists code, pos, bar. split; [now left | exact Hrest].
Qed.

(** X5.  Take-profit and stop-loss exits cannot fail.  The exit loop
    raises nothing but the AssertionError of the trade book, and only when
    a held symbol with a strategy close signal has a bar whose close price
    is zero; with no close signal at all it always completes. *)
Theorem exit_loop_fails_only_on_zero_close
  (ctx : Context) (timestamp : string) (sub_df : Frame)
  (close_indices : list (string * string))
  (entries : list (string * Position)) (acc : Backtester.ExitAcc) :
(forall e,
    Backtester.exit_loop ctx timestamp sub_df close_indices acc entries
    = Raise e ->
    e = AssertionError
    /\ exists code pos bar,
         In (code, pos) entries
         /\ DataFrame.loc sub_df timestamp code = Some bar
         /\ Backtester.index_in (timestamp, code) close_indices = true
         /\ bar_close bar == 0)
/\ exists acc',
     Backtester.exit_loop ctx timestamp sub_df [] acc entries = Ok acc'.
Proof.
split.
- intros e. apply exit_loop_raise_shape.
- destruct (Backtester.exit_loop ctx timestamp sub_df [] acc entries)
    as [acc' | e] eqn:E.
  + now exists acc'.
  + apply exit_loop_raise_shape in E.
    destruct E as (_ & c & p & bar & _ & _ & Hin & _). discriminate Hin.
Qed.

Lemma exit_loop_fails_only_on_zero_close_witness :
Backtester.exit_loop Exits.thresholds "2023-01-03" Exits.zero_close
  [("2023-01-03"%string, "000001"%string)]
  (Exits.two_held, TradeBook.init, []) Exits.two_held
= Raise AssertionError
/\ exists code pos bar,
     In (code, pos) Exits.two_held
     /\ DataFrame.loc Exits.zero_close "2023-01-03" code = Some bar
     /\ Backtester.index_in ("2023-01-03"%string, code)
          [("2023-01-03"%string, "000001"%string)] = true
     /\ bar_close bar == 0.
Proof.
split; [reflexivity |].
apply (proj1 (exit_loop_fails_only_on_zero_close Exits.thresholds
                "2023-01-03" Exits.zero_close
                [("2023-01-03"%string, "000001"%string)]
                Exits.two_held (Exits.two_held, TradeBook.init, []))
         AssertionError).
reflexivity.
Defined.

(** ** Buy and close signals *)

Lemma mem_iff (s : string) (l : list string) :
DataFrame.mem s l = true <-> In s l.
Proof.
unfold DataFrame.mem. rewrite existsb_exists. split.
- intros (x & Hx & E). apply String.eqb_eq in E. now subst.
- intros H. exists s. split; [assumption | apply String.eqb_refl].
Qed.

Lemma filterM_in {A} (p : A -> result bool) (xs : list A) :
forall ys,
  filterM p xs = Ok ys -> Forall (fun y => In y xs /\ p y = Ok true) ys.
Proof.
induction xs as [| x xs IH]; simpl; intros ys H.
- inversion H. constructor.
- bind_ok H as b Eb. bind_ok H as rest Erest. inversion H; subst.
  specialize (IH rest eq_refl).
  assert (Hrest : Forall (fun y => (x = y \/ In y xs) /\ p y = Ok true) rest).
  { eapply Forall_impl; [| exact IH]. intros y [Hy Hp]. split; [now right | assumption]. }
  destruct b; [| assumption].
  constructor; [| assumption]. split; [now left | assumption].
Qed.

Lemma filterM_raise {A} (p : A -> result bool) (xs : list A) (e : exn) :
filterM p xs = Raise e -> exists x, In x xs /\ p x = Raise e.
Proof.
induction xs as [| x xs IH]; simpl; intros H; [discriminate |].
destruct (p x) as [b | e1] eqn:Ep; simpl in H.
- destruct (filterM p xs) as [rest | e2]; simpl in H; [discriminate |].
  inversion H; subst. destruct (IH eq_refl) as (y & Hy & Hpy).
  exists y. split; [now right | assumption].
- inversion H; subst. exists x. split; [now left | assumption].
Qed.

Lemma mapM_raise {A B} (f : A -> result B) (xs : list A) (e : exn) :
mapM f xs = Raise e -> exists x, In x xs /\ f x = Raise e.
Proof.
induction xs as [| x xs IH]; simpl; intros H; [discriminate |].
destruct (f x) as [y | e1] eqn:Ef; simpl in H.
- destruct (mapM f xs) as [rest | e2]; simpl in H; [discriminate |].
  inversion H; subst. destruct (IH eq_refl) as (z & Hz & Hfz).
  exists z. split; [now right | assumption].
- inversion H; subst. exists x. split; [now left | assumption].
Qed.

Lemma apply_predicate_raise (df : Frame) (pred : list value -> bool)
  (indicators : list string) (row : Bar) (e : exn) :
Backtester.apply_predicate df pred indicators row = Raise e ->
e = AttributeError
/\ exists ind, In ind indicators
               /\ DataFrame.cell (df_index df) row ind = None.
Proof.
unfold Backtester.apply_predicate. intros H.
destruct (mapM (DataFrame.getattr (df_index df) row) indicators)
  as [args | e1] eqn:E; simpl in H; [discriminate |].
inversion H; subst e1. apply mapM_raise in E.
destruct E as (ind & Hin & Hget). unfold DataFrame.getattr in Hget.
destruct (DataFrame.cell (df_index df) row ind) eqn:Ec; [discriminate |].
inversion Hget. split; [reflexivity |]. now exists ind.
Qed.

(** X6.  Buy signals are only ever rows of the day's frame whose symbol is
    not held, and close signals only rows whose symbol is held; there is no
    close signal when the strategy declares no close indicator or nothing
    is held; and the only way either evaluation fails is the AttributeError
    of an indicator that is not a column of the row. *)
Theorem signals_respect_holdings
  (account : Account.t) (df : Frame) (strategy : Strategy) :
(forall buy_indices,
    Backtester.get_buy_signals account df strategy = Ok buy_indices ->
    Forall (fun idx =>
              exists row, In row (df_rows df)
                          /\ idx = Backtester.row_index row
                          /\ ~ In (bar_code row)
                                 (Holdings.position_codes
                                    (Account.holdings account)))
      buy_indices)
/\ (forall close_indices,
       Backtester.get_close_signals account df strategy = Ok close_indices ->
       Forall (fun idx =>
                 exists row, In row (df_rows df)
                             /\ idx = Backtester.row_index row
                             /\ In (bar_code row)
                                  (Holdings.position_codes
                                     (Account.holdings account)))
         close_indices)
/\ (close_indicators strategy = [] \/ Account.holdings account = [] ->
    Backtester.get_close_signals account df strategy = Ok [])
/\ (forall e,
       Backtester.get_buy_signals account df strategy = Raise e
       \/ Backtester.get_close_signals account df strategy = Raise e ->
       e = AttributeError).
Proof.
split; [| split; [| split]].
- intros buy_indices H. unfold Backtester.get_buy_signals in H.
  bind_ok H as rows Erows. inversion H; subst.
  apply filterM_in in Erows. apply Forall_map.
  eapply Forall_impl; [| exact Erows].
  intros row [Hin Hp]. exists row. repeat split; [assumption |].
  intros Hheld. apply mem_iff in Hheld. rewrite Hheld in Hp. discriminate.
- intros close_indices H. unfold Backtester.get_close_signals in H.
  destruct (close_indicators strategy); [inversion H; constructor |].
  destruct (Holdings.position_codes (Account.holdings account)) as [| c cs] eqn:Ec;
    [inversion H; constructor |].
  bind_ok H as rows Erows. inversion H; subst.
  apply filterM_in in Erows. apply Forall_map.
  eapply Forall_impl; [| exact Erows].
  intros row [Hin Hp]. exists row. repeat split; [assumption |].
  destruct (DataFrame.mem (bar_code row) (c :: cs)) eqn:Hm;
    [now apply mem_iff | discriminate].
- intros [H | H]; unfold Backtester.get_close_signals.
  + now rewrite H.
  + rewrite H. simpl. destruct (close_indicators strategy); reflexivity.
- intros e [H | H].
  + unfold Backtester.get_buy_signals in H.
    destruct (filterM _ (df_rows df)) as [rows | e1] eqn:E; simpl in H;
      [discriminate |].
    inversion H; subst e1. apply filterM_raise in E.
    destruct E as (row & _ & Hrow).
    destruct (DataFrame.mem (bar_code row) _); [discriminate |].
    now apply apply_predicate_raise in Hrow.
  + unfold Backtester.get_close_signals in H.
    destruct (close_indicators strategy) as [| ci cis]; [discriminate |].
    destruct (Holdings.position_codes (Account.holdings account));
      [discriminate |].
    destruct (filterM _ (df_rows df)) as [rows | e1] eqn:E; simpl in H;
      [discriminate |].
    inversion H; subst e1. apply filterM_raise in E.
    destruct E as (row & _ & Hrow).
    destruct (DataFrame.mem (bar_code row) _); [| discriminate].
    now apply apply_predicate_raise in Hrow.
Qed.

Lemma signals_respect_holdings_witness :
Forall (fun idx =>
          exists row, In row (df_rows Scenarios.three_symbols)
                      /\ idx = Backtester.row_index row
                      /\ ~ In (bar_code row)
                             (Holdings.position_codes
                                (Account.holdings
                                   (Scenarios.holding_account 1000))))
  [(Scenarios.day, "000002"%string)].
Proof.
apply (proj1 (signals_respect_holdings (Scenarios.holding_account 1000)
                Scenarios.three_symbols Scenarios.buys_from_20)).
reflexivity.
Defined.

(** ** The factor scan: outcomes *)

Lemma assign_loop_outcomes (fac_ts : list string) (fac_vals : list Q)
  (timestamps : list string) :
forall i,
  (forall factors,
      Backtester.assign_loop fac_ts fac_vals i timestamps = Ok factors ->
      List.length factors = List.length timestamps
      /\ Forall (fun v => In v fac_vals) factors)
  /\ (forall e,
         Backtester.assign_loop fac_ts fac_vals i timestamps = Raise e ->
         e = IndexError).
Proof.
induction timestamps as [| ts tss IH]; intros i.
- split.
  + intros factors H. inversion H. split; [reflexivity | constructor].
  + intros e H. discriminate H.
- cbn [Backtester.assign_loop].
  destruct (Backtester.advance (S (List.length fac_ts)) fac_ts i ts)
    as [i' | e1] eqn:Eadv; cbn [bind].
  + destruct (nth_error fac_vals i') as [v |] eqn:Ev.
    * destruct (IH i') as [Hok Hraise].
      destruct (Backtester.assign_loop fac_ts fac_vals i' tss)
        as [rest | e2]; cbn [bind]; split.
      -- intros factors H. inversion H; subst.
         destruct (Hok rest eq_refl) as [Hlen Hall].
         split; [simpl; now rewrite Hlen |].
         constructor; [now apply nth_error_In with i' | assumption].
      -- intros e H. discriminate H.
      -- intros factors H. discriminate H.
      -- intros e H. inversion H; subst. now apply Hraise.
    * split; [intros factors H; discriminate H |].
      intros e H. now inversion H.
  + split; [intros factors H; discriminate H |].
    intros e H. inversion H; subst.
    now apply advance_raises_index in Eadv.
Qed.

(** X7.  When the factor scan returns, it returns exactly one factor per
    bar, each taken from the factor series; when it fails, it fails with
    IndexError and nothing else. *)
Theorem factor_scan_outcomes
  (fac_ts : list string) (fac_vals : list Q) (timestamps : list string) :
(forall factors,
    Backtester.assign_factor_value_to_day fac_ts fac_vals timestamps
    = Ok factors ->
    List.length factors = List.length timestamps
    /\ Forall (fun v => In v fac_vals) factors)
/\ (forall e,
       Backtester.assign_factor_value_to_day fac_ts fac_vals timestamps
       = Raise e ->
       e = IndexError).
Proof.
unfold Backtester.assign_factor_value_to_day.
destruct (assign_loop_outcomes fac_ts fac_vals timestamps 0) as [Hok Hraise].
split.
- intros factors H. now apply Hok.
- intros e H. now apply Hraise.
Qed.

Lemma factor_scan_outcomes_witness :
List.length [1; 1; 2]
= List.length ["2019-06-01"; "2020-06-01"; "2021-06-01"]%string
/\ Forall (fun v => In v (map hfq_factor StepFunction.three_factors))
     [1; 1; 2].
Proof.
apply (proj1 (factor_scan_outcomes
                (map fac_timestamp StepFunction.three_factors)
                (map hfq_factor StepFunction.three_factors)
                ["2019-06-01"; "2020-06-01"; "2021-06-01"]%string)).
reflexivity.
Defined.

(** X8.  The factor scan runs off the end of the factor list, raising
    IndexError, as soon as some bar is dated on or after every factor
    other than the first, whatever the order of the inputs; in particular
    a series of fewer than two factors fails on any bar. *)
Theorem factor_scan_overruns
  (fac_ts : list string) (fac_vals : list Q) (timestamps : list string) :
(Exists (Adjust.past_every_later_factor fac_ts) timestamps ->
 Backtester.assign_factor_value_to_day fac_ts fac_vals timestamps
 = Raise IndexError)
/\ ((List.length fac_ts <= 1)%nat -> timestamps <> [] ->
    Backtester.assign_factor_value_to_day fac_ts fac_vals timestamps
    = Raise IndexError).
Proof.
split.
- intros H. now apply assign_loop_overrun.
- intros Hlen Hne. apply assign_loop_overrun.
  destruct timestamps as [| ts tss]; [congruence |].
  left. intros m t Hm Hnth.
  assert (m < List.length fac_ts)%nat by (apply nth_error_Some; congruence).
  lia.
Qed.

Lemma factor_scan_overruns_witness :
Backtester.assign_factor_value_to_day ["2020-01-01"%string] [1]
  ["2019-06-01"%string]
= Raise IndexError
/\ Backtester.assign_factor_value_to_day
     (map fac_timestamp StepFunction.two_factors)
     (map hfq_factor StepFunction.two_factors)
     ["2019-06-01"; "2021-01-01"]%string
   = Raise IndexError.
Proof.
split.
- apply (proj2 (factor_scan_overruns ["2020-01-01"%string] [1]
                  ["2019-06-01"%string])); [simpl; lia | discriminate].
- apply (proj1 (factor_scan_overruns
                  (map fac_timestamp StepFunction.two_factors)
                  (map hfq_factor StepFunction.two_factors)
                  ["2019-06-01"; "2021-01-01"]%string)).
  right. left. intros m t Hm Hnth.
  destruct m as [| [| [| m]]]; simpl in Hnth; try lia; try discriminate.
  inversion Hnth. reflexivity.
Defined.

(** ** Price adjustment: what it keeps and what it rewrites *)

Lemma assoc_set_same (name : string) (v : value) (l : list (string * value)) :
DataFrame.assoc name (DataFrame.set_assoc name v l) = Some v.
Proof.
induction l as [| [k w] l IH]; simpl.
- now rewrite String.eqb_refl.
- destruct (String.eqb k name) eqn:E; simpl; rewrite E; [reflexivity | exact IH].
Qed.

Lemma assoc_set_other (name other : string) (v : value)
  (l : list (string * value)) :
name <> other ->
DataFrame.assoc name (DataFrame.set_assoc other v l) = DataFrame.assoc name l.
Proof.
intros Hne. induction l as [| [k w] l IH]; simpl.
- destruct (String.eqb other name) eqn:E; [| reflexivity].
  apply String.eqb_eq in E. congruence.
- destruct (String.eqb k other) eqn:E; simpl.
  + apply String.eqb_eq in E. subst k.
    destruct (String.eqb other name) eqn:E'; [| reflexivity].
    apply String.eqb_eq in E'. congruence.
  + destruct (String.eqb k name); [reflexivity | exact IH].
Qed.

Lemma assoc_map_round (name : string) (l : list (string * value)) :
DataFrame.assoc name
  (map (fun kv => (fst kv, Backtester.round_value (snd kv))) l)
= option_map Backtester.round_value (DataFrame.assoc name l).
Proof.
induction l as [| [k w] l IH]; simpl; [reflexivity |].
destruct (String.eqb k name); [reflexivity | exact IH].
Qed.

Lemma with_changes_identity (rows : list Bar) :
forall prev,
  map Adjust.identity (Backtester.with_changes prev rows)
  = map Adjust.identity rows.
Proof.
induction rows as [| r rows IH]; intros prev; simpl; [reflexivity |].
now rewrite IH.
Qed.

Lemma combine_fst {A B} (xs : list A) (ys : list B) :
List.length xs = List.length ys -> map fst (combine xs ys) = xs.
Proof.
revert ys. induction xs as [| x xs IH]; intros [| y ys] H; simpl in *;
  try reflexivity; try discriminate.
f_equal. apply IH. lia.
Qed.

Lemma adjust_prices_rows (bars_df : Frame) (adj_df : list FactorRow)
  (out : Frame) :
Backtester._adjust_prices bars_df adj_df = Ok out ->
exists factors,
  List.length factors = List.length (df_rows bars_df)
  /\ Forall (fun v => In v (map hfq_factor adj_df)) factors
  /\ df_index out = df_index bars_df
  /\ df_columns out
     = Backtester.add_column
         (Backtester.add_column (df_columns bars_df) "chg") "pct_chg"
  /\ df_rows out
     = map Backtester.round_row
         (Backtester.with_changes None
            (map (fun rf => Backtester.scale (fst rf) (snd rf))
               (combine (df_rows bars_df) factors))).
Proof.
unfold Backtester._adjust_prices. intros H.
bind_ok H as factors Efac. inversion H; subst. simpl.
destruct (assign_loop_outcomes (map fac_timestamp adj_df)
            (map hfq_factor adj_df) (map bar_timestamp (df_rows bars_df)) 0)
  as [Hok _].
destruct (Hok factors Efac) as [Hlen Hall].
exists factors. rewrite length_map in Hlen. repeat split; assumption.
Qed.

Lemma mem_add_column (cols : list string) (name : string) :
DataFrame.mem name (Backtester.add_column cols name) = true.
Proof.
unfold Backtester.add_column.
destruct (DataFrame.mem name cols) eqn:E; [exact E |].
apply mem_iff. apply in_or_app. right. now left.
Qed.

Lemma mem_add_column_other (cols : list string) (name other : string) :
DataFrame.mem name cols = true ->
DataFrame.mem name (Backtester.add_column cols other) = true.
Proof.
unfold Backtester.add_column. intros H.
destruct (DataFrame.mem other cols); [exact H |].
apply mem_iff. apply in_or_app. left. now apply mem_iff.
Qed.

Lemma unit_scaling (rows : list Bar) :
forall factors prev,
  List.length factors = List.length rows ->
  Forall (fun v => v == 1) factors ->
  Forall2 Adjust.rounded_copy rows
    (map Backtester.round_row
       (Backtester.with_changes prev
          (map (fun rf => Backtester.scale (fst rf) (snd rf))
             (combine rows factors)))).
Proof.
induction rows as [| r rows IH]; intros [| v factors] prev Hlen Hall;
  simpl in *; try discriminate; [constructor |].
inversion Hall as [| ? ? Hv Hrest]; subst.
constructor; [| apply IH; [lia | assumption]].
unfold Adjust.rounded_copy. simpl.
repeat split; rewrite Hv, Qmult_1_r; reflexivity.
Qed.

Lemma rounded_copy_of_cents (rows rows' : list Bar) :
Forall2 Adjust.rounded_copy rows rows' ->
Forall AdjustCents.cent_priced rows ->
Forall2 AdjustCents.same_prices rows rows'.
Proof.
induction 1 as [| r r' rows rows' Hr _ IH]; intros Hcents; [constructor |].
inversion Hcents as [| ? ? Hc Hcs]; subst.
constructor; [| now apply IH].
destruct Hr as (Ho & Hcl & Hh & Hl).
destruct Hc as ((zo & Hzo) & (zc & Hzc) & (zh & Hzh) & (zl & Hzl)).
unfold AdjustCents.same_prices.
rewrite Ho, Hcl, Hh, Hl, Hzo, Hzc, Hzh, Hzl.
repeat split; apply round_val_cents.
Qed.

(** X9.  A successful price adjustment keeps every bar, in order, with
    its timestamp, symbol, company and volume, and keeps the frame's
    index; it provides the chg and pct_chg columns, both zero on the first
    bar; under factors all equal to 1 every adjusted price is the original
    price rounded to 2 decimals, hence unchanged for bars priced in whole
    cents. *)
Theorem adjust_prices_keeps_bars
  (bars_df : Frame) (adj_df : list FactorRow) (out : Frame) :
Backtester._adjust_prices bars_df adj_df = Ok out ->
map Adjust.identity (df_rows out) = map Adjust.identity (df_rows bars_df)
/\ df_index out = df_index bars_df
/\ DataFrame.mem "chg" (df_columns out) = true
/\ DataFrame.mem "pct_chg" (df_columns out) = true
/\ (forall r, hd_error (df_rows out) = Some r ->
              Adjust.zero_column "chg" r /\ Adjust.zero_column "pct_chg" r)
/\ (Forall (fun f => hfq_factor f == 1) adj_df ->
    Forall2 Adjust.rounded_copy (df_rows bars_df) (df_rows out)
    /\ (Forall AdjustCents.cent_priced (df_rows bars_df) ->
        Forall2 AdjustCents.same_prices (df_rows bars_df) (df_rows out))).
Proof.
intros H. apply adjust_prices_rows in H.
destruct H as (factors & Hlen & Hall & Hidx & Hcols & Hrows).
split; [| split; [exact Hidx | split; [| split; [| split]]]].
- rewrite Hrows, map_map.
  change (fun x => Adjust.identity (Backtester.round_row x))
    with Adjust.identity.
  rewrite with_changes_identity, map_map.
  change (fun x : Bar * Q => Adjust.identity (Backtester.scale (fst x) (snd x)))
    with (fun x : Bar * Q => Adjust.identity (fst x)).
  rewrite <- (map_map fst Adjust.identity), combine_fst; [reflexivity |].
  now rewrite Hlen.
- rewrite Hcols. apply mem_add_column_other, mem_add_column.
- rewrite Hcols. apply mem_add_column.
- intros r Hr. rewrite Hrows in Hr.
  destruct (df_rows bars_df) as [| r0 rows]; [discriminate Hr |].
  destruct factors as [| v factors]; [discriminate Hlen |].
  simpl in Hr. inversion Hr; subst r. unfold Adjust.zero_column. simpl.
  rewrite !assoc_map_round. split.
  + rewrite assoc_set_other by discriminate. rewrite assoc_set_same.
    simpl. eexists. split; reflexivity.
  + rewrite assoc_set_same. simpl. eexists. split; reflexivity.
- intros Hunit.
  assert (Hones : Forall (fun v => v == 1) factors).
  { rewrite Forall_forall in *. intros v Hv. apply Hall in Hv.
    apply in_map_iff in Hv. destruct Hv as (f & <- & Hf). now apply Hunit. }
  assert (Hcopy : Forall2 Adjust.rounded_copy (df_rows bars_df) (df_rows out)).
  { rewrite Hrows. now apply unit_scaling. }
  split; [exact Hcopy |]. intros Hcents.
  now apply rounded_copy_of_cents.
Qed.

Lemma adjust_prices_keeps_bars_witness :
exists out,
  Backtester._adjust_prices Adjust.cent_bars Adjust.unit_factors = Ok out
  /\ map Adjust.identity (df_rows out)
     = map Adjust.identity (df_rows Adjust.cent_bars)
  /\ Forall2 AdjustCents.same_prices (df_rows Adjust.cent_bars) (df_rows out).
Proof.
eexists. split; [vm_compute; reflexivity |].
pose proof (adjust_prices_keeps_bars Adjust.cent_bars Adjust.unit_factors _
              ltac:(vm_compute; reflexivity)) as (Hid & _ & _ & _ & _ & Hunit).
split; [exact Hid |].
apply Hunit.
- repeat constructor.
- repeat constructor; unfold Ledger.whole_cents; simpl.
  + exists 1012%Z. reflexivity.
  + exists 1025%Z. reflexivity.
  + exists 1030%Z. reflexivity.
  + exists 1001%Z. reflexivity.
  + exists 1025%Z. reflexivity.
  + exists 1040%Z. reflexivity.
  + exists 1044%Z. reflexivity.
  + exists 1020%Z. reflexivity.
Defined.

(** ** Computing the indicators *)

Lemma zip_set_base (name : string) (rows : list Bar) :
forall vals rows',
  DataFrame.zip_set name rows vals = Ok rows' ->
  map Indicators.base_fields rows' = map Indicators.base_fields rows.
Proof.
induction rows as [| r rows IH]; intros [| v vals] rows' H; simpl in H;
  try discriminate.
- inversion H. reflexivity.
- bind_ok H as rest Erest. inversion H; subst. simpl.
  now rewrite (IH vals rest).
Qed.

Lemma set_column_spec (df out : Frame) (name : string) (vals : list value) :
DataFrame.set_column df name vals = Ok out ->
df_index out = df_index df
/\ DataFrame.has_column out name = true
/\ (forall other, DataFrame.has_column df other = true ->
                  DataFrame.has_column out other = true)
/\ map Indicators.base_fields (df_rows out)
   = map Indicators.base_fields (df_rows df).
Proof.
unfold DataFrame.set_column. intros H.
bind_ok H as rows Erows. inversion H; subst. simpl.
split; [reflexivity |]. unfold DataFrame.has_column. simpl.
split; [| split].
- apply orb_true_iff. right.
  destruct (DataFrame.mem name (df_columns df)) eqn:E; [exact E |].
  apply mem_iff, in_or_app. right. now left.
- intros other Hother. apply orb_true_iff in Hother. apply orb_true_iff.
  destruct Hother as [Hb | Hc]; [now left | right].
  destruct (DataFrame.mem name (df_columns df)); [exact Hc |].
  apply mem_iff, in_or_app. left. now apply mem_iff.
- now apply (zip_set_base name _ vals).
Qed.

(** X10.  When the indicator computation succeeds, every requested
    indicator is a column of the result and every column the frame already
    had still is; the frame keeps its index and its rows keep, in order,
    their key, company, volume and prices: indicators only add derived
    columns. *)
Theorem compute_indicators_adds_columns
  (strategy : Strategy) (indicators : list (string * list string))
  (bars_df out : Frame) :
Backtester.compute_indicators strategy indicators bars_df = Ok out ->
Forall (fun ip => DataFrame.has_column out (fst ip) = true) indicators
/\ (forall name, DataFrame.has_column bars_df name = true ->
                 DataFrame.has_column out name = true)
/\ df_index out = df_index bars_df
/\ map Indicators.base_fields (df_rows out)
   = map Indicators.base_fields (df_rows bars_df).
Proof.
revert bars_df out.
induction indicators as [| [ind preds] indicators IH]; intros bars_df out H.
- simpl in H. inversion H; subst. repeat split; [constructor | trivial].
- cbn [Backtester.compute_indicators] in H.
  destruct (DataFrame.has_column bars_df ind) eqn:Ehas.
  + destruct (IH _ _ H) as (Hall & Hkeep & Hidx & Hbase).
    repeat split; try assumption.
    constructor; [now apply Hkeep | assumption].
  + destruct (indicator_method strategy ind) as [method |]; [| discriminate].
    bind_ok H as cols Ecols. bind_ok H as df1 Eset.
    apply set_column_spec in Eset.
    destruct Eset as (Hidx1 & Hhas1 & Hkeep1 & Hbase1).
    destruct (IH _ _ H) as (Hall & Hkeep & Hidx & Hbase).
    repeat split.
    * constructor; [now apply Hkeep | assumption].
    * intros name Hname. now apply Hkeep, Hkeep1.
    * now rewrite Hidx.
    * now rewrite Hbase.
Qed.

Lemma compute_indicators_adds_columns_witness :
exists out,
  Backtester.compute_indicators Pipeline.copies_close
    (compute_order Pipeline.copies_close) (Pipeline.one_bar "000001") = Ok out
  /\ Forall (fun ip => DataFrame.has_column out (fst ip) = true)
       (compute_order Pipeline.copies_close)
  /\ map Indicators.base_fields (df_rows out)
     = map Indicators.base_fields (df_rows (Pipeline.one_bar "000001")).
Proof.
eexists. split; [vm_compute; reflexivity |].
pose proof (compute_indicators_adds_columns Pipeline.copies_close
              (compute_order Pipeline.copies_close) (Pipeline.one_bar "000001")
              _ ltac:(vm_compute; reflexivity)) as (Hall & _ & _ & Hbase).
split; [exact Hall | exact Hbase].
Defined.

(** ** The candidate pool and its budget *)

Lemma remove_nth_length {A} (l : list A) :
forall i, (i < List.length l)%nat ->
          List.length (Random.remove_nth i l) = (List.length l - 1)%nat.
Proof.
induction l as [| x l IH]; intros i Hi; simpl in Hi; [lia |].
destruct i as [| i]; simpl; [lia |].
rewrite IH by lia. lia.
Qed.

Lemma draw_length (rng : Entropy) (n : nat) :
forall k rows,
  (n <= List.length rows)%nat ->
  List.length (Random.draw rng k rows n) = n.
Proof.
induction n as [| n IH]; intros k rows Hn; simpl; [reflexivity |].
assert (Hpos : (0 < List.length rows)%nat) by lia.
assert (Hi : (rng k mod List.length rows < List.length rows)%nat)
  by (apply Nat.mod_upper_bound; lia).
destruct (nth_error rows (rng k mod List.length rows)) as [r |] eqn:E.
- simpl. rewrite IH; [reflexivity |].
  rewrite remove_nth_length by assumption. lia.
- apply nth_error_None in E. lia.
Qed.

Lemma capped_budget (budget n cap : Q) :
0 < n ->
let budget' :=
  if Qle_bool (inject_Z (floordiv budget n)) cap then budget else n * cap in
budget' <= budget /\ inject_Z (floordiv budget' n) <= cap.
Proof.
intros Hn. simpl.
destruct (Qle_bool (inject_Z (floordiv budget n)) cap) eqn:E.
- split; [lra | now apply Qle_bool_iff].
- assert (Hlt : cap < inject_Z (floordiv budget n)).
  { destruct (Qlt_le_dec cap (inject_Z (floordiv budget n))) as [| Hle];
      [assumption |].
    apply Qle_bool_iff in Hle. congruence. }
  pose proof (floordiv_mul_le budget n Hn) as Hfloor.
  split.
  + assert (H : n * cap <= inject_Z (floordiv budget n) * n).
    { rewrite (Qmult_comm n cap). apply Qmult_le_compat_r; lra. }
    lra.
  + unfold floordiv.
    assert (Eq : n * cap / n == cap) by (field; lra).
    rewrite (Qfloor_comp _ _ Eq). apply Qfloor_le.
Qed.

(** X11.  When [get_pool_and_budget] returns, the pool is not empty, has
    no more rows than the max-opens limit, and consists of rows of the
    day's frame; the budget returned does not exceed the budget given, and
    its floored even share per candidate does not exceed
    max_position_size times the total asset value.  With candidates at
    hand, a limit of zero ends in ZeroDivisionError and a negative limit
    in ValueError. *)
Theorem pool_and_budget_bounds
  (ctx : Context) (account : Account.t) (rng : Entropy) (k : nat)
  (bars_df : Frame) (buy_indices : list (string * string)) (budget : Q) :
(forall pool_df budget' k',
    get_pool_and_budget ctx account rng k bars_df buy_indices budget
    = Ok (pool_df, budget', k') ->
    (1 <= List.length (df_rows pool_df))%nat
    /\ (Z.of_nat (List.length (df_rows pool_df)) <= max_position_opens ctx)%Z
    /\ (forall r, In r (df_rows pool_df) -> In r (df_rows bars_df))
    /\ budget' <= budget
    /\ inject_Z (floordiv budget'
                   (inject_Z (Z.of_nat (List.length (df_rows pool_df)))))
       <= max_position_size ctx * Account.get_total_asset_value account)
/\ (forall rows,
       loc_all bars_df buy_indices = Ok rows -> rows <> [] ->
       (max_position_opens ctx = 0%Z ->
        get_pool_and_budget ctx account rng k bars_df buy_indices budget
        = Raise ZeroDivisionError)
       /\ ((max_position_opens ctx < 0)%Z ->
           get_pool_and_budget ctx account rng k bars_df buy_indices budget
           = Raise ValueError)).
Proof.
split.
- intros pool_df budget' k' H.
  unfold get_pool_and_budget in H.
  bind_ok H as rows Eloc.
  assert (Hsub : forall r, In r rows -> In r (df_rows bars_df))
    by (apply (loc_all_in _ _ _ Eloc)).
  cbn [df_rows DataFrame.with_rows] in H.
  destruct (max_position_opens ctx <? Z.of_nat (List.length rows))%Z eqn:Emax.
  + unfold Random.sample in H.
    destruct (max_position_opens ctx <? 0)%Z eqn:Eneg; [discriminate H |].
    destruct (Z.of_nat (List.length (df_rows bars_df))
              <? max_position_opens ctx)%Z eqn:Ebig; [discriminate H |].
    cbn [bind] in H.
    apply Z.ltb_ge in Eneg, Ebig.
    set (sampled := Random.draw rng k (df_rows bars_df)
                      (Z.to_nat (max_position_opens ctx))) in *.
    assert (Hlen : List.length sampled = Z.to_nat (max_position_opens ctx))
      by (apply draw_length; lia).
    cbn [df_rows DataFrame.with_rows] in H.
    destruct sampled as [| r0 rest] eqn:Es; [discriminate H |].
    inversion H; subst pool_df budget' k'. clear H.
    cbn [df_rows DataFrame.with_rows].
    split; [simpl; lia |]. split; [lia |]. split.
    { intros r Hr. rewrite <- Es in Hr. unfold sampled in Hr.
      now apply draw_in in Hr. }
    apply capped_budget.
    change 0 with (inject_Z 0). rewrite <- Zlt_Qlt. simpl List.length. lia.
  + cbn [bind] in H. cbn [df_rows DataFrame.with_rows] in H.
    apply Z.ltb_ge in Emax.
    destruct rows as [| r0 rest] eqn:Er; [discriminate H |].
    inversion H; subst pool_df budget' k'. clear H.
    cbn [df_rows DataFrame.with_rows].
    split; [simpl; lia |]. split; [exact Emax |]. split; [exact Hsub |].
    apply capped_budget.
    change 0 with (inject_Z 0). rewrite <- Zlt_Qlt. simpl List.length. lia.
- intros rows Eloc Hne. unfold get_pool_and_budget. rewrite Eloc.
  cbn [bind df_rows DataFrame.with_rows].
  assert (Hpos : (0 < Z.of_nat (List.length rows))%Z)
    by (destruct rows; [congruence | simpl List.length; lia]).
  split; intros Hmax.
  + rewrite Hmax.
    assert (E : (0 <? Z.of_nat (List.length rows))%Z = true)
      by (apply Z.ltb_lt; lia).
    rewrite E. unfold Random.sample.
    change (0 <? 0)%Z with false. cbv iota.
    assert (E' : (Z.of_nat (List.length (df_rows bars_df)) <? 0)%Z = false)
      by (apply Z.ltb_ge; lia).
    rewrite E'. reflexivity.
  + assert (E : (max_position_opens ctx <? Z.of_nat (List.length rows))%Z
                = true) by (apply Z.ltb_lt; lia).
    rewrite E. unfold Random.sample.
    assert (E' : (max_position_opens ctx <? 0)%Z = true)
      by (apply Z.ltb_lt; lia).
    rewrite E'. reflexivity.
Qed.

Lemma pool_and_budget_bounds_witness :
exists pool_df budget' k',
  get_pool_and_budget Scenarios.ctx_one_open (Scenarios.cash_account 10000)
    (Scenarios.always 2) 0 Scenarios.three_symbols
    [(Scenarios.day, "000001"%string); (Scenarios.day, "000002"%string)]
    10000
  = Ok (pool_df, budget', k')
  /\ (1 <= List.length (df_rows pool_df))%nat
  /\ (Z.of_nat (List.length (df_rows pool_df))
      <= max_position_opens Scenarios.ctx_one_open)%Z
  /\ budget' <= 10000.
Proof.
eexists _, _, _. split; [vm_compute; reflexivity |].
pose proof (proj1 (pool_and_budget_bounds Scenarios.ctx_one_open
                     (Scenarios.cash_account 10000) (Scenarios.always 2) 0
                     Scenarios.three_symbols
                     [(Scenarios.day, "000001"%string);
                      (Scenarios.day, "000002"%string)] 10000)
              _ _ _ ltac:(vm_compute; reflexivity))
  as (H1 & H2 & _ & H3 & _).
split; [exact H1 |]. split; [exact H2 | exact H3].
Defined.

(** ** The positions a pool yields *)

Lemma make_positions_shape (ctx : Context) (rng : Entropy)
  (pool : list Sized) :
forall k,
  Forall (fun p => Lots.opens_row ctx (map sz_row pool) p)
    (fst (make_positions ctx rng k pool))
  /\ snd (make_positions ctx rng k pool)
     = (k + List.length (fst (make_positions ctx rng k pool)))%nat.
Proof.
induction pool as [| row pool IH]; intros k; simpl.
- split; [constructor | lia].
- assert (Hweak : forall ps,
             Forall (fun p => Lots.opens_row ctx (map sz_row pool) p) ps ->
             Forall (fun p => Lots.opens_row ctx
                                (sz_row row :: map sz_row pool) p) ps).
  { intros ps. apply Forall_impl.
    intros p ((r & Hin & Hr) & Hrest).
    split; [| exact Hrest]. exists r. split; [now right | exact Hr]. }
  destruct (0 <? trade_shares row)%Z eqn:E.
  + destruct (IH (S k)) as [Hall Hk].
    destruct (make_positions ctx rng (S k) pool) as [ps k']. simpl in *.
    split; [| lia].
    constructor; [| now apply Hweak].
    unfold Lots.opens_row. simpl. split; [| split; [| split]].
    * exists (sz_row row). repeat split. now left.
    * reflexivity.
    * exists (trade_shares row). split; [now apply Z.ltb_lt | reflexivity].
    * now exists (rng k).
  + destruct (IH k) as [Hall Hk]. split; [now apply Hweak | exact Hk].
Qed.

Lemma allocate_rows (ctx : Context) (rows : list Bar) (budget : Q) :
Permutation (map sz_row (fst (allocate ctx rows budget))) rows.
Proof.
unfold allocate. rewrite redistribute_rows.
set (pool := size_rows ctx rows budget).
assert (Hsize : map sz_row pool = rows).
{ unfold pool, size_rows. rewrite map_map. simpl. apply map_id. }
apply Permutation_trans with (map sz_row pool).
- apply Permutation_map. apply sort_perm.
- rewrite Hsize. reflexivity.
Qed.

(** X12.  For a pool whose rows all close at a positive price, and a
    positive lot size, every position [generate_positions] produces opens
    the symbol of a pool row at that row's close price, under the row's
    timestamp and company, in a positive whole number of lots, with its
    latest price equal to its entry price and an id made of the company
    name and a uuid piece, and one random draw is consumed per position.
    Whatever the prices, an empty pool or a budget that is not positive
    produces nothing. *)
Theorem generated_positions_open_pool_rows
  (ctx : Context) (rng : Entropy) (k : nat) (pool_df : Frame) (budget : Q) :
((0 < trading_unit ctx)%Z ->
 Forall (fun r => 0 < bar_close r) (df_rows pool_df) ->
 Forall (Lots.opens_row ctx (df_rows pool_df))
   (fst (generate_positions ctx rng k pool_df budget))
 /\ snd (generate_positions ctx rng k pool_df budget)
    = (k + List.length (fst (generate_positions ctx rng k pool_df budget)))%nat)
/\ (df_rows pool_df = [] \/ budget <= 0 ->
    fst (generate_positions ctx rng k pool_df budget) = []).
Proof.
unfold generate_positions, DataFrame.is_empty.
split; [intros _ _; split |].
- destruct ((match df_rows pool_df with [] => true | _ => false end)
            || Qle_bool budget 0); [constructor |].
  destruct (make_positions_shape ctx rng
              (fst (allocate ctx (df_rows pool_df) budget)) k) as [Hall _].
  eapply Forall_impl; [| exact Hall].
  intros p ((r & Hin & Hr) & Hrest). split; [| exact Hrest].
  exists r. split; [| exact Hr].
  now apply (Permutation_in _ (allocate_rows ctx (df_rows pool_df) budget)).
- destruct ((match df_rows pool_df with [] => true | _ => false end)
            || Qle_bool budget 0); [simpl; lia |].
  apply make_positions_shape.
- intros [Hempty | Hbudget].
  + now rewrite Hempty.
  + apply Qle_bool_iff in Hbudget. rewrite Hbudget, orb_true_r. reflexivity.
Qed.

Lemma generated_positions_open_pool_rows_witness :
fst (generate_positions Sizing.lots_of_100 (Scenarios.always 0) 0
       Sizing.two_candidates 0) = []
/\ Forall (Lots.opens_row Sizing.lots_of_100 (df_rows Sizing.two_candidates))
     (fst (generate_positions Sizing.lots_of_100 (Scenarios.always 0) 0
             Sizing.two_candidates 5000)).
Proof.
split.
- apply (proj2 (generated_positions_open_pool_rows Sizing.lots_of_100
                  (Scenarios.always 0) 0 Sizing.two_candidates 0)).
  right. vm_compute. discriminate.
- apply (proj1 (generated_positions_open_pool_rows Sizing.lots_of_100
                  (Scenarios.always 0) 0 Sizing.two_candidates 5000)).
  + reflexivity.
  + repeat constructor.
Defined.

Section SortedBy.

Context {A : Type} (le : A -> A -> bool).
Hypothesis le_total : forall a b, le a b = true \/ le b a = true.
Hypothesis le_trans :
  forall a b c, le a b = true -> le b c = true -> le a c = true.

Lemma insert_sorted_sorted (x : A) (l : list A) :
StronglySorted (fun a b => le a b = true) l ->
StronglySorted (fun a b => le a b = true) (DataFrame.insert_sorted le x l).
Proof.
induction 1 as [| y l Hs IH Hy]; simpl.
- repeat constructor.
- destruct (le x y) eqn:E.
  + constructor; [now constructor |].
    constructor; [exact E |].
    eapply Forall_impl; [| exact Hy]. intros z Hz. now apply (le_trans x y z).
  + constructor; [exact IH |].
    assert (Hyx : le y x = true)
      by (destruct (le_total x y) as [H | H]; [congruence | exact H]).
    apply Forall_forall. intros z Hz.
    apply (Permutation_in _ (insert_sorted_perm le x l)) in Hz.
    destruct Hz as [<- | Hz]; [exact Hyx |].
    rewrite Forall_forall in Hy. now apply Hy.
Qed.

Lemma sort_sorted (l : list A) :
StronglySorted (fun a b => le a b = true) (DataFrame.sort le l).
Proof.
induction l as [| x l IH]; simpl; [constructor |].
now apply insert_sorted_sorted.
Qed.

End SortedBy.

Lemma sorted_map {A B} (R : A -> A -> Prop) (R' : B -> B -> Prop)
  (f : A -> B) (l : list A) :
(forall a b, In a l -> In b l -> R a b -> R' (f a) (f b)) ->
StronglySorted R l -> StronglySorted R' (map f l).
Proof.
intros Hf Hs. induction Hs as [| x l Hs IH Hx]; simpl; [constructor |].
constructor.
- apply IH. intros a b Ha Hb. apply Hf; now right.
- apply Forall_map. rewrite Forall_forall in *. intros y Hy.
  apply Hf; [now left | now right | now apply Hx].
Qed.

Lemma sort_desc_rows_sorted (ctx : Context) (rows : list Bar) (budget : Q) :
StronglySorted (Lots.row_not_cheaper ctx)
  (map sz_row (sort_desc (size_rows ctx rows budget))).
Proof.
set (pool := size_rows ctx rows budget).
assert (Hprice : forall s, In s (sort_desc pool) ->
           trade_price s = bar_close (sz_row s) * inject_Z (trading_unit ctx)).
{ intros s Hs. apply (Permutation_in _ (sort_perm _ pool)) in Hs.
  unfold pool, size_rows in Hs. apply in_map_iff in Hs.
  destruct Hs as (r & <- & _). reflexivity. }
apply (sorted_map (fun a b => Qle_bool (trade_price b) (trade_price a) = true)).
- intros a b Ha Hb Hab. unfold Lots.row_not_cheaper.
  rewrite <- (Hprice a Ha), <- (Hprice b Hb). now apply Qle_bool_iff.
- unfold sort_desc. apply sort_sorted.
  + intros a b.
    destruct (Qlt_le_dec (trade_price a) (trade_price b)) as [H | H].
    * right. apply Qle_bool_iff. lra.
    * left. now apply Qle_bool_iff.
  + intros a b c Hab Hbc. apply Qle_bool_iff in Hab, Hbc.
    apply Qle_bool_iff. lra.
Qed.

Lemma make_positions_sorted (ctx : Context) (rng : Entropy)
  (pool : list Sized) :
forall k,
  StronglySorted (Lots.row_not_cheaper ctx) (map sz_row pool) ->
  StronglySorted (Lots.not_cheaper ctx) (fst (make_positions ctx rng k pool)).
Proof.
induction pool as [| row pool IH]; intros k Hs; simpl; [constructor |].
inversion Hs as [| ? ? Hs' Hrow]; subst.
destruct (0 <? trade_shares row)%Z; [| now apply IH].
pose proof (proj1 (make_positions_shape ctx rng pool (S k))) as Hshape.
specialize (IH (S k) Hs').
destruct (make_positions ctx rng (S k) pool) as [ps k']. simpl in *.
constructor; [exact IH |].
rewrite Forall_forall in *. intros q Hq.
destruct (Hshape q Hq) as ((r & Hin & _ & _ & _ & Hprice) & _).
unfold Lots.not_cheaper. simpl. rewrite Hprice. now apply Hrow.
Qed.

(** X13.  The positions come out of [generate_positions] from the most
    expensive lot to the cheapest: each position's per-lot price (close
    price times lot size) is at least that of every position after it. *)
Theorem generated_positions_descend
  (ctx : Context) (rng : Entropy) (k : nat) (pool_df : Frame) (budget : Q) :
StronglySorted (Lots.not_cheaper ctx)
  (fst (generate_positions ctx rng k pool_df budget)).
Proof.
unfold generate_positions.
destruct (DataFrame.is_empty pool_df || Qle_bool budget 0); [constructor |].
apply make_positions_sorted. unfold allocate.
rewrite redistribute_rows. apply sort_desc_rows_sorted.
Qed.

(** ** Buying what the sizing produced *)

(** Dropping candidates keeps the remaining symbols distinct. *)
Lemma kept_codes_distinct {A} (keep : A -> bool) (code : A -> string)
  (xs : list A) :
NoDup (map code xs) -> NoDup (map code (filter keep xs)).
Proof.
intros Hnd. induction xs as [| x xs IH]; simpl in *; [constructor |].
apply NoDup_cons_iff in Hnd. destruct Hnd as [Hx Hrest].
destruct (keep x); simpl; [| now apply IH].
apply NoDup_cons_iff. split; [| now apply IH].
rewrite in_map_iff. intros (y & Hy & Hin). apply filter_In in Hin.
apply Hx. rewrite in_map_iff. exists y. tauto.
Qed.

(** X14.  For a pool of pairwise distinct symbols, none of them held, with
    positive close prices, a positive lot size and a positive budget, the
    positions [generate_positions] produces are a batch [Account.buy]
    accepts on its own terms: distinct unheld symbols at their entry
    price.  Buying them debits at most the budget plus commission,
    round2(budget * (1 + buy_rate/100)), for a non-negative rate, lowers
    the total asset value by exactly the rounded commission, and leaves at
    most one position per symbol. *)
Theorem buying_generated_positions
  (ctx : Context) (rng : Entropy) (k : nat) (pool_df : Frame) (budget : Q)
  (account : Account.t) :
0 < budget ->
(0 < trading_unit ctx)%Z ->
Forall (fun r => 0 < bar_close r) (df_rows pool_df) ->
NoDup (map bar_code (df_rows pool_df)) ->
Forall (fun r => ~ In (bar_code r)
                     (Holdings.position_codes (Account.holdings account)))
  (df_rows pool_df) ->
Ledger.dict_like (Account.holdings account) ->
0 <= Account.buy_commission_rate account ->
let positions := fst (generate_positions ctx rng k pool_df budget) in
Ledger.fresh_batch (Account.holdings account) positions
/\ Account.cash_amount account
   - round_val (budget * (1 + Account.buy_commission_rate account * (1 # 100)))
   <= Account.cash_amount (Account.buy account positions)
/\ Account.get_total_asset_value (Account.buy account positions)
   == Account.get_total_asset_value account
      - (Account.add_buy_commissions account (Ledger.cost_total positions)
         - Ledger.cost_total positions)
/\ Ledger.dict_like (Account.holdings (Account.buy account positions)).
Proof.
intros Hb Hunit Hrows Hnd Hfree Hdict Hrate positions.
set (sized := fst (allocate ctx (df_rows pool_df) budget)).
assert (Hgen : positions = fst (make_positions ctx rng k sized)).
{ unfold positions, generate_positions, sized.
  assert (Hnb : Qle_bool budget 0 = false).
  { destruct (Qle_bool budget 0) eqn:E; [| reflexivity].
    apply Qle_bool_iff in E. lra. }
  rewrite Hnb, orb_false_r. unfold DataFrame.is_empty.
  destruct (df_rows pool_df); reflexivity. }
destruct (allocate_spec ctx Hunit (df_rows pool_df) budget Hb Hrows)
  as (Hok & Hperm & Hnn & Hsum & _).
fold sized in Hok, Hperm, Hsum.
destruct (make_positions_spec ctx Hunit rng sized k Hok)
  as (Hcost & Hcodes & _).
rewrite <- Hgen in Hcost, Hcodes.
pose proof (proj1 (make_positions_shape ctx rng sized k)) as Hshape.
rewrite <- Hgen in Hshape.
assert (Hfresh : Ledger.fresh_batch (Account.holdings account) positions).
{ split; [| split].
  - rewrite Hcodes. unfold Sizing.funded_codes.
    rewrite <- (map_map sz_row bar_code).
    assert (Hnd' : NoDup (map bar_code (map sz_row sized))).
    { apply (Permutation_NoDup
               (Permutation_sym (Permutation_map bar_code Hperm)) Hnd). }
    rewrite map_map in Hnd'.
    rewrite map_map.
    now apply kept_codes_distinct.
  - rewrite Forall_forall in *. intros p Hp.
    destruct (Hshape p Hp) as ((r & Hin & _ & Hcode & _) & _).
    rewrite Hcode. apply Hfree.
    now apply (Permutation_in _ Hperm).
  - rewrite Forall_forall in *. intros p Hp.
    destruct (Hshape p Hp) as (_ & Hlatest & _). now rewrite Hlatest. }
split; [exact Hfresh |]. split; [| split].
- rewrite buy_cash. unfold Account.add_buy_commissions.
  assert (Hle : Ledger.cost_total positions
                * (1 + Account.buy_commission_rate account * (1 # 100))
                <= budget
                   * (1 + Account.buy_commission_rate account * (1 # 100))).
  { apply Qmult_le_compat_r; lra. }
  apply round_val_mono in Hle. lra.
- now apply buy_total.
- destruct Hfresh as (Hnd' & Hfree' & _). rewrite buy_holdings.
  now destruct (insert_all_fresh positions _ Hdict Hnd' Hfree').
Qed.

Lemma buying_generated_positions_witness :
let positions :=
  fst (generate_positions Sizing.lots_of_100 (Scenarios.always 0) 0
         Sizing.two_candidates 5000) in
Ledger.fresh_batch (Account.holdings Ledger.small_account) positions
/\ Account.cash_amount Ledger.small_account
   - round_val (5000 * (1 + Account.buy_commission_rate Ledger.small_account
                            * (1 # 100)))
   <= Account.cash_amount (Account.buy Ledger.small_account positions).
Proof.
pose proof (buying_generated_positions Sizing.lots_of_100 (Scenarios.always 0)
              0 Sizing.two_candidates 5000 Ledger.small_account) as H.
simpl in H.
destruct H as (H1 & H2 & _); try reflexivity.
- repeat constructor.
- repeat constructor; simpl; intuition discriminate.
- repeat constructor; simpl; tauto.
- constructor.
- vm_compute. discriminate.
- split; [exact H1 | exact H2].
Defined.

(** ** What a trading day adds to the trade book *)

Lemma tick_codes (lookup : Holdings.PriceLookupFun) (h : Holdings.t) :
forall h', Holdings.tick lookup h = Ok h' ->
           Holdings.position_codes h' = Holdings.position_codes h.
Proof.
induction h as [| [c p] h IH]; simpl; intros h' H.
- now inversion H.
- bind_ok H as price Eprice. bind_ok H as rest Erest. inversion H; subst.
  simpl. f_equal. now apply IH.
Qed.

Lemma account_tick_codes (a a' : Account.t)
  (lookup : Holdings.PriceLookupFun) :
Account.tick a lookup = Ok a' ->
Holdings.position_codes (Account.holdings a')
= Holdings.position_codes (Account.holdings a).
Proof.
unfold Account.tick. intros H.
destruct (Account.holdings a) as [| cp h] eqn:Eh.
- inversion H; subst. now rewrite Eh.
- bind_ok H as h' Etick. inversion H; subst. simpl.
  now apply (tick_codes lookup (cp :: h)).
Qed.

Lemma buy_logs_shape (timestamp : string) (ps : list Position) :
forall b,
  exists logs,
    TradeBook.trade_logs
      (fold_left (fun b pos => TradeBook.buy b timestamp pos) ps b)
    = TradeBook.trade_logs b ++ logs
    /\ TradeBook.capital_logs
         (fold_left (fun b pos => TradeBook.buy b timestamp pos) ps b)
       = TradeBook.capital_logs b
    /\ Forall2 (DayBook.opening_log timestamp) logs ps.
Proof.
induction ps as [| p ps IH]; intros b; simpl.
- exists []. rewrite app_nil_r. repeat split. constructor.
- destruct (IH (TradeBook.buy b timestamp p)) as (logs & Hl & Hc & Hall).
  simpl in Hl, Hc. rewrite <- app_assoc in Hl.
  eexists. split; [exact Hl |]. split; [exact Hc |].
  simpl. constructor; [| exact Hall].
  unfold DayBook.opening_log. simpl. repeat split.
Qed.

Lemma make_positions_length (ctx : Context) (rng : Entropy)
  (pool : list Sized) :
forall k,
  (List.length (fst (make_positions ctx rng k pool)) <= List.length pool)%nat.
Proof.
induction pool as [| row pool IH]; intros k; simpl; [lia |].
destruct (0 <? trade_shares row)%Z.
- specialize (IH (S k)).
  destruct (make_positions ctx rng (S k) pool) as [ps k']. simpl in *. lia.
- specialize (IH k). lia.
Qed.

Lemma generate_positions_length (ctx : Context) (rng : Entropy) (k : nat)
  (pool_df : Frame) (budget : Q) :
(List.length (fst (generate_positions ctx rng k pool_df budget))
 <= List.length (df_rows pool_df))%nat.
Proof.
unfold generate_positions.
destruct (DataFrame.is_empty pool_df || Qle_bool budget 0); [simpl; lia |].
etransitivity; [apply make_positions_length |].
rewrite <- (Permutation_length (allocate_rows ctx (df_rows pool_df) budget)).
now rewrite length_map.
Qed.

Lemma pool_length (ctx : Context) (account : Account.t) (rng : Entropy)
  (k : nat) (bars_df : Frame) (buy_indices : list (string * string))
  (budget : Q) (pool_df : Frame) (budget' : Q) (k' : nat) :
get_pool_and_budget ctx account rng k bars_df buy_indices budget
= Ok (pool_df, budget', k') ->
(Z.of_nat (List.length (df_rows pool_df)) <= max_position_opens ctx)%Z.
Proof.
unfold get_pool_and_budget. intros H.
bind_ok H as rows Eloc.
cbn [df_rows DataFrame.with_rows] in H.
destruct (max_position_opens ctx <? Z.of_nat (List.length rows))%Z eqn:Emax.
- unfold Random.sample in H.
  destruct (max_position_opens ctx <? 0)%Z eqn:Eneg; [discriminate H |].
  destruct (Z.of_nat (List.length (df_rows bars_df))
            <? max_position_opens ctx)%Z eqn:Ebig; [discriminate H |].
  cbn [bind] in H. apply Z.ltb_ge in Eneg, Ebig.
  cbn [df_rows DataFrame.with_rows] in H.
  pose proof (draw_length rng (Z.to_nat (max_position_opens ctx)) k
                (df_rows bars_df) ltac:(lia)) as Hlen.
  destruct (Random.draw rng k (df_rows bars_df)
              (Z.to_nat (max_position_opens ctx))) as [| r0 rest] eqn:Es;
    [discriminate H |].
  inversion H; subst pool_df. cbn [df_rows DataFrame.with_rows]. lia.
- cbn [bind] in H. cbn [df_rows DataFrame.with_rows] in H.
  apply Z.ltb_ge in Emax.
  destruct rows as [| r0 rest] eqn:Er; [discriminate H |].
  inversion H; subst pool_df. cbn [df_rows DataFrame.with_rows]. exact Emax.
Qed.

Lemma Forall2_left {A B} (R : A -> B -> Prop) (P : A -> Prop)
  (l : list A) (l' : list B) :
(forall a b, R a b -> P a) -> Forall2 R l l' -> Forall P l.
Proof.
intros HR H. induction H as [| a b l l' Hab _ IH]; constructor.
- now apply (HR a b).
- exact IH.
Qed.

(** The book after a day: the exits logged for the positions sold, then
    the openings logged for the positions bought, and at most one capital
    snapshot. *)
Lemma trade_day_book_shape
  (ctx : Context) (strategy : Strategy) (rng : Entropy)
  (st st' : Backtester.Sim) (timestamp : string) (sub_df : Frame) :
Backtester.trade_day ctx strategy rng st timestamp sub_df = Ok st' ->
exists exits sold opens bought caps,
  TradeBook.trade_logs (Backtester.sim_book st')
  = TradeBook.trade_logs (Backtester.sim_book st) ++ exits ++ opens
  /\ Forall2 (Exits.logged_sale timestamp) exits sold
  /\ Forall2 (DayBook.opening_log timestamp) opens bought
  /\ (List.length sold
      <= List.length (Account.holdings (Backtester.sim_account st)))%nat
  /\ (List.length bought <= Z.to_nat (max_position_opens ctx))%nat
  /\ TradeBook.capital_logs (Backtester.sim_book st')
     = TradeBook.capital_logs (Backtester.sim_book st) ++ caps
  /\ (caps = []
      \/ caps = [DayBook.snapshot timestamp (Backtester.sim_account st')]).
Proof.
unfold Backtester.trade_day. intros H.
bind_ok H as account Etick.
apply account_tick_codes in Etick.
assert (Hheld : List.length (Account.holdings account)
                = List.length (Account.holdings (Backtester.sim_account st))).
{ unfold Holdings.position_codes in Etick.
  rewrite <- (length_map fst (Account.holdings account)), Etick.
  apply length_map. }
bind_ok H as close_indices Eclose.
bind_ok H as [[h book] sells] Eexit.
apply exit_loop_ok_shape in Eexit.
destruct Eexit as ((exits & sold & Hl & Hc & Hs & Hall & _ & Hlen) & _).
set (account2 := match sells with
                 | [] => Account.with_holdings account h
                 | _ :: _ => Account.sell (Account.with_holdings account h) sells
                 end) in *.
bind_ok H as buy_indices Ebuy.
bind_ok H as [[account3 book3] k3] Ebought.
assert (Hopens : exists opens bought,
           TradeBook.trade_logs book3 = TradeBook.trade_logs book ++ opens
           /\ TradeBook.capital_logs book3 = TradeBook.capital_logs book
           /\ Forall2 (DayBook.opening_log timestamp) opens bought
           /\ (List.length bought <= Z.to_nat (max_position_opens ctx))%nat).
{ destruct buy_indices as [| idx rest].
  - inversion Ebought; subst. exists [], []. rewrite app_nil_r.
    repeat split; [constructor | simpl; lia].
  - bind_ok Ebought as [[pool_df budget] k] Epool.
    apply pool_length in Epool.
    pose proof (generate_positions_length ctx rng k pool_df budget) as Hgen.
    destruct (generate_positions ctx rng k pool_df budget) as [ps k4].
    simpl in Hgen. inversion Ebought; subst.
    destruct (buy_logs_shape timestamp ps book) as (opens & Ho & Hoc & Hall').
    exists opens, ps. split; [exact Ho |]. split; [exact Hoc |].
    split; [exact Hall' | lia]. }
destruct Hopens as (opens & bought & Ho & Hoc & Hopen & Hcount).
exists exits, sold, opens, bought.
rewrite <- Hheld.
inversion H; subst st'. cbn [Backtester.sim_book Backtester.sim_account].
destruct buy_indices as [| bi brest], close_indices as [| ci crest].
1: exists [].
2-4: exists [DayBook.snapshot timestamp account3].
all: cbn [TradeBook.log_capitals TradeBook.trade_logs TradeBook.capital_logs].
all: rewrite Ho, Hl, Hoc, Hc, <- ?app_assoc, ?app_nil_r.
all: repeat (split; [first [reflexivity | assumption] |]).
all: first [now left | now right].
Qed.

(** X15.  A trading day that completes only appends to the trade book.
    The trade log gains the day's exits followed by the day's openings,
    all under the day's timestamp: at most one exit per position held at
    the start of the day, and at most max_position_opens openings.  The
    capital log gains nothing or exactly one snapshot, which carries the
    day's timestamp and the cash and positions value the account ends the
    day with. *)
Theorem trade_day_extends_book
  (ctx : Context) (strategy : Strategy) (rng : Entropy)
  (st st' : Backtester.Sim) (timestamp : string) (sub_df : Frame) :
Backtester.trade_day ctx strategy rng st timestamp sub_df = Ok st' ->
exists exits opens caps,
  TradeBook.trade_logs (Backtester.sim_book st')
  = TradeBook.trade_logs (Backtester.sim_book st) ++ exits ++ opens
  /\ Forall (DayBook.exit_log timestamp) exits
  /\ Forall (fun l => tl_timestamp l = timestamp /\ tl_tag l = OPEN) opens
  /\ (List.length exits
      <= List.length (Account.holdings (Backtester.sim_account st)))%nat
  /\ (List.length opens <= Z.to_nat (max_position_opens ctx))%nat
  /\ TradeBook.capital_logs (Backtester.sim_book st')
     = TradeBook.capital_logs (Backtester.sim_book st) ++ caps
  /\ (caps = []
      \/ caps = [DayBook.snapshot timestamp (Backtester.sim_account st')]).
Proof.
intros H. apply trade_day_book_shape in H.
destruct H as (exits & sold & opens & bought & caps
               & Hlogs & Hexits & Hopens & Hsold & Hbought & Hcaps & Hsnap).
exists exits, opens, caps.
split; [exact Hlogs |]. split; [| split].
- eapply Forall2_left; [| exact Hexits].
  intros l p (Ht & Htag & _). now split.
- eapply Forall2_left; [| exact Hopens].
  intros l p (Ht & Htag & _). now split.
- rewrite (Forall2_length Hexits), (Forall2_length Hopens). tauto.
Qed.

Lemma trade_day_extends_book_witness :
exists st' exits opens caps,
  Backtester.trade_day Scenarios.ctx_one_open Scenarios.buys_from_20
    (Scenarios.always 2)
    (Backtester.mkSim (Scenarios.cash_account 10000) TradeBook.init 0)
    Scenarios.day Scenarios.three_symbols = Ok st'
  /\ TradeBook.trade_logs (Backtester.sim_book st') = [] ++ exits ++ opens
  /\ (List.length opens
      <= Z.to_nat (max_position_opens Scenarios.ctx_one_open))%nat
  /\ TradeBook.capital_logs (Backtester.sim_book st') = [] ++ caps.
Proof.
eexists.
destruct (trade_day_extends_book Scenarios.ctx_one_open Scenarios.buys_from_20
            (Scenarios.always 2)
            (Backtester.mkSim (Scenarios.cash_account 10000) TradeBook.init 0)
            _ Scenarios.day Scenarios.three_symbols
            ltac:(vm_compute; reflexivity))
  as (exits & opens & caps & H1 & _ & _ & _ & H2 & H3 & _).
exists exits, opens, caps.
split; [vm_compute; reflexivity |].
split; [exact H1 |]. split; [exact H2 | exact H3].
Defined.

(** ** The buy step and the positions already held *)

Lemma loc_all_index (bars_df : Frame) (indices : list (string * string)) :
forall rows,
  loc_all bars_df indices = Ok rows -> map Backtester.row_index rows = indices.
Proof.
unfold loc_all.
induction indices as [| idx indices IH]; simpl; intros rows H.
- now inversion H.
- destruct (DataFrame.loc bars_df (fst idx) (snd idx)) as [r0 |] eqn:E;
    simpl in H; [| discriminate].
  bind_ok H as rest Erest. inversion H; subst. simpl.
  rewrite (IH rest eq_refl). f_equal.
  unfold DataFrame.loc in E. apply find_some in E. destruct E as [_ E].
  apply andb_true_iff in E. destruct E as [Et Ec].
  apply String.eqb_eq in Et, Ec. unfold Backtester.row_index.
  rewrite Et, Ec. now destruct idx.
Qed.

Lemma lookup_insert_all_other (c : string) (ps : list Position) :
forall h,
  Forall (fun p => pos_code p <> c) ps ->
  Holdings.lookup c (Ledger.insert_all ps h) = Holdings.lookup c h.
Proof.
unfold Ledger.insert_all.
induction ps as [| p ps IH]; simpl; intros h Hps; [reflexivity |].
inversion Hps; subst. rewrite IH by assumption.
apply lookup_insert_other. congruence.
Qed.

Lemma generate_positions_codes (ctx : Context) (rng : Entropy) (k : nat)
  (pool_df : Frame) (budget : Q) :
Forall (fun p => In (pos_code p) (map bar_code (df_rows pool_df)))
  (fst (generate_positions ctx rng k pool_df budget)).
Proof.
unfold generate_positions.
destruct (DataFrame.is_empty pool_df || Qle_bool budget 0); [constructor |].
pose proof (proj1 (make_positions_shape ctx rng
                     (fst (allocate ctx (df_rows pool_df) budget)) k))
  as Hshape.
eapply Forall_impl; [| exact Hshape].
intros p ((r & Hin & _ & Hcode & _) & _).
apply (Permutation_in _ (allocate_rows ctx (df_rows pool_df) budget)) in Hin.
rewrite Hcode. now apply in_map.
Qed.

(** X16.  "Won't increase existing positions": when the day's buy signals
    are no more than max_position_opens, the pool [get_pool_and_budget]
    returns is made of exactly the signalled rows, every position
    generated from it opens a symbol the account does not hold, and buying
    them leaves every held position as it was. *)
Theorem buy_step_spares_held_positions
  (ctx : Context) (account : Account.t) (rng : Entropy) (k : nat)
  (df : Frame) (strategy : Strategy) (budget : Q)
  (buy_indices : list (string * string))
  (pool_df : Frame) (budget' : Q) (k' : nat) :
Backtester.get_buy_signals account df strategy = Ok buy_indices ->
(Z.of_nat (List.length buy_indices) <= max_position_opens ctx)%Z ->
get_pool_and_budget ctx account rng k df buy_indices budget
= Ok (pool_df, budget', k') ->
let positions := fst (generate_positions ctx rng k' pool_df budget') in
map Backtester.row_index (df_rows pool_df) = buy_indices
/\ k' = k
/\ Forall (fun p => ~ In (pos_code p)
                       (Holdings.position_codes (Account.holdings account)))
     positions
/\ (forall code,
       In code (Holdings.position_codes (Account.holdings account)) ->
       Holdings.lookup code (Account.holdings (Account.buy account positions))
       = Holdings.lookup code (Account.holdings account)).
Proof.
intros Hsig Hfit Hpool positions.
assert (Hfree : Forall (fun idx => ~ In (snd idx)
                                     (Holdings.position_codes
                                        (Account.holdings account)))
                  buy_indices).
{ unfold Backtester.get_buy_signals in Hsig.
  bind_ok Hsig as rows Erows. inversion Hsig; subst.
  apply filterM_in in Erows. apply Forall_map.
  eapply Forall_impl; [| exact Erows].
  intros row [_ Hp] Hheld. simpl in Hheld.
  apply mem_iff in Hheld. rewrite Hheld in Hp. discriminate. }
assert (Hrows : map Backtester.row_index (df_rows pool_df) = buy_indices
                /\ k' = k).
{ unfold get_pool_and_budget in Hpool.
  bind_ok Hpool as rows Eloc.
  pose proof (loc_all_index _ _ _ Eloc) as Hidx.
  assert (Hlen : List.length rows = List.length buy_indices)
    by (rewrite <- Hidx; symmetry; apply length_map).
  cbn [df_rows DataFrame.with_rows] in Hpool.
  assert (Emax : (max_position_opens ctx <? Z.of_nat (List.length rows))%Z
                 = false) by (apply Z.ltb_ge; lia).
  rewrite Emax in Hpool. cbn [bind df_rows DataFrame.with_rows] in Hpool.
  destruct rows as [| r0 rest] eqn:Er; [discriminate Hpool |].
  inversion Hpool. split; [exact Hidx | reflexivity]. }
destruct Hrows as [Hidx Hk].
assert (Hunheld : Forall (fun p => ~ In (pos_code p)
                                      (Holdings.position_codes
                                         (Account.holdings account)))
                    positions).
{ pose proof (generate_positions_codes ctx rng k' pool_df budget') as Hcodes.
  eapply Forall_impl; [| exact Hcodes].
  intros p Hp. apply in_map_iff in Hp. destruct Hp as (r & Hcode & Hin).
  rewrite <- Hcode. rewrite Forall_forall in Hfree.
  apply (Hfree (Backtester.row_index r)).
  rewrite <- Hidx. now apply in_map. }
split; [exact Hidx |]. split; [exact Hk |]. split; [exact Hunheld |].
intros code Hheld. rewrite buy_holdings.
apply lookup_insert_all_other.
eapply Forall_impl; [| exact Hunheld].
intros p Hp Heq. apply Hp. now rewrite Heq.
Qed.

Lemma buy_step_spares_held_positions_witness :
exists pool_df budget' k',
  get_pool_and_budget Scenarios.ctx (Scenarios.holding_account 10000)
    (Scenarios.always 0) 0 Scenarios.three_symbols
    [(Scenarios.day, "000002"%string)] 10000
  = Ok (pool_df, budget', k')
  /\ Holdings.lookup "000001"
       (Account.holdings
          (Account.buy (Scenarios.holding_account 10000)
             (fst (generate_positions Scenarios.ctx (Scenarios.always 0) k'
                     pool_df budget'))))
     = Holdings.lookup "000001"
         (Account.holdings (Scenarios.holding_account 10000)).
Proof.
eexists _, _, _. split; [vm_compute; reflexivity |].
apply (buy_step_spares_held_positions Scenarios.ctx
         (Scenarios.holding_account 10000) (Scenarios.always 0) 0
         Scenarios.three_symbols Scenarios.buys_from_20 10000
         [(Scenarios.day, "000002"%string)]).
- vm_compute. reflexivity.
- vm_compute. discriminate.
- vm_compute. reflexivity.
- simpl. now left.
Defined.

(** ** The trade book is in day order *)

Lemma leb_total (a b : string) :
String.leb a b = true \/ String.leb b a = true.
Proof.
destruct (String.ltb a b) eqn:E.
- left. apply StringOrder.leb_iff. left. now apply StringOrder.ltb_iff.
- right. now apply StringOrder.ltb_false_iff.
Qed.

Lemma dedup_in (x : string) (l : list string) :
In x (DataFrame.dedup l) <-> In x l.
Proof.
induction l as [| y l IH]; simpl; [tauto |].
destruct (DataFrame.mem y l) eqn:E.
- rewrite IH. split; [now right |].
  intros [<- | H]; [now apply mem_iff | assumption].
- simpl. now rewrite IH.
Qed.

Lemma dedup_NoDup (l : list string) : NoDup (DataFrame.dedup l).
Proof.
induction l as [| y l IH]; simpl; [constructor |].
destruct (DataFrame.mem y l) eqn:E; [assumption |].
constructor; [| assumption].
rewrite dedup_in. intros H. apply mem_iff in H. congruence.
Qed.

Lemma strictly_sorted (l : list string) :
StronglySorted Chronology.not_after l -> NoDup l ->
StronglySorted Chronology.before l.
Proof.
intros Hs. induction Hs as [| x l Hs IH Hx]; intros Hnd; [constructor |].
inversion Hnd as [| ? ? Hnotin Hnd']; subst.
constructor; [now apply IH |].
rewrite Forall_forall in *. intros y Hy.
specialize (Hx y Hy). unfold Chronology.not_after in Hx.
apply StringOrder.leb_iff in Hx. destruct Hx as [Hlt | ->].
- now apply StringOrder.ltb_iff.
- contradiction.
Qed.

(** [groupby] visits its groups in strictly ascending key order, and every
    key is the key of a row. *)
Lemma groupby_keys (key : Bar -> string) (df : Frame) :
StronglySorted Chronology.before (map fst (DataFrame.groupby key df))
/\ Forall (fun k => In k (map key (df_rows df)))
     (map fst (DataFrame.groupby key df)).
Proof.
unfold DataFrame.groupby. rewrite map_map. cbn [fst]. rewrite map_id.
set (keys := DataFrame.dedup (map key (df_rows df))).
pose proof (sort_perm String.leb keys) as Hperm.
split.
- apply strictly_sorted.
  + apply (sort_sorted String.leb leb_total StringOrder.leb_trans).
  + apply (Permutation_NoDup (Permutation_sym Hperm)). apply dedup_NoDup.
- apply Forall_forall. intros k Hk.
  apply (Permutation_in _ Hperm) in Hk. unfold keys in Hk.
  exact (proj1 (dedup_in k _) Hk).
Qed.

Lemma sorted_app {A} (R : A -> A -> Prop) (l1 l2 : list A) :
StronglySorted R l1 -> StronglySorted R l2 ->
Forall (fun a => Forall (R a) l2) l1 ->
StronglySorted R (l1 ++ l2).
Proof.
intros H1 H2 Hcross. induction H1 as [| x l1 H1 IH Hx]; simpl; [assumption |].
inversion Hcross; subst.
constructor; [now apply IH |].
apply Forall_app. now split.
Qed.

Lemma sorted_same (t : string) (l : list string) :
Forall (eq t) l -> StronglySorted Chronology.not_after l.
Proof.
intros H. induction H as [| x l <- Hl IH]; constructor; [assumption |].
eapply Forall_impl; [| exact Hl].
intros y <-. apply StringOrder.leb_refl.
Qed.

Lemma trade_days_chronological (ctx : Context) (strategy : Strategy)
  (rng : Entropy) (days : list (string * Frame)) :
forall st st',
  Backtester.trade_days ctx strategy rng st days = Ok st' ->
  StronglySorted Chronology.before (map fst days) ->
  StronglySorted Chronology.before
    (Chronology.capital_stamps (Backtester.sim_book st)) ->
  StronglySorted Chronology.not_after
    (Chronology.trade_stamps (Backtester.sim_book st)) ->
  Forall (fun t => Forall (Chronology.before t) (map fst days))
    (Chronology.capital_stamps (Backtester.sim_book st)
     ++ Chronology.trade_stamps (Backtester.sim_book st)) ->
  StronglySorted Chronology.before
    (Chronology.capital_stamps (Backtester.sim_book st'))
  /\ StronglySorted Chronology.not_after
       (Chronology.trade_stamps (Backtester.sim_book st'))
  /\ Forall (fun t =>
               In t (Chronology.capital_stamps (Backtester.sim_book st)
                     ++ Chronology.trade_stamps (Backtester.sim_book st))
               \/ In t (map fst days))
       (Chronology.capital_stamps (Backtester.sim_book st')
        ++ Chronology.trade_stamps (Backtester.sim_book st')).
Proof.
induction days as [| [timestamp sub_df] days IH];
  intros st st' H Hdays Hcap Htrade Hpast.
- simpl in H. inversion H; subst st'. split; [assumption |].
  split; [assumption |]. apply Forall_forall. intros t Ht. now left.
- cbn [Backtester.trade_days] in H. bind_ok H as st1 Eday.
  apply trade_day_book_shape in Eday.
  destruct Eday as (exits & sold & opens & bought & caps
                    & Hlogs & Hexits & Hopens & _ & _ & Hcaps & Hsnap).
  cbn [map fst] in Hdays, Hpast.
  inversion Hdays as [| ? ? Hdays' Hnext]; subst.
  apply Forall_app in Hpast. destruct Hpast as [Hpc Hpt].
  assert (Hnew : Forall (eq timestamp) (map tl_timestamp (exits ++ opens))).
  { rewrite map_app. apply Forall_app. split; apply Forall_map.
    - eapply Forall2_left; [| exact Hexits]. intros l p (Ht & _). now symmetry.
    - eapply Forall2_left; [| exact Hopens]. intros l p (Ht & _). now symmetry. }
  assert (Hnewc : Forall (eq timestamp) (map cl_timestamp caps)).
  { destruct Hsnap as [-> | ->]; repeat constructor. }
  assert (Hc1 : Chronology.capital_stamps (Backtester.sim_book st1)
                = Chronology.capital_stamps (Backtester.sim_book st)
                  ++ map cl_timestamp caps).
  { unfold Chronology.capital_stamps. now rewrite Hcaps, map_app. }
  assert (Ht1 : Chronology.trade_stamps (Backtester.sim_book st1)
                = Chronology.trade_stamps (Backtester.sim_book st)
                  ++ map tl_timestamp (exits ++ opens)).
  { unfold Chronology.trade_stamps. now rewrite Hlogs, map_app. }
  assert (Hhead : forall l, Forall (fun t => Forall (Chronology.before t)
                                               (timestamp :: map fst days)) l ->
                            Forall (fun t => Chronology.before t timestamp) l).
  { intros l. apply Forall_impl. intros t Ht. now inversion Ht. }
  assert (Htail : forall l, Forall (fun t => Forall (Chronology.before t)
                                               (timestamp :: map fst days)) l ->
                            Forall (fun t => Forall (Chronology.before t)
                                               (map fst days)) l).
  { intros l. apply Forall_impl. intros t Ht. now inversion Ht. }
  assert (Hsame : forall l, Forall (eq timestamp) l ->
                            Forall (fun t => Forall (Chronology.before t)
                                               (map fst days)) l).
  { intros l. apply Forall_impl. intros t <-. exact Hnext. }
  destruct (IH st1 st' H Hdays') as (Hcap' & Htrade' & Hfrom).
  + rewrite Hc1. apply sorted_app; [assumption | |].
    * destruct Hsnap as [-> | ->]; repeat constructor.
    * eapply Forall_impl; [| exact (Hhead _ Hpc)].
      intros t Ht. eapply Forall_impl; [| exact Hnewc]. now intros y <-.
  + rewrite Ht1. apply sorted_app; [assumption | |].
    * now apply (sorted_same timestamp).
    * eapply Forall_impl; [| exact (Hhead _ Hpt)].
      intros t Ht. eapply Forall_impl; [| exact Hnew]. intros y <-.
      apply StringOrder.leb_iff. left. now apply StringOrder.ltb_iff.
  + rewrite Hc1, Ht1.
    apply Forall_app; split; apply Forall_app; split; auto.
  + split; [assumption |]. split; [assumption |].
    eapply Forall_impl; [| exact Hfrom].
    intros t [Ht | Ht]; [| right; now right].
    rewrite Hc1, Ht1 in Ht. rewrite !in_app_iff in Ht. rewrite in_app_iff.
    rewrite Forall_forall in Hnew, Hnewc.
    destruct Ht as [[Ht | Ht] | [Ht | Ht]]; auto.
    * right. left. now apply Hnewc.
    * right. left. now apply Hnew.
Qed.

(** X17.  The trade book a completed run returns is in day order.  The
    capital snapshots carry strictly ascending timestamps, hence at most
    one per day; the trade log's timestamps never descend; and every
    timestamp in either log is the timestamp of a bar of the data. *)
Theorem trade_book_is_chronological
  (ctx : Context) (account : Account.t) (rng : Entropy) (k : nat)
  (df : Frame) (strategy : Strategy) (st : Backtester.Sim) :
Backtester.trade ctx account rng k df strategy = Ok st ->
StronglySorted Chronology.before
  (Chronology.capital_stamps (Backtester.sim_book st))
/\ StronglySorted Chronology.not_after
     (Chronology.trade_stamps (Backtester.sim_book st))
/\ Forall (fun t => In t (map bar_timestamp (df_rows df)))
     (Chronology.capital_stamps (Backtester.sim_book st)
      ++ Chronology.trade_stamps (Backtester.sim_book st)).
Proof.
unfold Backtester.trade. intros H.
destruct (groupby_keys bar_timestamp (Backtester.trade_frame df))
  as [Hsorted Hkeys].
apply trade_days_chronological in H;
  [| assumption | constructor | constructor | constructor].
destruct H as (Hcap & Htrade & Hfrom).
split; [assumption |]. split; [assumption |].
eapply Forall_impl; [| exact Hfrom].
intros t [[] | Ht].
rewrite Forall_forall in Hkeys. apply Hkeys in Ht.
apply in_map_iff in Ht. destruct Ht as (r & <- & Hr).
apply in_map. now apply trade_frame_rows.
Qed.

Lemma trade_book_is_chronological_witness :
exists st,
  Backtester.trade Scenarios.ctx (Scenarios.cash_account 10000)
    (Scenarios.always 0) 0 Chronology.two_days Scenarios.buys_from_20 = Ok st
  /\ StronglySorted Chronology.before
       (Chronology.capital_stamps (Backtester.sim_book st))
  /\ StronglySorted Chronology.not_after
       (Chronology.trade_stamps (Backtester.sim_book st)).
Proof.
eexists. split; [vm_compute; reflexivity |].
pose proof (trade_book_is_chronological Scenarios.ctx
              (Scenarios.cash_account 10000) (Scenarios.always 0) 0
              Chronology.two_days Scenarios.buys_from_20 _
              ltac:(vm_compute; reflexivity)) as (H1 & H2 & _).
split; [exact H1 | exact H2].
Defined.

(** ** Clearing an account *)

Lemma remove_all_covering (ps : list Position) :
forall h,
  Forall (fun cp => In (fst cp) (map pos_code ps)) h ->
  Ledger.remove_all ps h = [].
Proof.
unfold Ledger.remove_all.
induction ps as [| p ps IH]; simpl; intros h Hh.
- destruct h as [| cp h]; [reflexivity |]. inversion Hh; subst. contradiction.
- apply IH. unfold Holdings.remove. rewrite Forall_forall in *.
  intros cp Hcp. apply filter_In in Hcp. destruct Hcp as [Hin Hne].
  destruct (Hh cp Hin) as [Heq | Hrest]; [| assumption].
  rewrite <- Heq, String.eqb_refl in Hne. discriminate.
Qed.

(** X18.  [Account.clear] liquidates an account whose positions are each
    stored under their own symbol: no position is left, the cash grows by
    the positions' mark value net of the rounded sell commission, so that
    the total asset value falls by exactly that commission, and clearing a
    second time changes nothing. *)
Theorem clear_liquidates (a : Account.t) :
Clearing.keyed (Account.holdings a) ->
Account.holdings (Account.clear a) = []
/\ Account.cash_amount (Account.clear a)
   == Account.cash_amount a
      + Account.take_sell_commissions a (Account.get_positions_value a)
/\ Account.get_total_asset_value a
   - Account.get_total_asset_value (Account.clear a)
   == Account.get_positions_value a
      - Account.take_sell_commissions a (Account.get_positions_value a)
/\ Account.clear (Account.clear a) = Account.clear a.
Proof.
intros Hkeyed.
assert (Hempty : Account.holdings (Account.clear a) = []).
{ unfold Account.clear. rewrite sell_holdings.
  apply remove_all_covering.
  unfold Clearing.keyed in Hkeyed. rewrite Forall_forall in *.
  intros cp Hcp. rewrite (Hkeyed cp Hcp).
  apply in_map. now apply in_map. }
assert (Hworth : Ledger.proceeds_total (map snd (Account.holdings a))
                 = Account.get_positions_value a).
{ unfold Ledger.proceeds_total, Account.get_positions_value,
    Holdings.get_total_worth. now rewrite map_map. }
assert (Hcash : Account.cash_amount (Account.clear a)
                == Account.cash_amount a
                   + Account.take_sell_commissions a
                       (Account.get_positions_value a)).
{ unfold Account.clear. rewrite sell_cash. now rewrite Hworth. }
split; [exact Hempty |]. split; [exact Hcash |]. split.
- unfold Account.get_total_asset_value at 2.
  rewrite Hempty, Hcash.
  unfold Account.get_total_asset_value, Account.get_positions_value.
  change (Holdings.get_total_worth []) with 0. lra.
- unfold Account.clear at 1. rewrite Hempty. simpl.
  unfold Account.sell, Holdings.sell. simpl.
  unfold Account.with_holdings. clear Hcash. revert Hempty.
  destruct (Account.clear a) as [b s c h]. simpl. now intros ->.
Qed.

Lemma clear_liquidates_witness :
Account.holdings (Account.clear Clearing.marked_account) = []
/\ Account.cash_amount (Account.clear Clearing.marked_account)
   == 50 + round_val ((2025 # 2) * (1 - (1 # 10) * (1 # 100))).
Proof.
destruct (clear_liquidates Clearing.marked_account) as (H1 & H2 & _).
- repeat constructor.
- split; [exact H1 |]. rewrite H2. vm_compute. reflexivity.
Defined.

(** ** The indicator pipeline keeps the bars *)

Lemma compute_indicators_base (strategy : Strategy)
  (indicators : list (string * list string)) :
forall bars_df out,
  Backtester.compute_indicators strategy indicators bars_df = Ok out ->
  map Indicators.base_fields (df_rows out)
  = map Indicators.base_fields (df_rows bars_df).
Proof.
induction indicators as [| [ind preds] indicators IH]; intros bars_df out H.
- simpl in H. now inversion H.
- cbn [Backtester.compute_indicators] in H.
  destruct (DataFrame.has_column bars_df ind); [now apply IH |].
  destruct (indicator_method strategy ind) as [method |]; [| discriminate].
  bind_ok H as cols Ecols. bind_ok H as df1 Eset.
  apply set_column_spec in Eset. destruct Eset as (_ & _ & _ & Hbase).
  rewrite <- Hbase. now apply IH.
Qed.

Lemma filter_split {A} (p q : A -> bool) (l : list A) :
(forall x, In x l -> p x = true -> q x = true -> False) ->
Permutation (filter p l ++ filter q l) (filter (fun x => p x || q x) l).
Proof.
induction l as [| x l IH]; intros Hdisj; simpl; [constructor |].
assert (IH' : Permutation (filter p l ++ filter q l)
                (filter (fun x => p x || q x) l))
  by (apply IH; intros y Hy; apply Hdisj; now right).
destruct (p x) eqn:Ep, (q x) eqn:Eq; simpl.
- exfalso. apply (Hdisj x); auto. now left.
- now constructor.
- apply Permutation_sym. apply Permutation_cons_app. now apply Permutation_sym.
- exact IH'.
Qed.

Lemma groups_partition (key : Bar -> string) (rows : list Bar)
  (keys : list string) :
NoDup keys ->
Permutation
  (flat_map (fun k => filter (fun r => String.eqb (key r) k) rows) keys)
  (filter (fun r => DataFrame.mem (key r) keys) rows).
Proof.
intros Hnd. induction Hnd as [| k keys Hk Hnd IH]; simpl.
- induction rows as [| r rows IHr]; simpl; [constructor | exact IHr].
- eapply Permutation_trans;
    [apply Permutation_app_head; exact IH |].
  unfold DataFrame.mem. simpl. apply filter_split.
  intros r _ Heq Hmem. apply String.eqb_eq in Heq. subst k.
  apply Hk. now apply mem_iff.
Qed.

(** The groups of [groupby] partition the rows of the frame. *)
Lemma groupby_partition (key : Bar -> string) (df : Frame) :
Permutation (flat_map df_rows (map snd (DataFrame.groupby key df)))
  (df_rows df).
Proof.
unfold DataFrame.groupby. rewrite map_map. cbn [snd].
rewrite flat_map_concat_map, map_map. cbn [df_rows DataFrame.with_rows].
rewrite <- flat_map_concat_map.
set (keys := DataFrame.sort String.leb
               (DataFrame.dedup (map key (df_rows df)))).
assert (Hperm : Permutation keys (DataFrame.dedup (map key (df_rows df))))
  by apply sort_perm.
eapply Permutation_trans.
- apply groups_partition.
  apply (Permutation_NoDup (Permutation_sym Hperm)). apply dedup_NoDup.
- assert (Hall : forall r, In r (df_rows df) ->
                           DataFrame.mem (key r) keys = true).
  { intros r Hr. apply mem_iff.
    apply (Permutation_in _ (Permutation_sym Hperm)).
    apply dedup_in. now apply in_map. }
  clear Hperm. clearbody keys.
  induction (df_rows df) as [| r rows IH]; simpl; [constructor |].
  rewrite (Hall r (or_introl eq_refl)). constructor.
  apply IH. intros r' Hr'. apply Hall. now right.
Qed.

Lemma adjust_then_compute_keeps_bars (ctx : Context) (strategy : Strategy)
  (indicators : list (string * list string)) (bars_df out : Frame) :
hfq_adjust_factors ctx = None ->
Hooks.default strategy ->
Backtester._adjust_then_compute ctx bars_df indicators strategy = Ok out ->
Permutation (map Indicators.base_fields (df_rows out))
  (map Indicators.base_fields (df_rows bars_df)).
Proof.
intros Hnone [Hpre Hpost] H. unfold Backtester._adjust_then_compute in H.
destruct (df_rows bars_df) as [| first rest] eqn:Erows; [discriminate |].
rewrite Hpre, Hnone in H. unfold DataFrame.is_empty in H.
cbn [df_rows DataFrame.with_rows] in H.
pose proof (sort_perm (fun r1 r2 => String.leb (bar_timestamp r1)
                                      (bar_timestamp r2)) (first :: rest))
  as Hperm.
fold (DataFrame.sort_by_timestamp (first :: rest)) in Hperm.
destruct (DataFrame.sort_by_timestamp (first :: rest)) as [| s0 sorted] eqn:Es.
{ apply Permutation_nil in Hperm. discriminate. }
cbn [bind] in H. bind_ok H as computed Ecomp.
inversion H; subst out. rewrite Hpost.
rewrite (compute_indicators_base _ _ _ _ Ecomp).
cbn [df_rows DataFrame.with_rows]. now apply Permutation_map.
Qed.

Lemma pipeline_rows_keep_bars (ctx : Context) (strategy : Strategy)
  (indicators : list (string * list string)) (groups : list Frame) :
hfq_adjust_factors ctx = None ->
Hooks.default strategy ->
forall rows,
  Pipeline.rows ctx strategy indicators groups = Ok rows ->
  Permutation (map Indicators.base_fields rows)
    (map Indicators.base_fields (flat_map df_rows groups)).
Proof.
intros Hnone Hhooks. unfold Pipeline.rows.
induction groups as [| g groups IH]; intros rows H.
- simpl in H. inversion H. constructor.
- cbn [mapM] in H.
  destruct (Backtester._adjust_then_compute ctx g indicators strategy)
    as [f |] eqn:Ef; cbn [bind] in H; [| discriminate].
  destruct (mapM _ groups) as [frames |] eqn:Eframes; cbn [bind] in H;
    [| discriminate].
  inversion H; subst rows. cbn [flat_map]. rewrite !map_app.
  apply Permutation_app.
  + now apply (adjust_then_compute_keeps_bars ctx strategy indicators).
  + now apply IH.
Qed.

Ltac crack_char n :=
destruct n as [| [[] [] [] [] [] [] [] []] n]; try reflexivity.

(** Re-indexing by code leaves the rows alone. *)
Lemma by_code_rows (df : Frame) :
df_rows (Pipeline.by_code df) = df_rows df.
Proof.
unfold Pipeline.by_code.
destruct (df_index df) as [| n l]; [reflexivity |].
destruct l as [| n' ns].
- crack_char n. crack_char n. crack_char n. crack_char n.
  destruct n; reflexivity.
- crack_char n. crack_char n. crack_char n. crack_char n.
  destruct n; reflexivity.
Qed.

(** X19.  Without adjust factors and with the default pre- and
    post-processing hooks, a completed [get_indicators_df] neither drops
    nor invents a bar: the result holds the bars of the input, each with
    its key, company, volume and prices, up to order.  On a dataset with
    no bar and an indicator still to compute it raises ValueError. *)
Theorem get_indicators_df_keeps_bars
  (ctx : Context) (df : Frame) (strategy : Strategy) :
(hfq_adjust_factors ctx = None ->
 Hooks.default strategy ->
 forall out,
   Backtester.get_indicators_df ctx df strategy = Ok out ->
   Permutation (map Indicators.base_fields (df_rows out))
     (map Indicators.base_fields (df_rows df)))
/\ (df_rows df = [] ->
    Pipeline.pending df strategy <> [] ->
    Backtester.get_indicators_df ctx df strategy = Raise ValueError).
Proof.
split.
- intros Hnone Hhooks out H.
  apply get_indicators_df_rows in H.
  destruct H as [[_ ->] | [_ Hrows]]; [reflexivity |].
  apply (pipeline_rows_keep_bars ctx strategy _ _ Hnone Hhooks) in Hrows.
  eapply Permutation_trans; [exact Hrows |].
  apply Permutation_map.
  eapply Permutation_trans; [apply groupby_partition |].
  now rewrite by_code_rows.
- intros Hempty Hpending. unfold Backtester.get_indicators_df.
  fold (Pipeline.pending df strategy).
  destruct (Pipeline.pending df strategy) as [| ip ips]; [congruence |].
  fold (Pipeline.by_code df).
  unfold DataFrame.groupby. rewrite by_code_rows, Hempty. reflexivity.
Qed.

Lemma get_indicators_df_keeps_bars_witness :
exists out,
  Backtester.get_indicators_df Scenarios.ctx Pipeline.two_symbols
    Pipeline.copies_close = Ok out
  /\ Permutation (map Indicators.base_fields (df_rows out))
       (map Indicators.base_fields (df_rows Pipeline.two_symbols))
  /\ Backtester.get_indicators_df Scenarios.ctx Hooks.no_bars
       Pipeline.copies_close = Raise ValueError.
Proof.
eexists. split; [vm_compute; reflexivity |]. split.
- apply (proj1 (get_indicators_df_keeps_bars Scenarios.ctx
                  Pipeline.two_symbols Pipeline.copies_close));
    [reflexivity | split; reflexivity | vm_compute; reflexivity].
- apply (proj2 (get_indicators_df_keeps_bars Scenarios.ctx Hooks.no_bars
                  Pipeline.copies_close)); [reflexivity |].
  vm_compute. discriminate.
Defined.

(** ** What stops a trading day *)

Lemma holdings_tick_raise (timestamp : string) (sub_df : Frame)
  (h : Holdings.t) (e : exn) :
Holdings.tick (Backtester.price_lookup timestamp sub_df) h = Raise e ->
e = KeyError /\ Failures.absent_holding timestamp sub_df h.
Proof.
induction h as [| [c p] h IH]; simpl; intros H; [discriminate |].
unfold Backtester.price_lookup at 1 in H.
destruct (DataFrame.loc sub_df timestamp (pos_code p)) as [b |] eqn:Eloc;
  cbn [bind] in H.
- destruct (Holdings.tick (Backtester.price_lookup timestamp sub_df) h)
    as [rest | e1]; cbn [bind] in H; [discriminate |].
  inversion H; subst e1. destruct (IH eq_refl) as (He & code & pos & Hin & Hno).
  split; [exact He |]. exists code, pos. split; [now right | exact Hno].
- inversion H. split; [reflexivity |]. exists c, p. split; [now left | exact Eloc].
Qed.

Lemma buy_signals_raise (account : Account.t) (df : Frame)
  (strategy : Strategy) (e : exn) :
Backtester.get_buy_signals account df strategy = Raise e ->
e = AttributeError /\ Failures.missing_indicator df strategy.
Proof.
unfold Backtester.get_buy_signals. intros H.
destruct (filterM _ (df_rows df)) as [rows | e1] eqn:E; cbn [bind] in H;
  [discriminate |].
inversion H; subst e1. apply filterM_raise in E.
destruct E as (row & Hin & Hrow).
destruct (DataFrame.mem (bar_code row) _); [discriminate |].
apply apply_predicate_raise in Hrow. destruct Hrow as (He & ind & Hind & Hcell).
split; [exact He |]. exists row, ind.
split; [exact Hin |]. split; [| exact Hcell]. apply in_or_app. now left.
Qed.

Lemma close_signals_raise (account : Account.t) (df : Frame)
  (strategy : Strategy) (e : exn) :
Backtester.get_close_signals account df strategy = Raise e ->
e = AttributeError /\ Failures.missing_indicator df strategy.
Proof.
unfold Backtester.get_close_signals. intros H.
destruct (close_indicators strategy) as [| ci cis] eqn:Eci; [discriminate |].
destruct (Holdings.position_codes (Account.holdings account));
  [discriminate |].
destruct (filterM _ (df_rows df)) as [rows | e1] eqn:E; cbn [bind] in H;
  [discriminate |].
inversion H; subst e1. apply filterM_raise in E.
destruct E as (row & Hin & Hrow).
destruct (DataFrame.mem (bar_code row) _); [| discriminate].
apply apply_predicate_raise in Hrow. destruct Hrow as (He & ind & Hind & Hcell).
split; [exact He |]. exists row, ind.
split; [exact Hin |]. split; [| exact Hcell].
apply in_or_app. right. now rewrite Eci.
Qed.

(** Every buy signal is the index of a row of the frame, so locating the
    signalled rows cannot fail. *)
Lemma buy_signals_located (account : Account.t) (df : Frame)
  (strategy : Strategy) (buy_indices : list (string * string)) :
Backtester.get_buy_signals account df strategy = Ok buy_indices ->
exists rows, loc_all df buy_indices = Ok rows.
Proof.
unfold Backtester.get_buy_signals. intros H.
bind_ok H as signalled Erows. inversion H; subst buy_indices.
apply filterM_in in Erows.
assert (Hin : Forall (fun r => In r (df_rows df)) signalled).
{ eapply Forall_impl; [| exact Erows]. now intros r [Hr _]. }
clear Erows H. unfold loc_all.
induction Hin as [| r signalled Hr _ IH]; simpl; [now exists [] |].
destruct IH as (rows & ->). unfold DataFrame.loc.
destruct (find _ (df_rows df)) as [r' |] eqn:Efind; cbn [bind].
- now eexists.
- apply (find_none _ _ Efind) in Hr. unfold Backtester.row_index in Hr.
  simpl in Hr. now rewrite !String.eqb_refl in Hr.
Qed.

(** With signals at hand and a positive max-opens limit, building the
    pool cannot fail. *)
Lemma pool_never_fails (ctx : Context) (account account' : Account.t)
  (rng : Entropy) (k : nat) (df : Frame) (strategy : Strategy)
  (buy_indices : list (string * string)) (budget : Q) (e : exn) :
(0 < max_position_opens ctx)%Z ->
Backtester.get_buy_signals account' df strategy = Ok buy_indices ->
buy_indices <> [] ->
get_pool_and_budget ctx account rng k df buy_indices budget <> Raise e.
Proof.
intros Hmax Hsig Hne.
pose proof (buy_signals_length _ _ _ _ Hsig) as Hlen.
destruct (buy_signals_located _ _ _ _ Hsig) as (rows & Eloc).
unfold get_pool_and_budget. rewrite Eloc. cbn [bind df_rows DataFrame.with_rows].
pose proof (mapM_length _ _ _ Eloc) as Hrows.
destruct (max_position_opens ctx <? Z.of_nat (List.length rows))%Z eqn:Emax.
- apply Z.ltb_lt in Emax. unfold Random.sample.
  assert (E1 : (max_position_opens ctx <? 0)%Z = false)
    by (apply Z.ltb_ge; lia).
  assert (E2 : (Z.of_nat (List.length (df_rows df))
                <? max_position_opens ctx)%Z = false)
    by (apply Z.ltb_ge; lia).
  rewrite E1, E2. cbn [bind df_rows DataFrame.with_rows].
  pose proof (draw_length rng (Z.to_nat (max_position_opens ctx)) k
                (df_rows df) ltac:(lia)) as Hdraw.
  destruct (Random.draw rng k (df_rows df)
              (Z.to_nat (max_position_opens ctx))) as [| r0 rest];
    [simpl in Hdraw; lia | discriminate].
- cbn [bind df_rows DataFrame.with_rows].
  destruct rows as [| r0 rest]; [| discriminate].
  destruct buy_indices; [congruence | simpl in Hrows; lia].
Qed.

(** X20.  With a positive max-opens limit a trading day can only stop in
    three ways: a KeyError because a held symbol has no bar that day, an
    AttributeError because a buy or close indicator is not a column of
    some row, or an AssertionError because some bar closes at zero.  When
    none of the three conditions holds, the day completes. *)
Theorem trade_day_stops_only_three_ways
  (ctx : Context) (strategy : Strategy) (rng : Entropy)
  (st : Backtester.Sim) (timestamp : string) (sub_df : Frame) :
(0 < max_position_opens ctx)%Z ->
(forall e,
    Backtester.trade_day ctx strategy rng st timestamp sub_df = Raise e ->
    (e = KeyError
     /\ Failures.absent_holding timestamp sub_df
          (Account.holdings (Backtester.sim_account st)))
    \/ (e = AttributeError /\ Failures.missing_indicator sub_df strategy)
    \/ (e = AssertionError /\ Failures.zero_close_bar sub_df))
/\ (~ Failures.absent_holding timestamp sub_df
        (Account.holdings (Backtester.sim_account st)) ->
    ~ Failures.missing_indicator sub_df strategy ->
    ~ Failures.zero_close_bar sub_df ->
    exists st',
      Backtester.trade_day ctx strategy rng st timestamp sub_df = Ok st').
Proof.
intros Hmax.
assert (Hraise : forall e,
  Backtester.trade_day ctx strategy rng st timestamp sub_df = Raise e ->
  (e = KeyError
   /\ Failures.absent_holding timestamp sub_df
        (Account.holdings (Backtester.sim_account st)))
  \/ (e = AttributeError /\ Failures.missing_indicator sub_df strategy)
  \/ (e = AssertionError /\ Failures.zero_close_bar sub_df)).
{ intros e H. unfold Backtester.trade_day in H.
  destruct (Account.tick (Backtester.sim_account st)
              (Backtester.price_lookup timestamp sub_df))
    as [account | e1] eqn:Etick; cbn [bind] in H.
  2:{ inversion H; subst e1. left. unfold Account.tick in Etick.
      destruct (Account.holdings (Backtester.sim_account st)) as [| cp h];
        [discriminate |].
      destruct (Holdings.tick _ (cp :: h)) as [h' | e2] eqn:Eh;
        cbn [bind] in Etick; [discriminate |].
      inversion Etick; subst e2. now apply holdings_tick_raise. }
  destruct (Backtester.get_close_signals account sub_df strategy)
    as [close_indices | e1] eqn:Eclose; cbn [bind] in H.
  2:{ inversion H; subst e1. right. left.
      now apply (close_signals_raise account). }
  destruct (Backtester.exit_loop ctx timestamp sub_df close_indices
              (Account.holdings account, Backtester.sim_book st, [])
              (Account.holdings account))
    as [[[h book] sells] | e1] eqn:Eexit; cbn [bind] in H.
  2:{ inversion H; subst e1. right. right.
      apply exit_loop_raise_shape in Eexit.
      destruct Eexit as (He & code & pos & bar & _ & Hloc & _ & Hzero).
      split; [exact He |]. exists bar. split; [| exact Hzero].
      unfold DataFrame.loc in Hloc. now apply find_some in Hloc. }
  set (account2 := match sells with
                   | [] => Account.with_holdings account h
                   | _ :: _ =>
                       Account.sell (Account.with_holdings account h) sells
                   end) in *.
  destruct (Backtester.get_buy_signals account2 sub_df strategy)
    as [buy_indices | e1] eqn:Ebuy; cbn [bind] in H.
  2:{ inversion H; subst e1. right. left.
      now apply (buy_signals_raise account2). }
  destruct buy_indices as [| idx rest]; [discriminate H |].
  destruct (get_pool_and_budget ctx account2 rng (Backtester.sim_draws st)
              sub_df (idx :: rest) (Account.cash_amount account2))
    as [[[pool_df budget] k] | e1] eqn:Epool.
  - cbn [bind] in H.
    destruct (generate_positions ctx rng k pool_df budget) as [ps k4].
    discriminate H.
  - exfalso.
    apply (pool_never_fails ctx account2 account2 rng
             (Backtester.sim_draws st) sub_df strategy (idx :: rest)
             (Account.cash_amount account2) e1 Hmax Ebuy);
      [discriminate | exact Epool]. }
split; [exact Hraise |].
intros Habsent Hmissing Hzero.
destruct (Backtester.trade_day ctx strategy rng st timestamp sub_df)
  as [st' | e] eqn:E; [now exists st' |].
destruct (Hraise e eq_refl) as [[_ H] | [[_ H] | [_ H]]]; contradiction.
Qed.

Lemma trade_day_stops_only_three_ways_witness :
exists st',
  Backtester.trade_day Scenarios.ctx Scenarios.buys_from_20
    (Scenarios.always 0) (Scenarios.start (Scenarios.holding_account 10000))
    Scenarios.day Scenarios.three_symbols = Ok st'.
Proof.
apply (proj2 (trade_day_stops_only_three_ways Scenarios.ctx
                Scenarios.buys_from_20 (Scenarios.always 0)
                (Scenarios.start (Scenarios.holding_account 10000))
                Scenarios.day Scenarios.three_symbols ltac:(reflexivity))).
- intros (code & pos & [Hin | []] & Hloc). inversion Hin; subst.
  vm_compute in Hloc. discriminate.
- intros (row & ind & Hrow & [<- | []] & Hcell).
  destruct Hrow as [<- | [<- | [<- | []]]]; vm_compute in Hcell; discriminate.
- intros (bar & Hbar & Hzero).
  destruct Hbar as [<- | [<- | [<- | []]]]; vm_compute in Hzero; discriminate.
Defined.

(** ** The holdings stay a dict of positions by symbol *)

Lemma well_formed_insert (p : Position) (h : Holdings.t) :
Clearing.well_formed h ->
Clearing.well_formed (Holdings.insert (pos_code p) p h).
Proof.
intros [Hkeyed Hdict]. split.
- clear Hdict. unfold Clearing.keyed in *.
  induction h as [| [k q] h IH]; simpl.
  + repeat constructor.
  + inversion Hkeyed as [| ? ? Hk Hrest]; subst. simpl in Hk.
    destruct (String.eqb k (pos_code p)) eqn:E.
    * apply String.eqb_eq in E. constructor; [exact E | exact Hrest].
    * constructor; [exact Hk | now apply IH].
- unfold Ledger.dict_like in *.
  destruct (in_dec string_dec (pos_code p) (Holdings.position_codes h))
    as [Hin | Hout].
  + now rewrite codes_insert_held.
  + rewrite codes_insert_fresh by assumption.
    apply NoDup_app; [assumption | repeat constructor; now intros [] |].
    intros x Hx [<- | []]. contradiction.
Qed.

Lemma well_formed_remove (c : string) (h : Holdings.t) :
Clearing.well_formed h -> Clearing.well_formed (Holdings.remove c h).
Proof.
intros [Hkeyed Hdict]. split; [| now apply dict_like_remove].
unfold Clearing.keyed, Holdings.remove in *. rewrite Forall_forall in *.
intros cp Hcp. apply filter_In in Hcp. now apply Hkeyed.
Qed.

Lemma well_formed_tick (lookup : Holdings.PriceLookupFun) (h : Holdings.t) :
forall h',
  Holdings.tick lookup h = Ok h' ->
  Clearing.well_formed h -> Clearing.well_formed h'.
Proof.
intros h' H [Hkeyed Hdict]. split.
- clear Hdict. revert h' H.
  induction h as [| [c p] h IH]; simpl; intros h' H.
  + inversion H. constructor.
  + bind_ok H as price Eprice. bind_ok H as rest Erest. inversion H; subst.
    inversion Hkeyed as [| ? ? Hc Hrest]; subst.
    constructor; [exact Hc | now apply IH].
- unfold Ledger.dict_like. now rewrite (tick_codes _ _ _ H).
Qed.

Lemma well_formed_exit_loop (ctx : Context) (timestamp : string)
  (sub_df : Frame) (close_indices : list (string * string))
  (entries : list (string * Position)) :
forall h book sold h' book' sold',
  Backtester.exit_loop ctx timestamp sub_df close_indices (h, book, sold)
    entries = Ok (h', book', sold') ->
  Clearing.keyed entries ->
  Clearing.well_formed h -> Clearing.well_formed h'.
Proof.
induction entries as [| [code pos] entries IH];
  intros h book sold h' book' sold' H Hentries Hwf.
- simpl in H. now inversion H; subst.
- cbn [Backtester.exit_loop] in H.
  destruct (Backtester.exit_step ctx timestamp sub_df close_indices
              (h, book, sold) (code, pos)) as [[[h1 book1] sold1] | e] eqn:Estep;
    cbn [bind] in H; [| discriminate].
  inversion Hentries as [| ? ? Hcode Hrest]; subst. simpl in Hcode.
  apply (IH _ _ _ _ _ _ H Hrest).
  apply exit_step_ok_shape in Estep.
  destruct Estep as [Hsame | (l & q & _ & Hacc & _)].
  + now inversion Hsame; subst.
  + inversion Hacc; subst h1 book1 sold1. rewrite Hcode.
    now apply (well_formed_insert (close pos q)).
Qed.

Lemma well_formed_buy (a : Account.t) (ps : list Position) :
Clearing.well_formed (Account.holdings a) ->
Clearing.well_formed (Account.holdings (Account.buy a ps)).
Proof.
rewrite buy_holdings. unfold Ledger.insert_all.
generalize (Account.holdings a).
induction ps as [| p ps IH]; simpl; intros h Hwf; [assumption |].
apply IH. now apply well_formed_insert.
Qed.

Lemma well_formed_sell (a : Account.t) (ps : list Position) :
Clearing.well_formed (Account.holdings a) ->
Clearing.well_formed (Account.holdings (Account.sell a ps)).
Proof.
rewrite sell_holdings. unfold Ledger.remove_all.
generalize (Account.holdings a).
induction ps as [| p ps IH]; simpl; intros h Hwf; [assumption |].
apply IH. now apply well_formed_remove.
Qed.

Lemma well_formed_trade_day (ctx : Context) (strategy : Strategy)
  (rng : Entropy) (st st' : Backtester.Sim) (timestamp : string)
  (sub_df : Frame) :
Backtester.trade_day ctx strategy rng st timestamp sub_df = Ok st' ->
Clearing.well_formed (Account.holdings (Backtester.sim_account st)) ->
Clearing.well_formed (Account.holdings (Backtester.sim_account st')).
Proof.
unfold Backtester.trade_day. intros H Hwf.
bind_ok H as account Etick.
assert (Hwf1 : Clearing.well_formed (Account.holdings account)).
{ unfold Account.tick in Etick.
  destruct (Account.holdings (Backtester.sim_account st)) as [| cp h] eqn:Eh.
  - inversion Etick; subst. now rewrite Eh.
  - bind_ok Etick as h' Eh'. inversion Etick; subst. simpl.
    now apply (well_formed_tick _ _ _ Eh'). }
bind_ok H as close_indices Eclose.
bind_ok H as [[h book] sells] Eexit.
apply well_formed_exit_loop in Eexit; [| exact (proj1 Hwf1) | exact Hwf1].
set (account2 := match sells with
                 | [] => Account.with_holdings account h
                 | _ :: _ => Account.sell (Account.with_holdings account h) sells
                 end) in *.
assert (Hwf2 : Clearing.well_formed (Account.holdings account2)).
{ unfold account2. destruct sells; [exact Eexit |]. now apply well_formed_sell. }
bind_ok H as buy_indices Ebuy.
bind_ok H as [[account3 book3] k3] Ebought.
inversion H; subst st'. cbn [Backtester.sim_account].
destruct buy_indices as [| idx rest].
- now inversion Ebought; subst.
- bind_ok Ebought as [[pool_df budget] k] Epool.
  destruct (generate_positions ctx rng k pool_df budget) as [ps k4].
  inversion Ebought; subst. now apply well_formed_buy.
Qed.

(** X21.  A completed run leaves the holdings a dict of positions by
    symbol when it starts from one: every held position is stored under
    its own symbol and no symbol is stored twice, whatever the strategy,
    the data and the random draws.  In particular a run that starts with
    no position ends in such a state. *)
Theorem trade_keeps_holdings_by_symbol
  (ctx : Context) (account : Account.t) (rng : Entropy) (k : nat)
  (df : Frame) (strategy : Strategy) (st : Backtester.Sim) :
Backtester.trade ctx account rng k df strategy = Ok st ->
(Clearing.well_formed (Account.holdings account) ->
 Clearing.well_formed (Account.holdings (Backtester.sim_account st)))
/\ (Account.holdings account = [] ->
    Clearing.well_formed (Account.holdings (Backtester.sim_account st))).
Proof.
unfold Backtester.trade. intros H.
assert (Hinv : forall days st0 st1,
           Backtester.trade_days ctx strategy rng st0 days = Ok st1 ->
           Clearing.well_formed (Account.holdings (Backtester.sim_account st0)) ->
           Clearing.well_formed (Account.holdings (Backtester.sim_account st1))).
{ induction days as [| [timestamp sub_df] days IH]; simpl; intros st0 st1 H0 Hwf.
  - now inversion H0; subst.
  - bind_ok H0 as st2 Eday. apply (IH _ _ H0).
    now apply (well_formed_trade_day _ _ _ _ _ _ _ Eday). }
split.
- intros Hwf. now apply (Hinv _ _ _ H).
- intros Hempty. apply (Hinv _ _ _ H). simpl. rewrite Hempty.
  split; constructor.
Qed.

Lemma trade_keeps_holdings_by_symbol_witness :
exists st,
  Backtester.trade Scenarios.ctx (Scenarios.cash_account 10000)
    (Scenarios.always 0) 0 Chronology.two_days Scenarios.buys_from_20 = Ok st
  /\ Clearing.well_formed (Account.holdings (Backtester.sim_account st)).
Proof.
eexists. split; [vm_compute; reflexivity |].
apply (proj2 (trade_keeps_holdings_by_symbol Scenarios.ctx
                (Scenarios.cash_account 10000) (Scenarios.always 0) 0
                Chronology.two_days Scenarios.buys_from_20 _
                ltac:(vm_compute; reflexivity))).
reflexivity.
Defined.
